(** * Verification of the semantic todo store (Electron main process)

    The development embeds the IPC handlers of the main process
    ([add-todo], [get-todos], [search-todos], [seed-demo-data],
    [update-todo], [delete-todo]), the start-up routine [initializeApp] and
    the click handlers of the renderer that feed them.

    The handlers talk to three things that are not part of the repository:
    the LanceDB table, the sentence-embedding pipeline and the JavaScript
    runtime ([Date], [nanoid]).  The table is modelled as the list of its
    rows in storage order together with an interpreter for the filter
    strings the handlers build; the pipeline, the distance metric and
    [Date] parsing are parameters of the development.

    A handler runs from its first line to its [return] without another
    handler running in between (callers await each reply); [initializeApp]
    on the other hand is interleaved with requests at each of its
    [await]s. *)

From Stdlib Require Import String Ascii List ZArith QArith Bool Lia Lqa.
From Stdlib Require Import DecimalString DecimalZ DecimalNat.
From Stdlib Require Import Sorting.Permutation Sorting.Sorted.
Import ListNotations.

#[local] Open Scope string_scope.
#[local] Open Scope Z_scope.

Set Warnings "-register-all".

(** ** JavaScript values exchanged over IPC *)

(** Replies are plain object literals; they are kept as such, field names
    included, so that a statement about a reply reads like the literal in
    the source. *)
Inductive JsVal : Type :=
| JUndefined
| JBool (b : bool)
| JNum (z : Z)
| JFloat (q : Q)
| JStr (s : string)
| JArr (items : list JsVal)
| JObj (fields : list (string * JsVal)).

Fixpoint js_lookup (k : string) (fields : list (string * JsVal)) : option JsVal :=
  match fields with
  | [] => None
  | (k', v) :: rest => if String.eqb k k' then Some v else js_lookup k rest
  end.

(** [o.k] *)
Definition js_get (k : string) (o : JsVal) : JsVal :=
  match o with
  | JObj fields => match js_lookup k fields with Some v => v | None => JUndefined end
  | _ => JUndefined
  end.

(** the own property names of an object literal, in order *)
Definition js_keys (o : JsVal) : list string :=
  match o with
  | JObj fields => map fst fields
  | _ => []
  end.

(** numeric reading of a field, as used by the subtraction in the sort
    comparator *)
Definition js_num (v : JsVal) : Z :=
  match v with
  | JNum z => z
  | _ => 0
  end.

(** does the property name [k] occur anywhere inside the value? *)
Fixpoint has_key (k : string) (v : JsVal) : bool :=
  match v with
  | JArr items => existsb (has_key k) items
  | JObj fields =>
      (fix in_fields (fs : list (string * JsVal)) : bool :=
         match fs with
         | [] => false
         | (k', v') :: rest => String.eqb k k' || has_key k v' || in_fields rest
         end) fields
  | _ => false
  end.

(** ** Strings *)

(** A string holds the UTF-8 bytes of the JavaScript string (an unpaired
    surrogate, should there be one, as the three bytes of its code point).

    [String.prototype.trim] strips the white space and the line
    terminators of ECMAScript from both ends.  In UTF-8 these are
    - one byte: U+0009 to U+000D and U+0020;
    - two bytes: U+00A0 (C2 A0);
    - three bytes: U+1680 (E1 9A 80), U+2000 to U+200A (E2 80 80 to
      E2 80 8A), U+2028 and U+2029 (E2 80 A8, E2 80 A9), U+202F
      (E2 80 AF), U+205F (E2 81 9F), U+3000 (E3 80 80) and U+FEFF
      (EF BB BF). *)
Definition white_space_1 (c : ascii) : bool :=
  let n := nat_of_ascii c in
  ((9 <=? n) && (n <=? 13))%nat || (n =? 32)%nat.

Definition white_space_2 (c1 c2 : ascii) : bool :=
  ((nat_of_ascii c1 =? 194) && (nat_of_ascii c2 =? 160))%nat.

Definition white_space_3 (c1 c2 c3 : ascii) : bool :=
  let n1 := nat_of_ascii c1 in
  let n2 := nat_of_ascii c2 in
  let n3 := nat_of_ascii c3 in
  ((n1 =? 225) && (n2 =? 154) && (n3 =? 128)
   || (n1 =? 226) && (n2 =? 128)
      && ((128 <=? n3) && (n3 <=? 138) || (n3 =? 168) || (n3 =? 169) || (n3 =? 175))
   || (n1 =? 226) && (n2 =? 129) && (n3 =? 159)
   || (n1 =? 227) && (n2 =? 128) && (n3 =? 128)
   || (n1 =? 239) && (n2 =? 187) && (n3 =? 191))%nat.

Fixpoint trim_start (s : string) : string :=
  match s with
  | String c1 s1 =>
      if white_space_1 c1 then trim_start s1
      else
        match s1 with
        | String c2 s2 =>
            if white_space_2 c1 c2 then trim_start s2
            else
              match s2 with
              | String c3 s3 =>
                  if white_space_3 c1 c2 c3 then trim_start s3 else s
              | EmptyString => s
              end
        | EmptyString => s
        end
  | EmptyString => EmptyString
  end.

(** the longest white-space suffix goes: a string that is white space
    throughout becomes empty, any other keeps its first byte *)
Fixpoint trim_end (s : string) : string :=
  match s with
  | String c s' =>
      match trim_start s with
      | EmptyString => EmptyString
      | _ => String c (trim_end s')
      end
  | EmptyString => EmptyString
  end.

Definition trim (s : string) : string := trim_end (trim_start s).

(** truthiness of a string value: [if (text)] *)
Definition truthy (s : string) : bool :=
  match s with EmptyString => false | _ => true end.

(** Template-literal rendering of an integral number: [`${n}`]. *)
Definition number_to_string (z : Z) : string :=
  NilZero.string_of_int (Z.to_int z).

Definition nat_to_string (n : nat) : string :=
  NilZero.string_of_uint (Nat.to_uint n).

(** [Array.prototype.join] *)
Fixpoint join (sep : string) (parts : list string) : string :=
  match parts with
  | [] => ""
  | [p] => p
  | p :: rest => p ++ sep ++ join sep rest
  end.

(** A stable insertion sort for a boolean "may stay in front of" relation. *)
Section Sort.
Context {A : Type} (leb : A -> A -> bool).

Fixpoint sort_insert (x : A) (l : list A) : list A :=
  match l with
  | [] => [x]
  | y :: l' => if leb x y then x :: l else y :: sort_insert x l'
  end.

Fixpoint stable_sort (l : list A) : list A :=
  match l with
  | [] => []
  | x :: l' => sort_insert x (stable_sort l')
  end.
End Sort.

(** [Array.prototype.sort] with a comparator: the sort is stable, an element
    stays in front of a later one unless the comparator is positive. *)
Definition js_sort {A : Type} (cmp : A -> A -> Z) (l : list A) : list A :=
  stable_sort (fun a b => cmp a b <=? 0) l.

(** ** The filter language of the table

    Modelled from the spec: the table is an external library; its
    [deleteWhere(predicate: string)] and the optional predicate of
    [searchNearest] take "a simple equality/range predicate over id or
    timestamp" as a string.

    [table.delete(filter)] and [query.where(filter)] take an SQL condition as
    a string.  The handlers only ever build conjunctions of comparisons of a
    column with a literal, and that fragment is what is interpreted here: a
    tokenizer (white space, words, numbers, comparison operators and
    double-quoted string literals, in which a doubled quote stands for one
    quote character) and a parser for [cmp AND cmp AND ...].  A string that
    is not a condition of this fragment makes the table operation throw. *)

Inductive CmpOp : Type := OpEq | OpLt | OpLe | OpGt | OpGe.

Inductive Token : Type :=
| TWord (w : string)
| TNumber (z : Z)
| TString (s : string)
| TOp (o : CmpOp).

Inductive LexState : Type :=
| LIdle
| LWord (acc : string)
| LString (acc : string)
| LQuote (acc : string)      (* a quote was read inside a string literal *)
| LAngle (c : ascii).        (* "<" or ">" was read *)

Definition is_digit (c : ascii) : bool :=
  let n := nat_of_ascii c in ((48 <=? n) && (n <=? 57))%nat.

Definition is_word_char (c : ascii) : bool :=
  let n := nat_of_ascii c in
  is_digit c || ((65 <=? n) && (n <=? 90))%nat || ((97 <=? n) && (n <=? 122))%nat
  || (n =? 95)%nat || (n =? 45)%nat.

Definition dquote : ascii := ascii_of_nat 34.

Definition snoc (s : string) (c : ascii) : string := s ++ String c EmptyString.

(** a finished word is a number when it reads as a decimal integer *)
Definition word_token (w : string) : Token :=
  match w with
  | String c _ =>
      if is_digit c || Ascii.eqb c "-"
      then match NilZero.int_of_string w with
           | Some d => TNumber (Z.of_int d)
           | None => TWord w
           end
      else TWord w
  | EmptyString => TWord w
  end.

Definition angle_token (c : ascii) (with_eq : bool) : option Token :=
  if Ascii.eqb c "<" then Some (TOp (if with_eq then OpLe else OpLt))
  else if Ascii.eqb c ">" then Some (TOp (if with_eq then OpGe else OpGt))
  else None.

Definition lex_idle (c : ascii) : option (list Token * LexState) :=
  if white_space_1 c then Some ([], LIdle)
  else if Ascii.eqb c dquote then Some ([], LString EmptyString)
  else if Ascii.eqb c "=" then Some ([TOp OpEq], LIdle)
  else if Ascii.eqb c "<" || Ascii.eqb c ">" then Some ([], LAngle c)
  else if is_word_char c then Some ([], LWord (String c EmptyString))
  else None.

Definition emit_then (t : option Token) (c : ascii) : option (list Token * LexState) :=
  match t, lex_idle c with
  | Some t, Some (ts, st) => Some (t :: ts, st)
  | _, _ => None
  end.

Definition lex_step (st : LexState) (c : ascii) : option (list Token * LexState) :=
  match st with
  | LIdle => lex_idle c
  | LWord acc =>
      if is_word_char c then Some ([], LWord (snoc acc c))
      else emit_then (Some (word_token acc)) c
  | LString acc =>
      if Ascii.eqb c dquote then Some ([], LQuote acc)
      else Some ([], LString (snoc acc c))
  | LQuote acc =>
      if Ascii.eqb c dquote then Some ([], LString (snoc acc dquote))
      else emit_then (Some (TString acc)) c
  | LAngle a =>
      if Ascii.eqb c "=" then
        match angle_token a true with
        | Some t => Some ([t], LIdle)
        | None => None
        end
      else emit_then (angle_token a false) c
  end.

Definition lex_end (st : LexState) : option (list Token) :=
  match st with
  | LIdle => Some []
  | LWord acc => Some [word_token acc]
  | LString _ => None                       (* unterminated literal *)
  | LQuote acc => Some [TString acc]
  | LAngle a => option_map (fun t => [t]) (angle_token a false)
  end.

Fixpoint lex (st : LexState) (s : string) : option (list Token) :=
  match s with
  | EmptyString => lex_end st
  | String c s' =>
      match lex_step st c with
      | Some (ts, st') =>
          match lex st' s' with
          | Some rest => Some (ts ++ rest)%list
          | None => None
          end
      | None => None
      end
  end.

(** One comparison of the fragment, already checked against the columns of
    the table: [id] and [text] hold strings, [timestamp] holds a number. *)
Inductive Comparison : Type :=
| CmpId (s : string)
| CmpText (s : string)
| CmpTimestamp (o : CmpOp) (z : Z).

Definition comparison_of (col : string) (o : CmpOp) (lit : Token) : option Comparison :=
  match lit with
  | TString s =>
      match o with
      | OpEq => if String.eqb col "id" then Some (CmpId s)
                else if String.eqb col "text" then Some (CmpText s)
                else None
      | _ => None
      end
  | TNumber z => if String.eqb col "timestamp" then Some (CmpTimestamp o z) else None
  | _ => None
  end.

Fixpoint parse_conjunction (ts : list Token) : option (list Comparison) :=
  match ts with
  | TWord col :: TOp o :: lit :: rest =>
      match comparison_of col o lit with
      | Some c =>
          match rest with
          | [] => Some [c]
          | TWord kw :: rest' =>
              if String.eqb kw "AND" then
                match parse_conjunction rest' with
                | Some cs => Some (c :: cs)
                | None => None
                end
              else None
          | _ => None
          end
      | None => None
      end
  | _ => None
  end.

(** Modelled from the spec: the predicate string of the table, read as a
    conjunction of comparisons; [None] when the string is not one. *)
Definition parse_filter (filter : string) : option (list Comparison) :=
  match lex LIdle filter with
  | Some ts => parse_conjunction ts
  | None => None
  end.

Definition eval_op (o : CmpOp) (a b : Z) : bool :=
  match o with
  | OpEq => a =? b
  | OpLt => a <? b
  | OpLe => a <=? b
  | OpGt => a >? b
  | OpGe => a >=? b
  end.


(** ** Strings that read back as intended *)

Fixpoint all_chars (p : ascii -> bool) (s : string) : bool :=
  match s with
  | EmptyString => true
  | String c s' => p c && all_chars p s'
  end.

(** the string holds no double-quote character *)
Definition no_dquote (s : string) : bool :=
  all_chars (fun c => negb (Ascii.eqb c dquote)) s.

(** the two strings that [search-todos] pushes onto [filters] *)
Definition ge_filter (z : Z) : string := "timestamp >= " ++ number_to_string z.
Definition le_filter (z : Z) : string := "timestamp <= " ++ number_to_string z.

(** ** The store *)

(** A thrown [Error]; only its [message] is ever read. *)
Record Error : Type := mkError { message : string }.

Section Store.

(** The embedding vectors, [FixedSizeList(384, Float32)] in the table. *)
Context {Vector : Type}.
(** The metric of the table; [_distance] of a search hit. *)
Variable distance : Vector -> Vector -> Q.
(** [new Date(s).getTime()]; [None] stands for [NaN]. *)
Variable Date_getTime : string -> option Z.
(** [new Array(VECTOR_DIMENSION).fill(0.0)] *)
Variable zero_vector : Vector.

(** *** The record table *)

Record Row : Type := mkRow {
  row_id : string;
  row_text : string;
  row_vector : Vector;
  row_timestamp : Z
}.

(** The rows in storage order: a row that is added goes to the end. *)
Definition Table : Type := list Row.

Definition holds (c : Comparison) (r : Row) : bool :=
  match c with
  | CmpId s => String.eqb (row_id r) s
  | CmpText s => String.eqb (row_text r) s
  | CmpTimestamp o z => eval_op o (row_timestamp r) z
  end.

Definition matches (cs : list Comparison) (r : Row) : bool :=
  forallb (fun c => holds c r) cs.

(** Modelled from the spec: the LanceDB table is an external library.
    [append(records)] adds the records, no uniqueness check. *)
Definition Table_add (rows : list Row) (t : Table) : Error + Table :=
  inr (t ++ rows)%list.

(** Modelled from the spec: [deleteWhere(predicate)] removes all records
    matching the predicate; a predicate that matches nothing is a no-op.
    A filter string that is not a condition is an error. *)
Definition Table_delete (filter : string) (t : Table) : Error + Table :=
  match parse_filter filter with
  | Some cs => inr (List.filter (fun r => negb (matches cs r)) t)
  | None => inl (mkError ("Invalid filter: " ++ filter))
  end.

(** The query builder returned by [table.search(v)]. *)
Record Query : Type := mkQuery {
  q_vector : option Vector;
  q_where : option string;
  q_limit : nat;
  q_select : option (list string)
}.

Definition Table_search (v : option Vector) : Query :=
  {| q_vector := v; q_where := None; q_limit := 10; q_select := None |}.
Definition Query_where (f : string) (q : Query) : Query :=
  {| q_vector := q_vector q; q_where := Some f;
     q_limit := q_limit q; q_select := q_select q |}.
Definition Query_limit (n : nat) (q : Query) : Query :=
  {| q_vector := q_vector q; q_where := q_where q;
     q_limit := n; q_select := q_select q |}.
Definition Query_select (cols : list string) (q : Query) : Query :=
  {| q_vector := q_vector q; q_where := q_where q;
     q_limit := q_limit q; q_select := Some cols |}.

(** A result row of [execute()]. *)
Record Hit : Type := mkHit {
  hit_id : string;
  hit_text : string;
  hit_timestamp : Z;
  hit_vector : option Vector;
  _distance : option Q
}.

Definition selected (col : string) (q : Query) : bool :=
  match q_select q with
  | Some cols => existsb (String.eqb col) cols
  | None => true
  end.

Definition hit_of (q : Query) (r : Row) : Hit :=
  {| hit_id := row_id r;
     hit_text := row_text r;
     hit_timestamp := row_timestamp r;
     hit_vector := if selected "vector" q then Some (row_vector r) else None;
     _distance := option_map (fun v => distance v (row_vector r)) (q_vector q) |}.

Definition closer (v : Vector) (a b : Row) : bool :=
  Qle_bool (distance v (row_vector a)) (distance v (row_vector b)).

(** Modelled from the spec: [scanAll(limit)] returns up to [limit] records
    with no ranking (here: in storage order, the "insertion order" that the
    comment in [get-todos] expects), and
    [searchNearest(queryVector, limit, optionalPredicate)] returns the
    [limit] records with the smallest distance to [queryVector] among the
    records satisfying the predicate, closest first.  The spec leaves the
    order among records at the same distance open; here they keep their
    storage order, and what is stated about the order of the results of a
    search is stated for every ascending order. *)
Definition Query_execute (q : Query) (t : Table) : Error + list Hit :=
  match match q_where q with
        | Some f => parse_filter f
        | None => Some []
        end with
  | Some cs =>
      let candidates := List.filter (matches cs) t in
      let ranked :=
        match q_vector q with
        | Some v => stable_sort (closer v) candidates
        | None => candidates
        end in
      inr (map (hit_of q) (firstn (q_limit q) ranked))
  | None =>
      inl (mkError ("Invalid filter: " ++
                    match q_where q with Some f => f | None => "" end))
  end.

(** *** The process state *)

Definition Embedder : Type := string -> Vector.

(** The calls that leave the process: the pipeline and the table. *)
Inductive Call : Type :=
| CallEmbedder (text : string)
| CallTableAdd (rows : list Row)
| CallTableDelete (filter : string)
| CallQueryExecute (q : Query).

(** The module-level variables [table], [embedder] and [nanoidFn], which
    are [undefined] until [initializeApp] assigns them, and the log of the
    external calls made so far (most recent first). *)
Record World : Type := mkWorld {
  table : option Table;
  embedder : option Embedder;
  nanoidFn : bool;
  calls : list Call
}.

Definition is_set {A : Type} (o : option A) : bool :=
  match o with Some _ => true | None => false end.

Definition record_call (c : Call) (w : World) : World :=
  {| table := table w; embedder := embedder w;
     nanoidFn := nanoidFn w; calls := c :: calls w |}.

Definition set_table (t : Table) (w : World) : World :=
  {| table := Some t; embedder := embedder w;
     nanoidFn := nanoidFn w; calls := calls w |}.

(** The body of an [async] function: it runs on the process state and
    either returns or throws. *)
Definition Async (A : Type) : Type := World -> (Error + A) * World.

Definition ret {A : Type} (a : A) : Async A := fun w => (inr a, w).

Definition bind {A B : Type} (m : Async A) (k : A -> Async B) : Async B :=
  fun w =>
    match m w with
    | (inr a, w') => k a w'
    | (inl e, w') => (inl e, w')
    end.

Notation "x <- m ;; k" := (bind m (fun x => k))
  (at level 61, m at next level, right associativity).
Notation "m ;;; k" := (bind m (fun _ => k))
  (at level 61, right associativity).

(** [try { body } catch (error) { return handler(error) }] *)
Definition try_catch (body : Async JsVal) (handler : Error -> JsVal)
  : World -> JsVal * World :=
  fun w =>
    match body w with
    | (inr v, w') => (v, w')
    | (inl e, w') => (handler e, w')
    end.

Definition undefined_error (what : string) : Error :=
  mkError ("TypeError: " ++ what ++ " is undefined").

(** [await table.add(rows)] *)
Definition table_add (rows : list Row) : Async unit :=
  fun w =>
    match table w with
    | Some t =>
        match Table_add rows t with
        | inr t' => (inr tt, set_table t' (record_call (CallTableAdd rows) w))
        | inl e => (inl e, record_call (CallTableAdd rows) w)
        end
    | None => (inl (undefined_error "table"), w)
    end.

(** [await table.delete(filter)] *)
Definition table_delete (filter : string) : Async unit :=
  fun w =>
    match table w with
    | Some t =>
        match Table_delete filter t with
        | inr t' => (inr tt, set_table t' (record_call (CallTableDelete filter) w))
        | inl e => (inl e, record_call (CallTableDelete filter) w)
        end
    | None => (inl (undefined_error "table"), w)
    end.

(** [await table.search(v)....execute()] *)
Definition table_query (build : Query -> Query) (v : option Vector)
  : Async (list Hit) :=
  fun w =>
    match table w with
    | Some t =>
        let q := build (Table_search v) in
        (Query_execute q t, record_call (CallQueryExecute q) w)
    | None => (inl (undefined_error "table"), w)
    end.

(** [nanoidFn()], the identifier it draws being [fresh] *)
Definition call_nanoid (fresh : string) : Async string :=
  fun w =>
    if nanoidFn w then (inr fresh, w)
    else (inl (undefined_error "nanoidFn"), w).

(** *** [getEmbedding] *)

Definition getEmbedding (text : string) : Async Vector :=
  fun w =>
    match embedder w with
    | None => (inl (mkError "Embedding pipeline not initialized."), w)
    | Some e => (inr (e text), record_call (CallEmbedder text) w)
    end.

(** *** The IPC handlers

    [Date.now()] and the identifier drawn by [nanoidFn()] are supplied by
    the caller of the model ([now], [fresh]). *)

Definition item_object (id text : string) (timestamp : Z) : JsVal :=
  JObj [("id", JStr id); ("text", JStr text); ("timestamp", JNum timestamp)].

Definition add_todo (fresh : string) (now : Z) (todoText : string)
  : World -> JsVal * World :=
  fun w =>
    if negb (is_set (table w)) || negb (is_set (embedder w)) then
      (JObj [("success", JBool false);
             ("error", JStr "Database or embedder not initialized.")], w)
    else
      try_catch
        (vector <- getEmbedding todoText ;;
         todoId <- call_nanoid fresh ;;
         let todoItem :=
           {| row_id := todoId; row_text := todoText;
              row_vector := vector; row_timestamp := now |} in
         table_add [todoItem] ;;;
         ret (JObj [("success", JBool true);
                    ("item", item_object (row_id todoItem) (row_text todoItem)
                                         (row_timestamp todoItem))]))
        (fun error =>
           JObj [("success", JBool false); ("error", JStr (message error))])
        w.

Definition get_todos : World -> JsVal * World :=
  fun w =>
    if negb (is_set (table w)) then
      (JObj [("success", JBool false);
             ("error", JStr "Database not initialized.");
             ("todos", JArr [])], w)
    else
      try_catch
        (results <- table_query
                      (fun q => Query_select ["id"; "text"; "timestamp"]
                                  (Query_limit 500 q)) None ;;
         let todos :=
           js_sort (fun a b => js_num (js_get "timestamp" b)
                               - js_num (js_get "timestamp" a))
                   (map (fun r => item_object (hit_id r) (hit_text r)
                                              (hit_timestamp r)) results) in
         ret (JObj [("success", JBool true); ("todos", JArr todos)]))
        (fun error =>
           JObj [("success", JBool false); ("error", JStr (message error));
                 ("todos", JArr [])])
        w.

(** The [filters] array of [search-todos]: what the two [if] blocks push. *)
Definition start_filter (startDate : option string) : list string :=
  match startDate with
  | Some d =>
      if truthy d then
        match Date_getTime (d ++ "T00:00:00.000Z") with
        | Some startTimestamp =>
            ["timestamp >= " ++ number_to_string startTimestamp]
        | None => []
        end
      else []
  | None => []
  end.

Definition end_filter (endDate : option string) : list string :=
  match endDate with
  | Some d =>
      if truthy d then
        match Date_getTime (d ++ "T23:59:59.999Z") with
        | Some endTimestamp =>
            ["timestamp <= " ++ number_to_string endTimestamp]
        | None => []
        end
      else []
  | None => []
  end.

Definition date_filters (startDate endDate : option string) : list string :=
  (start_filter startDate ++ end_filter endDate)%list.

Definition score_of (r : Hit) : JsVal :=
  match _distance r with
  | Some d => JFloat d
  | None => JUndefined
  end.

Definition result_object (r : Hit) : JsVal :=
  JObj [("id", JStr (hit_id r)); ("text", JStr (hit_text r));
        ("timestamp", JNum (hit_timestamp r)); ("score", score_of r)].

Definition search_todos (query startDate endDate : option string)
  : World -> JsVal * World :=
  fun w =>
    if negb (is_set (table w)) || negb (is_set (embedder w)) then
      (JObj [("success", JBool false);
             ("error", JStr "Database or embedder not initialized.");
             ("results", JArr [])], w)
    else
      match query with
      | None => (JObj [("success", JBool true); ("results", JArr [])], w)
      | Some query =>
          if negb (truthy query) || String.eqb (trim query) "" then
            (JObj [("success", JBool true); ("results", JArr [])], w)
          else
            try_catch
              (queryVector <- getEmbedding query ;;
               let filters := date_filters startDate endDate in
               let with_where :=
                 if (0 <? length filters)%nat
                 then Query_where (join " AND " filters)
                 else fun lanceQuery => lanceQuery in
               searchResultsRaw <-
                 table_query
                   (fun lanceQuery =>
                      Query_select ["id"; "text"; "timestamp"]
                        (Query_limit 10 (with_where lanceQuery)))
                   (Some queryVector) ;;
               let searchResults := map result_object searchResultsRaw in
               ret (JObj [("success", JBool true);
                          ("results", JArr searchResults)]))
              (fun error =>
                 JObj [("success", JBool false);
                       ("error", JStr (message error));
                       ("results", JArr [])])
              w
      end.

(** [`id = "${todoId}"`] *)
Definition id_filter (todoId : string) : string :=
  "id = " ++ String dquote (todoId ++ String dquote "").

Definition update_todo (now : Z) (todoId newText : string)
  : World -> JsVal * World :=
  fun w =>
    if negb (is_set (table w)) || negb (is_set (embedder w)) then
      (JObj [("success", JBool false);
             ("error", JStr "Database or embedder not initialized.")], w)
    else
      try_catch
        (newVector <- getEmbedding newText ;;
         let newTimestamp := now in
         let updatedTodoItemData :=
           {| row_id := todoId; row_text := newText;
              row_vector := newVector; row_timestamp := newTimestamp |} in
         table_delete (id_filter todoId) ;;;
         table_add [updatedTodoItemData] ;;;
         ret (JObj [("success", JBool true);
                    ("item", item_object todoId newText newTimestamp)]))
        (fun error =>
           JObj [("success", JBool false); ("error", JStr (message error))])
        w.

Definition delete_todo (todoId : string) : World -> JsVal * World :=
  fun w =>
    if negb (is_set (table w)) then
      (JObj [("success", JBool false);
             ("error", JStr "Database not initialized.")], w)
    else
      try_catch
        (table_delete (id_filter todoId) ;;;
         ret (JObj [("success", JBool true); ("id", JStr todoId)]))
        (fun error =>
           JObj [("success", JBool false); ("error", JStr (message error))])
        w.

(** What [seed-demo-data] draws for one item: the keyword [nanoidFn(6)],
    the identifier [nanoidFn()] and [randomPastDay.getTime()]. *)
Record DemoDraw : Type := mkDemoDraw {
  draw_keyword : string;
  draw_id : string;
  draw_time : Z
}.

Definition demo_places : list string :=
  ["Mars"; "Jupiter"; "Saturn"; "ancient ruins"; "deep sea"].

Definition demo_text (i : nat) (keyword : string) : string :=
  "Demo task " ++ nat_to_string (i + 1) ++ ": Explore "
    ++ nth (i mod 5) demo_places "undefined" ++ " with keyword " ++ keyword.

(** the [for] loop over [i], filling [demoTodos] *)
Fixpoint demo_loop (draws : nat -> DemoDraw) (indices : list nat)
  : Async (list Row) :=
  match indices with
  | [] => ret []
  | i :: rest =>
      keyword <- call_nanoid (draw_keyword (draws i)) ;;
      let text := demo_text i keyword in
      vector <- getEmbedding text ;;
      todoId <- call_nanoid (draw_id (draws i)) ;;
      more <- demo_loop draws rest ;;
      ret ({| row_id := todoId; row_text := text; row_vector := vector;
              row_timestamp := draw_time (draws i) |} :: more)
  end.

Definition seed_demo_data (draws : nat -> DemoDraw) : World -> JsVal * World :=
  fun w =>
    if negb (is_set (table w)) || negb (is_set (embedder w)) || negb (nanoidFn w)
    then
      (JObj [("success", JBool false);
             ("error", JStr "Core components (DB, embedder, nanoid) not initialized.")],
       w)
    else
      try_catch
        (let numItems := 100%nat in
         demoTodos <- demo_loop draws (seq 0 numItems) ;;
         table_add demoTodos ;;;
         ret (JObj [("success", JBool true);
                    ("count", JNum (Z.of_nat (length demoTodos)))]))
        (fun error =>
           JObj [("success", JBool false); ("error", JStr (message error))])
        w.

(** *** The request boundary *)

Inductive Request : Type :=
| AddTodo (todoText : string)
| GetTodos
| SearchTodos (query startDate endDate : option string)
| SeedDemoData
| UpdateTodo (todoId newText : string)
| DeleteTodo (todoId : string).

(** What the runtime supplies while one request is served. *)
Record Draws : Type := mkDraws {
  fresh_id : string;              (* nanoidFn() *)
  now : Z;                        (* Date.now() *)
  demo_draws : nat -> DemoDraw
}.

(** [ipcMain.handle(channel, handler)] *)
Definition handle (d : Draws) (req : Request) : World -> JsVal * World :=
  match req with
  | AddTodo todoText => add_todo (fresh_id d) (now d) todoText
  | GetTodos => get_todos
  | SearchTodos query startDate endDate => search_todos query startDate endDate
  | SeedDemoData => seed_demo_data (demo_draws d)
  | UpdateTodo todoId newText => update_todo (now d) todoId newText
  | DeleteTodo todoId => delete_todo todoId
  end.

(** the five operations of the store (the demo seeding is not one) *)
Definition is_operation (req : Request) : bool :=
  match req with SeedDemoData => false | _ => true end.

(** *** [initializeApp]

    The routine is a chain of [await]s; requests can be served between two
    of them.  [InitPc] names the promise the routine is waiting for, and
    [initializeApp] runs the code between that promise settling and the
    next [await]. *)

Inductive InitPc : Type :=
| PcImports       (* the dynamic imports *)
| PcPipeline      (* pipeline("feature-extraction", ...) *)
| PcTable         (* connect, tableNames, then openTable or createTable *)
| PcDummy         (* table.delete of the seed row *)
| PcReady         (* "initialization-success" was sent *)
| PcFailed.       (* "initialization-error" was sent *)

Inductive Settled : Type :=
| Rejected                         (* the awaited promise threw *)
| Imported
| PipelineLoaded (e : Embedder)
| TableReady (created_at : Z).     (* Date.now() of the seed row *)

Definition dummyData (created_at : Z) : list Row :=
  [{| row_id := "dummy_id_init"; row_text := "dummy_text_init";
      row_vector := zero_vector; row_timestamp := created_at |}].

Definition dummy_filter : string := id_filter "dummy_id_init".

(** [disk] is the table found under [DB_PATH] when the process starts. *)
Definition initializeApp (disk : option Table) (pc : InitPc) (r : Settled)
           (w : World) : InitPc * World :=
  match pc, r with
  | PcReady, _ => (PcReady, w)
  | PcFailed, _ => (PcFailed, w)
  | PcImports, Imported =>
      (PcPipeline, {| table := table w; embedder := embedder w;
                      nanoidFn := true; calls := calls w |})
  | PcPipeline, PipelineLoaded e =>
      (PcTable, {| table := table w; embedder := Some e;
                   nanoidFn := nanoidFn w; calls := calls w |})
  | PcTable, TableReady created_at =>
      match disk with
      | Some t => (PcReady, set_table t w)
      | None => (PcDummy, set_table (dummyData created_at) w)
      end
  | PcDummy, Rejected => (PcFailed, record_call (CallTableDelete dummy_filter) w)
  | PcDummy, _ =>
      match table_delete dummy_filter w with
      | (inr _, w') => (PcReady, w')
      | (inl _, w') => (PcFailed, w')
      end
  | _, _ => (PcFailed, w)
  end.

(** *** The process *)

Inductive Event : Type :=
| Settle (r : Settled)
| Invoke (d : Draws) (req : Request).

Definition step (disk : option Table) (ev : Event) (st : InitPc * World)
  : InitPc * World :=
  match ev with
  | Settle r => initializeApp disk (fst st) r (snd st)
  | Invoke d req => (fst st, snd (handle d req (snd st)))
  end.

Definition run (disk : option Table) (evs : list Event) (st : InitPc * World)
  : InitPc * World :=
  fold_left (fun st ev => step disk ev st) evs st.

Definition boot : InitPc * World :=
  (PcImports, {| table := None; embedder := None; nanoidFn := false; calls := [] |}).

Definition ready (w : World) : bool :=
  is_set (table w) && is_set (embedder w).

(** *** The renderer

    What each click handler of the renderer sends, if anything. *)

Inductive Click : Type :=
| ClickAdd (todoInput : string)
| ClickUpdate (editingTodoId todoInput : string) (originalText : option string)
| ClickDelete (editingTodoId todoId : string) (confirmed : bool)
| ClickSearch (searchInput startDate endDate : string)
| ClickSeed (editingTodoId : string) (confirmed : bool)
| FetchTodos.

(** [new Date(endDate) < new Date(startDate)]; a comparison with [NaN] is
    false *)
Definition date_before (endDate startDate : string) : bool :=
  match Date_getTime endDate, Date_getTime startDate with
  | Some e, Some s => e <? s
  | _, _ => false
  end.

Definition or_null (s : string) : option string :=
  if truthy s then Some s else None.

Definition request_of (c : Click) : option Request :=
  match c with
  | ClickAdd todoInput =>
      let text := trim todoInput in
      if truthy text then Some (AddTodo text) else None
  | ClickUpdate editingTodoId todoInput originalText =>
      let todoId := editingTodoId in
      let newText := trim todoInput in
      if negb (truthy todoId) || negb (truthy newText) then None
      else
        match originalText with
        | Some t =>
            if String.eqb newText t then None
            else Some (UpdateTodo todoId newText)
        | None => Some (UpdateTodo todoId newText)
        end
  | ClickDelete editingTodoId todoId confirmed =>
      if String.eqb editingTodoId todoId then None
      else if confirmed then Some (DeleteTodo todoId) else None
  | ClickSearch searchInput startDate endDate =>
      let query := trim searchInput in
      if truthy startDate && truthy endDate && date_before endDate startDate
      then None
      else Some (SearchTodos (Some query) (or_null startDate) (or_null endDate))
  | ClickSeed editingTodoId confirmed =>
      if negb (String.eqb editingTodoId "") then None
      else if confirmed then Some SeedDemoData else None
  | FetchTodos => Some GetTodos
  end.

(** an event the renderer can cause *)
Definition from_renderer (ev : Event) : Prop :=
  match ev with
  | Settle _ => True
  | Invoke _ req => exists c, request_of c = Some req
  end.

(** The tables that can be found on disk: none on a fresh installation,
    and otherwise what an earlier run of the application left there. *)
Inductive on_disk : option Table -> Prop :=
| disk_fresh : on_disk None
| disk_left (disk : option Table) (evs : list Event) (t : Table) :
    on_disk disk ->
    Forall from_renderer evs ->
    table (snd (run disk evs boot)) = Some t ->
    on_disk (Some t).

(** *** Vocabulary of the properties *)

(** the process state once [table] and [embedder] are assigned *)
Definition store (t : Table) (e : Embedder) (n : bool) (cs : list Call) : World :=
  {| table := Some t; embedder := Some e; nanoidFn := n; calls := cs |}.

(** the rows that are not stored under [id] *)
Definition without_id (id : string) (t : Table) : Table :=
  List.filter (fun r => negb (String.eqb (row_id r) id)) t.

(** what the handlers send back for a row *)
Definition item_of_row (r : Row) : JsVal :=
  item_object (row_id r) (row_text r) (row_timestamp r).

(** [!query || query.trim() === ""] *)
Definition blank (query : option string) : bool :=
  match query with
  | None => true
  | Some q => negb (truthy q) || String.eqb (trim q) ""
  end.

(** the comparisons that the two date arguments contribute *)
Definition start_bound (startDate : option string) : list Comparison :=
  match startDate with
  | Some d =>
      if truthy d then
        match Date_getTime (d ++ "T00:00:00.000Z") with
        | Some ms => [CmpTimestamp OpGe ms]
        | None => []
        end
      else []
  | None => []
  end.

Definition end_bound (endDate : option string) : list Comparison :=
  match endDate with
  | Some d =>
      if truthy d then
        match Date_getTime (d ++ "T23:59:59.999Z") with
        | Some ms => [CmpTimestamp OpLe ms]
        | None => []
        end
      else []
  | None => []
  end.

Definition date_bounds (startDate endDate : option string) : list Comparison :=
  (start_bound startDate ++ end_bound endDate)%list.

(** the query that [search-todos] sends to the table *)
Definition search_query (v : Vector) (startDate endDate : option string) : Query :=
  let filters := date_filters startDate endDate in
  {| q_vector := Some v;
     q_where := if (0 <? length filters)%nat
                then Some (join " AND " filters) else None;
     q_limit := 10;
     q_select := Some ["id"; "text"; "timestamp"] |}.

(** the rows a search returns, closest first *)
Definition nearest (v : Vector) (cs : list Comparison) (t : Table) : list Row :=
  firstn 10 (stable_sort (closer v) (List.filter (matches cs) t)).

Definition result_of_row (v : Vector) (r : Row) : JsVal :=
  JObj [("id", JStr (row_id r)); ("text", JStr (row_text r));
        ("timestamp", JNum (row_timestamp r));
        ("score", JFloat (distance v (row_vector r)))].

Definition by_timestamp_desc (a b : JsVal) : Z :=
  js_num (js_get "timestamp" b) - js_num (js_get "timestamp" a).

Definition list_query : Query :=
  {| q_vector := @None Vector; q_where := None; q_limit := 500;
     q_select := Some ["id"; "text"; "timestamp"] |}.

(** the [todos] array of the reply of [get-todos] *)
Definition listing (w : World) : list JsVal :=
  match js_get "todos" (fst (get_todos w)) with
  | JArr todos => todos
  | _ => []
  end.

(** the start of the start date and the end of the end date, when the
    argument is given and parses *)
Definition start_ms (startDate : option string) : option Z :=
  match startDate with
  | Some d => if truthy d then Date_getTime (d ++ "T00:00:00.000Z") else None
  | None => None
  end.

Definition end_ms (endDate : option string) : option Z :=
  match endDate with
  | Some d => if truthy d then Date_getTime (d ++ "T23:59:59.999Z") else None
  | None => None
  end.

(** the predicate as the specification words it *)
Definition expected_where (startMs endMs : option Z) : option string :=
  match startMs, endMs with
  | Some a, Some b =>
      Some ("timestamp >= " ++ number_to_string a
            ++ " AND timestamp <= " ++ number_to_string b)
  | Some a, None => Some ("timestamp >= " ++ number_to_string a)
  | None, Some b => Some ("timestamp <= " ++ number_to_string b)
  | None, None => None
  end.

(** both bounds inclusive *)
Definition within (startMs endMs : option Z) (r : Row) : bool :=
  match startMs with Some a => a <=? row_timestamp r | None => true end
  && match endMs with Some b => row_timestamp r <=? b | None => true end.

(** the UTC calendar day of a timestamp, counted from the epoch *)
Definition utc_day (ms : Z) : Z := ms / 86400000.

(** a request whose texts satisfy [good_text] *)
Definition good_request (good_text : string -> Prop) (req : Request) : Prop :=
  match req with
  | AddTodo todoText => good_text todoText
  | UpdateTodo _ newText => good_text newText
  | _ => True
  end.

(** the reply of a handler that found its handles unassigned *)
Definition not_ready_reply (req : Request) : JsVal :=
  match req with
  | AddTodo _ | UpdateTodo _ _ =>
      JObj [("success", JBool false);
            ("error", JStr "Database or embedder not initialized.")]
  | SearchTodos _ _ _ =>
      JObj [("success", JBool false);
            ("error", JStr "Database or embedder not initialized.");
            ("results", JArr [])]
  | GetTodos =>
      JObj [("success", JBool false);
            ("error", JStr "Database not initialized.");
            ("todos", JArr [])]
  | DeleteTodo _ =>
      JObj [("success", JBool false);
            ("error", JStr "Database not initialized.")]
  | SeedDemoData =>
      JObj [("success", JBool false);
            ("error", JStr "Core components (DB, embedder, nanoid) not initialized.")]
  end.

(** the reply carries one of the two not-initialised messages *)
Definition not_ready_error (reply : JsVal) : Prop :=
  js_get "error" reply = JStr "Database or embedder not initialized."
  \/ js_get "error" reply = JStr "Database not initialized.".

(** [initializeApp] assigns [embedder] before [table] *)
Definition init_order (st : InitPc * World) : Prop :=
  match fst st with
  | PcImports | PcPipeline => table (snd st) = None
  | PcTable | PcDummy | PcReady => is_set (embedder (snd st)) = true
  | PcFailed => is_set (table (snd st)) = true -> is_set (embedder (snd st)) = true
  end.

Definition texts_nonempty (t : Table) : Prop :=
  Forall (fun r => row_text r <> "") t.

Definition texts_ok (w : World) : Prop :=
  match table w with
  | Some t => texts_nonempty t
  | None => True
  end.

(** *** Vocabulary of further properties *)

(** the row that [seed-demo-data] builds at index [i] *)
Definition demo_row (e : Embedder) (draws : nat -> DemoDraw) (i : nat) : Row :=
  {| row_id := draw_id (draws i);
     row_text := demo_text i (draw_keyword (draws i));
     row_vector := e (demo_text i (draw_keyword (draws i)));
     row_timestamp := draw_time (draws i) |}.

(** the rows stored under [id], in storage order *)
Definition rows_under (id : string) (t : Table) : Table :=
  List.filter (fun r => String.eqb (row_id r) id) t.

(** requests served one after the other *)
Definition invoke_all (reqs : list (Draws * Request)) : list Event :=
  map (fun p => Invoke (fst p) (snd p)) reqs.

(** [nanoidFn] is assigned before [embedder] *)
Definition nanoid_order (st : InitPc * World) : Prop :=
  match fst st with
  | PcImports => embedder (snd st) = None
  | PcPipeline | PcTable | PcDummy | PcReady => nanoidFn (snd st) = true
  | PcFailed => is_set (embedder (snd st)) = true -> nanoidFn (snd st) = true
  end.

(** where the two handles stand at each point of [initializeApp]: the
    table is created, with its seed row, only when none is found on disk,
    and both handles are assigned from then on *)
Definition completion_order (disk : option Table) (st : InitPc * World) : Prop :=
  match fst st with
  | PcImports | PcPipeline | PcTable => table (snd st) = None
  | PcDummy => disk = None /\ ready (snd st) = true
  | PcReady => ready (snd st) = true
  | PcFailed => disk <> None -> table (snd st) = None
  end.

(** [table] is not assigned while the imports, the pipeline and the
    connection are awaited *)
Definition early (pc : InitPc) : bool :=
  match pc with
  | PcImports | PcPipeline | PcTable => true
  | _ => false
  end.

End Store.

(** ** The page of the renderer

    The renderer keeps its state in the document.  [Page] holds the parts
    of it that the functions below read or write, and [Li] is a list item
    as [addTodoToDOM] builds it.  The spans hold the values they show
    before [toLocaleString] and [toFixed] turn them into text; the active
    tab and the colours are left out. *)

(** truthiness of a value *)
Definition js_truthy (v : JsVal) : bool :=
  match v with
  | JUndefined => false
  | JBool b => b
  | JNum z => negb (z =? 0)
  | JFloat q => negb (Qeq_bool q 0)
  | JStr s => truthy s
  | JArr _ | JObj _ => true
  end.

(** [a || b] *)
Definition js_or (a b : JsVal) : JsVal :=
  if js_truthy a then a else b.

(** [a > b] on integral numbers, as the time stamps are; a comparison with
    [undefined] is false *)
Definition js_gt (a b : JsVal) : bool :=
  match a, b with
  | JNum x, JNum y => y <? x
  | _, _ => false
  end.

(** the text of a string value *)
Definition js_str (v : JsVal) : string :=
  match v with
  | JStr s => s
  | _ => ""
  end.

(** [result.error || "Unknown error"] *)
Definition error_text (result : JsVal) : string :=
  js_str (js_or (js_get "error" result) (JStr "Unknown error")).

(** what the score span shows *)
Inductive ScoreText : Type :=
| RawScore (score : Q)          (* (Score: score.toFixed(4)) *)
| Similarity (percent : Q).     (* (Similarity: percent.toFixed(2) %) *)

Definition score_text (score : Q) : ScoreText :=
  if Qle_bool 0 score && Qle_bool score 2 then
    let similarity := (1 - score / 2)%Q in
    Similarity (similarity * 100)
  else RawScore score.

Record Li : Type := mkLi {
  data_id : JsVal;                (* li.dataset.id *)
  li_text : JsVal;                (* the span .todo-text *)
  date_prefix : string;           (* the span .todo-timestamp: the prefix *)
  li_time : JsVal;                (*   and the time *)
  li_score : option ScoreText;    (* the span .todo-score, if there is one *)
  li_todo : JsVal;                (* the object that the two buttons close over *)
  li_disabled : bool              (* Edit and Delete *)
}.

Inductive Item : Type :=
| TodoItem (li : Li)
| TextItem (textContent : string).

Record Page : Type := mkPage {
  todoInput_value : string;
  todoInput_disabled : bool;
  editingTodoIdInput_value : string;
  addTodoBtn_hidden : bool;
  updateTodoBtn_hidden : bool;
  cancelEditBtn_hidden : bool;
  originalTodoObjectForEdit : option JsVal;
  searchInput_value : string;
  searchInput_disabled : bool;
  searchTodoBtn_disabled : bool;
  dates_disabled : bool;                        (* the date inputs of .search-filters *)
  tabs_enabled : bool;                          (* pointerEvents of the tab buttons *)
  status : string;                              (* initializationStatus.textContent *)
  todoList : list Item;
  searchResultsList : list Item
}.

Definition set_todoInput_value (v : string) (p : Page) : Page :=
  {| todoInput_value := v;
     todoInput_disabled := todoInput_disabled p;
     editingTodoIdInput_value := editingTodoIdInput_value p;
     addTodoBtn_hidden := addTodoBtn_hidden p;
     updateTodoBtn_hidden := updateTodoBtn_hidden p;
     cancelEditBtn_hidden := cancelEditBtn_hidden p;
     originalTodoObjectForEdit := originalTodoObjectForEdit p;
     searchInput_value := searchInput_value p;
     searchInput_disabled := searchInput_disabled p;
     searchTodoBtn_disabled := searchTodoBtn_disabled p;
     dates_disabled := dates_disabled p;
     tabs_enabled := tabs_enabled p;
     status := status p;
     todoList := todoList p;
     searchResultsList := searchResultsList p |}.

Definition set_status (v : string) (p : Page) : Page :=
  {| todoInput_value := todoInput_value p;
     todoInput_disabled := todoInput_disabled p;
     editingTodoIdInput_value := editingTodoIdInput_value p;
     addTodoBtn_hidden := addTodoBtn_hidden p;
     updateTodoBtn_hidden := updateTodoBtn_hidden p;
     cancelEditBtn_hidden := cancelEditBtn_hidden p;
     originalTodoObjectForEdit := originalTodoObjectForEdit p;
     searchInput_value := searchInput_value p;
     searchInput_disabled := searchInput_disabled p;
     searchTodoBtn_disabled := searchTodoBtn_disabled p;
     dates_disabled := dates_disabled p;
     tabs_enabled := tabs_enabled p;
     status := v;
     todoList := todoList p;
     searchResultsList := searchResultsList p |}.

Definition set_todoList (v : list Item) (p : Page) : Page :=
  {| todoInput_value := todoInput_value p;
     todoInput_disabled := todoInput_disabled p;
     editingTodoIdInput_value := editingTodoIdInput_value p;
     addTodoBtn_hidden := addTodoBtn_hidden p;
     updateTodoBtn_hidden := updateTodoBtn_hidden p;
     cancelEditBtn_hidden := cancelEditBtn_hidden p;
     originalTodoObjectForEdit := originalTodoObjectForEdit p;
     searchInput_value := searchInput_value p;
     searchInput_disabled := searchInput_disabled p;
     searchTodoBtn_disabled := searchTodoBtn_disabled p;
     dates_disabled := dates_disabled p;
     tabs_enabled := tabs_enabled p;
     status := status p;
     todoList := v;
     searchResultsList := searchResultsList p |}.

Definition set_searchResultsList (v : list Item) (p : Page) : Page :=
  {| todoInput_value := todoInput_value p;
     todoInput_disabled := todoInput_disabled p;
     editingTodoIdInput_value := editingTodoIdInput_value p;
     addTodoBtn_hidden := addTodoBtn_hidden p;
     updateTodoBtn_hidden := updateTodoBtn_hidden p;
     cancelEditBtn_hidden := cancelEditBtn_hidden p;
     originalTodoObjectForEdit := originalTodoObjectForEdit p;
     searchInput_value := searchInput_value p;
     searchInput_disabled := searchInput_disabled p;
     searchTodoBtn_disabled := searchTodoBtn_disabled p;
     dates_disabled := dates_disabled p;
     tabs_enabled := tabs_enabled p;
     status := status p;
     todoList := todoList p;
     searchResultsList := v |}.

(** the list item of [addTodoToDOM]; a score is a number or absent *)
Definition new_li (todo : JsVal) (isSearchResult : bool) : Li :=
  let updatedTimestamp := js_get "updatedTimestamp" todo in
  let timestamp := js_get "timestamp" todo in
  {| data_id := js_get "id" todo;
     li_text := js_get "text" todo;
     date_prefix :=
       if js_truthy updatedTimestamp && js_gt updatedTimestamp timestamp
       then "Updated" else "Added";
     li_time := js_or updatedTimestamp timestamp;
     li_score :=
       if isSearchResult then
         match js_get "score" todo with
         | JFloat score => Some (score_text score)
         | JNum score => Some (score_text (inject_Z score))
         | _ => None
         end
       else None;
     li_todo := todo;
     li_disabled := false |}.

(** [searchResultsList.appendChild(li)] or [todoList.prepend(li)] *)
Definition addTodoToDOM (todo : JsVal) (isSearchResult : bool) (p : Page) : Page :=
  let li := TodoItem (new_li todo isSearchResult) in
  if isSearchResult
  then set_searchResultsList (searchResultsList p ++ [li])%list p
  else set_todoList (li :: todoList p) p.

(** [fetchTodos], with the reply of [getTodos()] *)
Definition fetchTodos (result : JsVal) (p : Page) : Page :=
  if todoInput_disabled p then
    set_status "Waiting for initialization to complete..." p
  else if js_truthy (js_get "success" result) then
    let p := set_todoList [] p in
    match js_get "todos" result with
    | JArr (todo :: todos) =>
        set_status "Todos loaded."
                   (fold_left (fun p todo => addTodoToDOM todo false p)
                              (todo :: todos) p)
    | _ => set_status "No todos yet. Add one!" p
    end
  else set_status ("Error fetching todos: " ++ error_text result) p.

(** the click handler of [addTodoBtn], from the reply of [addTodo(text)] on *)
Definition on_add_reply (result : JsVal) (p : Page) : Page :=
  if js_truthy (js_get "success" result) && js_truthy (js_get "item" result)
  then set_todoInput_value "" (addTodoToDOM (js_get "item" result) false p)
  else p.

Definition renderSearchResults (results : list JsVal) (p : Page) : Page :=
  let p := set_searchResultsList [] p in
  match results with
  | [] =>
      if negb (String.eqb (trim (searchInput_value p)) "")
      then set_searchResultsList [TextItem "No semantic matches found."] p
      else p
  | _ =>
      fold_left
        (fun p result =>
           addTodoToDOM
             (JObj [("id", js_get "id" result);
                    ("text", js_get "text" result);
                    ("timestamp", js_get "timestamp" result);
                    ("updatedTimestamp", js_get "updatedTimestamp" result);
                    ("score", js_get "score" result)])
             true p)
        results p
  end.

(** the click handler of [searchTodoBtn], from the reply of
    [searchTodos(query, startDate, endDate)] on *)
Definition on_search_reply (result : JsVal) (p : Page) : Page :=
  if js_truthy (js_get "success" result) then
    match js_get "results" result with
    | JArr results => renderSearchResults results p
    | _ => p
    end
  else set_searchResultsList [TextItem ("Error: " ++ error_text result)] p.

Definition set_buttons (disabled : bool) (i : Item) : Item :=
  match i with
  | TodoItem li =>
      TodoItem {| data_id := data_id li; li_text := li_text li;
                  date_prefix := date_prefix li; li_time := li_time li;
                  li_score := li_score li; li_todo := li_todo li;
                  li_disabled := disabled |}
  | TextItem t => TextItem t
  end.

Definition enterEditMode (todoId currentText : string) (todoObject : JsVal)
           (p : Page) : Page :=
  if negb (String.eqb (editingTodoIdInput_value p) "") then p
  else
    {| todoInput_value := currentText;
       todoInput_disabled := todoInput_disabled p;
       editingTodoIdInput_value := todoId;
       addTodoBtn_hidden := true;
       updateTodoBtn_hidden := false;
       cancelEditBtn_hidden := false;
       originalTodoObjectForEdit := Some todoObject;
       searchInput_value := searchInput_value p;
       searchInput_disabled := true;
       searchTodoBtn_disabled := true;
       dates_disabled := true;
       tabs_enabled := false;
       status := status p;
       todoList := map (set_buttons true) (todoList p);
       searchResultsList := map (set_buttons true) (searchResultsList p) |}.

Definition exitEditMode (p : Page) : Page :=
  let enable := negb (String.prefix "Error" (status p)) in
  {| todoInput_value := "";
     todoInput_disabled := todoInput_disabled p;
     editingTodoIdInput_value := "";
     addTodoBtn_hidden := false;
     updateTodoBtn_hidden := true;
     cancelEditBtn_hidden := true;
     originalTodoObjectForEdit := None;
     searchInput_value := searchInput_value p;
     searchInput_disabled := if enable then false else searchInput_disabled p;
     searchTodoBtn_disabled := if enable then false else searchTodoBtn_disabled p;
     dates_disabled := if enable then false else dates_disabled p;
     tabs_enabled := if enable then true else tabs_enabled p;
     status := status p;
     todoList :=
       if enable then map (set_buttons false) (todoList p) else todoList p;
     searchResultsList :=
       if enable then map (set_buttons false) (searchResultsList p)
       else searchResultsList p |}.

(** a click on the Edit button of a list item; a disabled button does not
    fire *)
Definition click_edit (li : Li) (p : Page) : Page :=
  if li_disabled li then p
  else enterEditMode (js_str (js_get "id" (li_todo li)))
                     (js_str (js_get "text" (li_todo li))) (li_todo li) p.

(** *** Vocabulary of the properties of the page *)

(** the time a list item shows *)
Definition shown_time (i : Item) : Z :=
  match i with
  | TodoItem li => js_num (li_time li)
  | TextItem _ => 0
  end.

Definition buttons_disabled (i : Item) : bool :=
  match i with
  | TodoItem li => li_disabled li
  | TextItem _ => true
  end.

(** the search result that the page shows for a row at distance [score] *)
Definition result_li (id text : string) (timestamp : Z) (score : Q) : Li :=
  {| data_id := JStr id;
     li_text := JStr text;
     date_prefix := "Added";
     li_time := JNum timestamp;
     li_score := Some (score_text score);
     li_todo := JObj [("id", JStr id); ("text", JStr text);
                      ("timestamp", JNum timestamp);
                      ("updatedTimestamp", JUndefined);
                      ("score", JFloat score)];
     li_disabled := false |}.

(** no edit is under way and nothing is disabled *)
Definition idle (p : Page) : Prop :=
  editingTodoIdInput_value p = ""
  /\ addTodoBtn_hidden p = false
  /\ updateTodoBtn_hidden p = true
  /\ cancelEditBtn_hidden p = true
  /\ originalTodoObjectForEdit p = None
  /\ searchInput_disabled p = false
  /\ searchTodoBtn_disabled p = false
  /\ dates_disabled p = false
  /\ tabs_enabled p = true
  /\ Forall (fun i => set_buttons false i = i) (todoList p)
  /\ Forall (fun i => set_buttons false i = i) (searchResultsList p).

(** ** A concrete instance

    Vectors are lists of rationals under the squared Euclidean distance, the
    embedder is a toy one, and [Date] reads the two ISO forms the
    application uses, [YYYY-MM-DD] and [YYYY-MM-DDTHH:mm:ss.sssZ]. *)

Module Example.

Definition Vec : Type := list Q.

Fixpoint l2 (a b : Vec) : Q :=
  match a, b with
  | x :: a', y :: b' => ((x - y) * (x - y) + l2 a' b')%Q
  | _, _ => 0%Q
  end.

Fixpoint count_char (c : ascii) (s : string) : nat :=
  match s with
  | EmptyString => 0
  | String c' s' => (if Ascii.eqb c c' then 1 else 0) + count_char c s'
  end.

Definition embed (s : string) : Vec :=
  [inject_Z (Z.of_nat (String.length s));
   inject_Z (Z.of_nat (count_char "i" s))].

Definition zeros : Vec := [0%Q; 0%Q].

Fixpoint digits (s : string) (acc : Z) : option Z :=
  match s with
  | EmptyString => Some acc
  | String c s' =>
      if is_digit c
      then digits s' (10 * acc + Z.of_nat (nat_of_ascii c - 48))
      else None
  end.

Definition field (s : string) (start len : nat) : option Z :=
  if (start + len <=? String.length s)%nat
  then digits (substring start len s) 0
  else None.

Definition sep (s : string) (pos : nat) (c : ascii) : bool :=
  match String.get pos s with
  | Some c' => Ascii.eqb c c'
  | None => false
  end.

Definition days_from_civil (y m d : Z) : Z :=
  let y' := if m <=? 2 then y - 1 else y in
  let era := y' / 400 in
  let yoe := y' - era * 400 in
  let doy := (153 * (if 2 <? m then m - 3 else m + 9) + 2) / 5 + d - 1 in
  let doe := yoe * 365 + yoe / 4 - yoe / 100 + doy in
  era * 146097 + doe - 719468.

Definition in_range (lo hi : Z) (v : option Z) : option Z :=
  match v with
  | Some z => if (lo <=? z) && (z <=? hi) then Some z else None
  | None => None
  end.

Definition date_part (s : string) : option Z :=
  match field s 0 4, in_range 1 12 (field s 5 2), in_range 1 31 (field s 8 2) with
  | Some y, Some m, Some d =>
      if sep s 4 "-" && sep s 7 "-"
      then Some (days_from_civil y m d * 86400000)
      else None
  | _, _, _ => None
  end.

Definition time_part (s : string) : option Z :=
  match in_range 0 23 (field s 11 2), in_range 0 59 (field s 14 2),
        in_range 0 59 (field s 17 2), field s 20 3 with
  | Some h, Some mi, Some sec, Some ms =>
      if sep s 10 "T" && sep s 13 ":" && sep s 16 ":" && sep s 19 "."
         && sep s 23 "Z"
      then Some (((h * 60 + mi) * 60 + sec) * 1000 + ms)
      else None
  | _, _, _, _ => None
  end.

Definition getTime (s : string) : option Z :=
  if (String.length s =? 10)%nat then date_part s
  else if (String.length s =? 24)%nat then
    match date_part s, time_part s with
    | Some d, Some t => Some (d + t)
    | _, _ => None
    end
  else None.

Definition row (id text : string) (timestamp : Z) : @Row Vec :=
  {| row_id := id; row_text := text; row_vector := embed text;
     row_timestamp := timestamp |}.

(** three rows around the bounds of 2 January 2024 (UTC) *)
Definition new_year : list (@Row Vec) :=
  [row "a1" "buy milk" 1704153599999;
   row "b2" "buy bread" 1704239999999;
   row "c3" "call the bank" 1704240000000].

Definition live (t : list (@Row Vec)) : @World Vec := store t embed true [].

(** an identifier with double quotes in it *)
Definition quoted_id : string :=
  "x" ++ String dquote (" AND id = " ++ String dquote "y").

(** 501 rows, [t0] first *)
Definition many : list (@Row Vec) :=
  map (fun i => row ("t" ++ nat_to_string i) "task" (Z.of_nat i)) (seq 0 501).

(** is an item with this id among the items? *)
Definition shows_id (id : string) (items : list JsVal) : bool :=
  existsb (fun o => match js_get "id" o with
                    | JStr s => String.eqb s id
                    | _ => false
                    end) items.

Definition draws : @Draws :=
  {| fresh_id := "n4n0"; now := 1704200000000;
     demo_draws := fun i => {| draw_keyword := "kw"; draw_id := "demo";
                               draw_time := Z.of_nat i |} |}.

(** U+00A0, the no-break space *)
Definition nbsp : string := String "194" (String "160" "").

(** a tab, a no-break space, an ideographic space (U+3000) and a byte
    order mark (U+FEFF) *)
Definition unicode_blank : string :=
  String "009" nbsp
    ++ String "227" (String "128" (String "128" ""))
    ++ String "239" (String "187" (String "191" "")).

(** a page after start-up, with one todo in the list and a query typed in *)
Definition milk_li : Li := new_li (item_object "a1" "buy milk" 1704153599999) false.

Definition home : Page :=
  {| todoInput_value := "";
     todoInput_disabled := false;
     editingTodoIdInput_value := "";
     addTodoBtn_hidden := false;
     updateTodoBtn_hidden := true;
     cancelEditBtn_hidden := true;
     originalTodoObjectForEdit := None;
     searchInput_value := " bread";
     searchInput_disabled := false;
     searchTodoBtn_disabled := false;
     dates_disabled := false;
     tabs_enabled := true;
     status := "Todos loaded.";
     todoList := [TodoItem milk_li];
     searchResultsList := [] |}.

(** a reply of [getTodos()] after the table has thrown *)
Definition failure : JsVal :=
  JObj [("success", JBool false); ("error", JStr "table is closed");
        ("todos", JArr [])].

End Example.

(** * Properties *)

(** ** Strings and the filter language *)

Lemma append_snoc (acc s : string) (c : ascii) :
  (snoc acc c ++ s = acc ++ String c s)%string.
Proof.
  unfold snoc. induction acc as [|a acc IH]; simpl; [reflexivity|].
  now rewrite IH.
Qed.

Lemma append_empty_r (s : string) : (s ++ "")%string = s.
Proof. induction s as [|a s IH]; simpl; [reflexivity | now rewrite IH]. Qed.

Lemma lex_string_body (body : string) :
  forall acc, no_dquote body = true ->
    lex (LString acc) (body ++ String dquote "") = Some [TString (acc ++ body)].
Proof.
  induction body as [|c body IH]; intros acc Hq.
  - simpl. rewrite append_empty_r. reflexivity.
  - unfold no_dquote in Hq. simpl in Hq. apply andb_prop in Hq as [Hc Hb].
    apply negb_true_iff in Hc.
    simpl append. simpl lex. rewrite Hc. simpl.
    rewrite (IH (snoc acc c) Hb), append_snoc. reflexivity.
Qed.

(** one step of the tokenizer on a known character *)
Ltac lex_char :=
  match goal with
  | |- context [lex ?st (String ?c ?s)] =>
      let r := eval vm_compute in (lex_step st c) in
      change (lex st (String c s)) with
        (match r with
         | Some (ts, st') =>
             match lex st' s with
             | Some rest => Some (ts ++ rest)%list
             | None => None
             end
         | None => None
         end);
      cbv beta iota
  end.

Lemma lex_id_filter (todoId : string) :
  no_dquote todoId = true ->
  lex LIdle (id_filter todoId) = Some [TWord "id"; TOp OpEq; TString todoId].
Proof.
  intros Hq. unfold id_filter. cbn -[lex dquote].
  do 6 lex_char.
  rewrite lex_string_body by assumption. reflexivity.
Qed.

Lemma parse_id_filter (todoId : string) :
  no_dquote todoId = true -> parse_filter (id_filter todoId) = Some [CmpId todoId].
Proof.
  intros Hq. unfold parse_filter. rewrite lex_id_filter by assumption.
  reflexivity.
Qed.

Lemma digits_of_uint (d : Decimal.uint) :
  all_chars is_digit (NilEmpty.string_of_uint d) = true.
Proof. induction d; simpl; auto. Qed.

Lemma digit_is_word_char (c : ascii) : is_digit c = true -> is_word_char c = true.
Proof. unfold is_word_char. intros ->. reflexivity. Qed.

Lemma all_chars_weaken (p q : ascii -> bool) (s : string) :
  (forall c, p c = true -> q c = true) ->
  all_chars p s = true -> all_chars q s = true.
Proof.
  intros Hpq. induction s as [|c s IH]; simpl; [reflexivity|].
  intros [Hc Hs]%andb_prop. rewrite (Hpq c Hc), (IH Hs). reflexivity.
Qed.

(** The decimal rendering of a number: a digit or a minus sign, followed by
    digits; read back, it is the number. *)
Lemma number_to_string_shape (z : Z) :
  exists c s,
    number_to_string z = String c s /\
    (is_digit c || Ascii.eqb c "-") = true /\
    all_chars is_word_char s = true.
Proof.
  unfold number_to_string.
  assert (Hu : forall p, exists c s,
             NilEmpty.string_of_uint (Pos.to_uint p) = String c s /\
             is_digit c = true /\ all_chars is_word_char s = true).
  { intros p. pose proof (digits_of_uint (Pos.to_uint p)) as Hd.
    pose proof (DecimalPos.Unsigned.to_uint_nonnil p) as Hn.
    destruct (NilEmpty.string_of_uint (Pos.to_uint p)) as [|c s] eqn:E.
    - exfalso. destruct (Pos.to_uint p); simpl in E; congruence.
    - simpl in Hd. apply andb_prop in Hd as [Hc Hs].
      exists c, s. repeat split; auto.
      eapply all_chars_weaken; [apply digit_is_word_char | exact Hs]. }
  assert (Hz : forall p, NilZero.string_of_uint (Pos.to_uint p)
                         = NilEmpty.string_of_uint (Pos.to_uint p)).
  { intros p. pose proof (DecimalPos.Unsigned.to_uint_nonnil p).
    destruct (Pos.to_uint p); simpl; congruence. }
  destruct z as [|p|p]; simpl.
  - exists "0"%char, EmptyString. repeat split.
  - rewrite Hz. destruct (Hu p) as (c & s & E & Hc & Hs).
    exists c, s. rewrite Hc. repeat split; auto.
  - rewrite Hz. destruct (Hu p) as (c & s & E & Hc & Hs).
    exists "-"%char, (String c s). rewrite E. repeat split.
    simpl. rewrite (digit_is_word_char c Hc), Hs. reflexivity.
Qed.

Lemma word_token_number (z : Z) : word_token (number_to_string z) = TNumber z.
Proof.
  destruct (number_to_string_shape z) as (c & s & E & Hc & _).
  unfold word_token. rewrite E, Hc, <- E. unfold number_to_string.
  rewrite NilZero.isi.
  - now rewrite DecimalZ.of_to.
  - destruct z; simpl; try discriminate.
    intros [= H]. now apply (DecimalPos.Unsigned.to_uint_nonnil p).
  - destruct z; simpl; try discriminate.
    intros [= H]. now apply (DecimalPos.Unsigned.to_uint_nonnil p).
Qed.

Lemma lex_cons (st : LexState) (c : ascii) (s : string) :
  lex st (String c s) =
  match lex_step st c with
  | Some (ts, st') =>
      match lex st' s with
      | Some rest => Some (ts ++ rest)%list
      | None => None
      end
  | None => None
  end.
Proof. reflexivity. Qed.

Lemma lex_word_body (body rest : string) :
  forall acc, all_chars is_word_char body = true ->
    lex (LWord acc) (body ++ rest) = lex (LWord (acc ++ body)) rest.
Proof.
  induction body as [|c body IH]; intros acc Hw.
  - simpl. now rewrite append_empty_r.
  - simpl in Hw. apply andb_prop in Hw as [Hc Hb].
    simpl append. rewrite lex_cons. simpl lex_step. rewrite Hc.
    rewrite (IH (snoc acc c) Hb), append_snoc.
    destruct (lex (LWord (acc ++ String c body)) rest); reflexivity.
Qed.

Lemma lex_idle_number_start (c : ascii) :
  (is_digit c || Ascii.eqb c "-") = true ->
  lex_idle c = Some ([], LWord (String c EmptyString)).
Proof.
  destruct c as [[|] [|] [|] [|] [|] [|] [|] [|]]; vm_compute;
    intros H; (reflexivity || discriminate H).
Qed.

(** A number at the end of a filter, and a number followed by a space. *)
Lemma lex_number_end (z : Z) :
  lex LIdle (number_to_string z) = Some [TNumber z].
Proof.
  destruct (number_to_string_shape z) as (c & s & E & Hc & Hs).
  rewrite E, lex_cons. simpl lex_step. rewrite (lex_idle_number_start c Hc).
  rewrite <- (append_empty_r s), lex_word_body by assumption.
  simpl append.
  change (lex (LWord (String c s)) "") with (Some [word_token (String c s)]).
  rewrite <- E, word_token_number. reflexivity.
Qed.

Lemma lex_number_space (z : Z) (rest : string) :
  lex LIdle (number_to_string z ++ String " " rest) =
  match lex LIdle rest with
  | Some ts => Some (TNumber z :: ts)
  | None => None
  end.
Proof.
  destruct (number_to_string_shape z) as (c & s & E & Hc & Hs).
  rewrite E. simpl append. rewrite lex_cons. simpl lex_step.
  rewrite (lex_idle_number_start c Hc).
  rewrite lex_word_body by assumption. simpl append.
  rewrite lex_cons.
  change (lex_step (LWord (String c s)) " ")
    with (Some ([word_token (String c s)], LIdle)).
  rewrite <- E, word_token_number.
  destruct (lex LIdle rest); reflexivity.
Qed.

Lemma parse_ge_filter (a : Z) :
  parse_filter (ge_filter a) = Some [CmpTimestamp OpGe a].
Proof.
  unfold parse_filter, ge_filter. cbn -[lex number_to_string].
  do 13 lex_char. rewrite lex_number_end. reflexivity.
Qed.

Lemma parse_le_filter (b : Z) :
  parse_filter (le_filter b) = Some [CmpTimestamp OpLe b].
Proof.
  unfold parse_filter, le_filter. cbn -[lex number_to_string].
  do 13 lex_char. rewrite lex_number_end. reflexivity.
Qed.

Lemma parse_range_filter (a b : Z) :
  parse_filter (join " AND " [ge_filter a; le_filter b])
  = Some [CmpTimestamp OpGe a; CmpTimestamp OpLe b].
Proof.
  unfold parse_filter, ge_filter, le_filter. cbn -[lex number_to_string].
  do 13 lex_char. rewrite lex_number_space.
  do 17 lex_char. rewrite lex_number_end. reflexivity.
Qed.

(** ** Sorting *)

Section SortFacts.
Context {A : Type} (leb : A -> A -> bool).

Lemma sort_insert_perm (x : A) (l : list A) :
  Permutation (sort_insert leb x l) (x :: l).
Proof.
  induction l as [|y l IH]; simpl; [reflexivity|].
  destruct (leb x y); [reflexivity|].
  rewrite IH. apply perm_swap.
Qed.

Lemma stable_sort_perm (l : list A) : Permutation (stable_sort leb l) l.
Proof.
  induction l as [|x l IH]; simpl; [reflexivity|].
  rewrite sort_insert_perm. now constructor.
Qed.

Lemma stable_sort_length (l : list A) : length (stable_sort leb l) = length l.
Proof. apply Permutation_length, stable_sort_perm. Qed.

Hypothesis leb_total : forall a b, leb a b = true \/ leb b a = true.
Hypothesis leb_trans : forall a b c, leb a b = true -> leb b c = true -> leb a c = true.

Lemma sort_insert_sorted (x : A) (l : list A) :
  StronglySorted (fun a b => leb a b = true) l ->
  StronglySorted (fun a b => leb a b = true) (sort_insert leb x l).
Proof.
  induction 1 as [|y l Hs IH Hy]; simpl.
  - repeat constructor.
  - destruct (leb x y) eqn:E.
    + constructor; [constructor; assumption|].
      constructor; [assumption|].
      eapply Forall_impl; [|exact Hy]. intros b Hb. eauto.
    + constructor; [assumption|].
      eapply Permutation_Forall.
      * symmetry. apply sort_insert_perm.
      * constructor; [|assumption].
        destruct (leb_total x y); congruence.
Qed.

Lemma stable_sort_sorted (l : list A) :
  StronglySorted (fun a b => leb a b = true) (stable_sort leb l).
Proof.
  induction l as [|x l IH]; simpl; [constructor|].
  now apply sort_insert_sorted.
Qed.
End SortFacts.

Lemma in_firstn {A : Type} (n : nat) (l : list A) (x : A) :
  In x (firstn n l) -> In x l.
Proof.
  intros H. rewrite <- (firstn_skipn n l). apply in_or_app. now left.
Qed.

Lemma sorted_before_middle {A : Type} (R : A -> A -> Prop) (l1 l2 : list A)
      (a : A) :
  StronglySorted R (l1 ++ a :: l2) -> Forall (fun x => R x a) l1.
Proof.
  induction l1 as [|x l1 IH]; simpl; intros Hs; [constructor|].
  inversion Hs as [|? ? Hs' Hall]; subst. constructor.
  - rewrite Forall_forall in Hall. apply Hall, in_or_app. right. now left.
  - now apply IH.
Qed.

(** In a sorted list, whatever must stand in front of an element does stand
    in front of each of its occurrences; cutting the list keeps that. *)
Lemma sorted_firstn_before {A : Type} (leb : A -> A -> bool) (k : nat)
      (l : list A) (a b : A) :
  (forall x y, leb x y = true \/ leb y x = true) ->
  StronglySorted (fun x y => leb x y = true) l ->
  In a l -> leb b a = false -> In b (firstn k l) ->
  exists l1 l2 l3, firstn k l = (l1 ++ a :: l2 ++ b :: l3)%list.
Proof.
  intros Htot Hs Ha Hba Hb.
  apply in_split in Ha as (l1 & l2 & ->).
  assert (Hl1 : ~ In b l1).
  { intros Hin. apply sorted_before_middle in Hs.
    rewrite Forall_forall in Hs. specialize (Hs b Hin). congruence. }
  rewrite firstn_app in Hb |- *.
  apply in_app_or in Hb as [Hb|Hb].
  { exfalso. apply Hl1. eapply in_firstn; eauto. }
  destruct (k - length l1)%nat as [|k'] eqn:Ek; [destruct Hb|].
  simpl in Hb. destruct Hb as [Hb|Hb].
  { subst b. destruct (Htot a a); congruence. }
  apply in_split in Hb as (m1 & m2 & Hm).
  exists l1, m1, m2. rewrite firstn_all2 by lia.
  simpl. now rewrite Hm.
Qed.

(** ** The handlers on an initialised store *)

Section Properties.
Context {Vector : Type}.
Variable distance : Vector -> Vector -> Q.
Variable Date_getTime : string -> option Z.

Abbreviation Table := (@Table Vector).
Abbreviation World := (@World Vector).
Abbreviation Embedder := (@Embedder Vector).
Abbreviation Row := (@Row Vector).
Abbreviation Query := (@Query Vector).
Abbreviation Call := (@Call Vector).

(* the vocabulary of the store, at the parameters of this section *)
Abbreviation nearest := (nearest distance).
Abbreviation result_of_row := (result_of_row distance).
Abbreviation listing := (listing distance).
Abbreviation start_bound := (start_bound Date_getTime).
Abbreviation end_bound := (end_bound Date_getTime).
Abbreviation date_bounds := (date_bounds Date_getTime).
Abbreviation search_query := (search_query Date_getTime).
Abbreviation start_ms := (start_ms Date_getTime).
Abbreviation end_ms := (end_ms Date_getTime).

Lemma matches_id (id : string) (r : Row) :
  matches [CmpId id] r = String.eqb (row_id r) id.
Proof. unfold matches. simpl. apply andb_true_r. Qed.

Lemma filter_all {A : Type} (l : list A) : List.filter (fun _ => true) l = l.
Proof. induction l as [|x l IH]; simpl; congruence. Qed.

Lemma delete_todo_eval (t : Table) (e : Embedder) (n : bool) (cs : list Call)
      (todoId : string) :
  no_dquote todoId = true ->
  delete_todo todoId (store t e n cs)
  = (JObj [("success", JBool true); ("id", JStr todoId)],
     store (without_id todoId t) e n (CallTableDelete (id_filter todoId) :: cs)).
Proof.
  intros Hq. unfold delete_todo, try_catch, bind, table_delete, Table_delete, store.
  cbn [table embedder is_set negb orb].
  rewrite parse_id_filter by assumption.
  unfold ret, set_table, record_call. cbn [table embedder nanoidFn calls].
  do 3 f_equal. unfold without_id. apply filter_ext. intros r.
  now rewrite matches_id.
Qed.

Lemma update_todo_eval (t : Table) (e : Embedder) (n : bool) (cs : list Call)
      (now : Z) (todoId newText : string) :
  no_dquote todoId = true ->
  let row := {| row_id := todoId; row_text := newText;
                row_vector := e newText; row_timestamp := now |} in
  update_todo now todoId newText (store t e n cs)
  = (JObj [("success", JBool true); ("item", item_object todoId newText now)],
     store (without_id todoId t ++ [row])%list e n
           (CallTableAdd [row] :: CallTableDelete (id_filter todoId)
              :: CallEmbedder newText :: cs)).
Proof.
  intros Hq row.
  unfold update_todo, try_catch, bind, getEmbedding, table_delete, table_add,
    Table_delete, Table_add, store.
  cbn [table embedder is_set negb orb record_call].
  rewrite parse_id_filter by assumption.
  unfold ret, set_table, record_call. cbn [table embedder nanoidFn calls].
  do 3 f_equal. f_equal. unfold without_id. apply filter_ext. intros r.
  now rewrite matches_id.
Qed.

Lemma get_todos_eval (t : Table) (e : option Embedder) (n : bool) (cs : list Call) :
  get_todos distance
            {| table := Some t; embedder := e; nanoidFn := n; calls := cs |}
  = (JObj [("success", JBool true);
           ("todos", JArr (js_sort by_timestamp_desc
                                   (map item_of_row (firstn 500 t))))],
     {| table := Some t; embedder := e; nanoidFn := n;
        calls := CallQueryExecute list_query :: cs |}).
Proof.
  unfold get_todos, try_catch, bind, table_query, Query_execute.
  cbn [table embedder is_set negb orb record_call Table_search Query_limit
       Query_select q_vector q_where q_limit q_select nanoidFn calls].
  unfold matches. cbn [forallb]. rewrite filter_all, map_map.
  reflexivity.
Qed.

Lemma start_filter_shape (startDate : option string) :
  start_filter Date_getTime startDate
  = map (fun c => match c with
                  | CmpTimestamp _ ms => ge_filter ms
                  | _ => ""
                  end) (start_bound startDate).
Proof.
  unfold start_filter, start_bound. destruct startDate as [d|]; [|reflexivity].
  destruct (truthy d); [|reflexivity].
  destruct (Date_getTime _); reflexivity.
Qed.

Lemma end_filter_shape (endDate : option string) :
  end_filter Date_getTime endDate
  = map (fun c => match c with
                  | CmpTimestamp _ ms => le_filter ms
                  | _ => ""
                  end) (end_bound endDate).
Proof.
  unfold end_filter, end_bound. destruct endDate as [d|]; [|reflexivity].
  destruct (truthy d); [|reflexivity].
  destruct (Date_getTime _); reflexivity.
Qed.

Lemma start_bound_cases (startDate : option string) :
  start_bound startDate = [] \/ exists ms, start_bound startDate = [CmpTimestamp OpGe ms].
Proof.
  unfold start_bound. destruct startDate as [d|]; [|now left].
  destruct (truthy d); [|now left].
  destruct (Date_getTime _) as [ms|]; [right; now exists ms | now left].
Qed.

Lemma end_bound_cases (endDate : option string) :
  end_bound endDate = [] \/ exists ms, end_bound endDate = [CmpTimestamp OpLe ms].
Proof.
  unfold end_bound. destruct endDate as [d|]; [|now left].
  destruct (truthy d); [|now left].
  destruct (Date_getTime _) as [ms|]; [right; now exists ms | now left].
Qed.

(** The filter that [search-todos] builds is always a condition the table
    understands, and it means the bounds that were given and parse. *)
Lemma where_clause_parses (v : Vector) (startDate endDate : option string) :
  match q_where (search_query v startDate endDate) with
  | Some f => parse_filter f
  | None => Some []
  end = Some (date_bounds startDate endDate).
Proof.
  unfold search_query, date_filters, date_bounds. cbn [q_where].
  rewrite start_filter_shape, end_filter_shape.
  destruct (start_bound_cases startDate) as [-> | [a ->]];
    destruct (end_bound_cases endDate) as [-> | [b ->]]; cbn [map app length Nat.ltb Nat.leb].
  - reflexivity.
  - apply parse_le_filter.
  - apply parse_ge_filter.
  - apply parse_range_filter.
Qed.

Lemma search_todos_eval (t : Table) (e : Embedder) (n : bool) (cs : list Call)
      (q : string) (startDate endDate : option string) :
  blank (Some q) = false ->
  search_todos distance Date_getTime (Some q) startDate endDate (store t e n cs)
  = (JObj [("success", JBool true);
           ("results", JArr (map (result_of_row (e q))
                                 (nearest (e q) (date_bounds startDate endDate) t)))],
     store t e n (CallQueryExecute (search_query (e q) startDate endDate)
                    :: CallEmbedder q :: cs)).
Proof.
  intros Hq. unfold search_todos, store.
  cbn [table embedder is_set negb orb]. unfold blank in Hq. rewrite Hq.
  unfold try_catch, bind, getEmbedding, table_query.
  cbn [table embedder record_call nanoidFn calls].
  assert (Hquery :
    Query_select ["id"; "text"; "timestamp"]
      (Query_limit 10
         ((if (0 <? length (date_filters Date_getTime startDate endDate))%nat
           then Query_where (join " AND " (date_filters Date_getTime startDate endDate))
           else fun lanceQuery => lanceQuery) (Table_search (Some (e q)))))
    = search_query (e q) startDate endDate).
  { unfold search_query.
    destruct (0 <? length (date_filters Date_getTime startDate endDate))%nat;
      reflexivity. }
  rewrite Hquery. unfold Query_execute.
  rewrite where_clause_parses. unfold ret.
  do 4 f_equal. unfold nearest. rewrite map_map.
  reflexivity.
Qed.

(** *** What [list()] shows *)

Lemma listing_store (t : Table) (e : option Embedder) (n : bool) (cs : list Call) :
  listing {| table := Some t; embedder := e; nanoidFn := n; calls := cs |}
  = js_sort by_timestamp_desc (map item_of_row (firstn 500 t)).
Proof. unfold listing. rewrite get_todos_eval. reflexivity. Qed.

Lemma in_listing (t : Table) (e : option Embedder) (n : bool) (cs : list Call)
      (o : JsVal) :
  In o (listing {| table := Some t; embedder := e; nanoidFn := n; calls := cs |})
  <-> exists r, In r (firstn 500 t) /\ o = item_of_row r.
Proof.
  rewrite listing_store. unfold js_sort. split.
  - intros H. eapply Permutation_in in H; [|apply stable_sort_perm].
    apply in_map_iff in H as (r & <- & Hr). eauto.
  - intros (r & Hr & ->). eapply Permutation_in.
    + symmetry. apply stable_sort_perm.
    + now apply in_map.
Qed.

Lemma without_id_spec (id : string) (t : Table) (r : Row) :
  In r (without_id id t) <-> In r t /\ row_id r <> id.
Proof.
  unfold without_id. rewrite filter_In, negb_true_iff.
  split; intros [H1 H2]; split; auto.
  - intros E. apply String.eqb_eq in E. congruence.
  - now apply String.eqb_neq.
Qed.

Lemma without_id_absent (id : string) (t : Table) :
  (forall r, In r t -> row_id r <> id) -> without_id id t = t.
Proof.
  intros H. unfold without_id. induction t as [|r t IH]; simpl; [reflexivity|].
  assert (Hr : String.eqb (row_id r) id = false).
  { apply String.eqb_neq, H. now left. }
  rewrite Hr. simpl. f_equal. apply IH. intros r' Hr'. apply H. now right.
Qed.

Lemma without_id_idempotent (id : string) (t : Table) :
  without_id id (without_id id t) = without_id id t.
Proof.
  apply without_id_absent. intros r Hr. now apply without_id_spec in Hr.
Qed.

(** *** Claims about single operations *)

(** C2.  On an initialised store, for every query that the handler treats
    as empty ([null], [undefined], the empty string, or white space only),
    [search] returns [{success: true, results: []}] and leaves the process
    state as it was: the log of external calls is unchanged, so neither
    the embedder nor the table was called. *)
Theorem search_blank_query_short_circuit
        (t : Table) (e : Embedder) (n : bool) (cs : list Call)
        (query startDate endDate : option string) :
  blank query = true ->
  search_todos distance Date_getTime query startDate endDate (store t e n cs)
  = (JObj [("success", JBool true); ("results", JArr [])], store t e n cs).
Proof.
  intros Hb. unfold search_todos, store. cbn [table embedder is_set negb orb].
  destruct query as [q|]; [|reflexivity].
  unfold blank in Hb. now rewrite Hb.
Qed.

(** X26.  On an initialised store, for every id that holds no
    double-quote character, whether a row is stored under it or not,
    [delete(id)] returns [{success: true, id}]; afterwards no row is
    stored under that id and [list()] shows no item with that id; and a
    second [delete(id)] returns the same reply and leaves the table as the
    first one left it. *)
Theorem delete_todo_removes_and_repeats
        (t : Table) (e : Embedder) (n : bool) (cs : list Call) (todoId : string) :
  no_dquote todoId = true ->
  let first := delete_todo todoId (store t e n cs) in
  let second := delete_todo todoId (snd first) in
  fst first = JObj [("success", JBool true); ("id", JStr todoId)]
  /\ table (snd first) = Some (without_id todoId t)
  /\ (forall r, In r (without_id todoId t) -> row_id r <> todoId)
  /\ (forall o, In o (listing (snd first)) -> js_get "id" o <> JStr todoId)
  /\ fst second = fst first
  /\ table (snd second) = table (snd first).
Proof.
  intros Hq first second. subst second first.
  rewrite delete_todo_eval by assumption. cbn [fst snd].
  rewrite delete_todo_eval by assumption. cbn [fst snd].
  unfold store at 1 2. cbn [table].
  rewrite without_id_idempotent.
  repeat split.
  - intros r Hr. now apply without_id_spec in Hr.
  - intros o Ho. unfold store in Ho. apply in_listing in Ho as (r & Hr & ->).
    apply in_firstn, without_id_spec in Hr as [_ Hr].
    cbn. intros [= E]. congruence.
Qed.

(** X27.  On an initialised store, for every id that holds no
    double-quote character and under which no row is stored, and for every
    text, [update(id, newText)] succeeds: the delete phase removes
    nothing, and the row [{id, newText, embed(newText), now}] is appended
    to the table. *)
Theorem update_todo_creates_absent_id
        (t : Table) (e : Embedder) (n : bool) (cs : list Call)
        (now : Z) (todoId newText : string) :
  no_dquote todoId = true ->
  (forall r, In r t -> row_id r <> todoId) ->
  let row := {| row_id := todoId; row_text := newText;
                row_vector := e newText; row_timestamp := now |} in
  update_todo now todoId newText (store t e n cs)
  = (JObj [("success", JBool true); ("item", item_object todoId newText now)],
     store (t ++ [row])%list e n
           (CallTableAdd [row] :: CallTableDelete (id_filter todoId)
              :: CallEmbedder newText :: cs))
  /\ Table_delete (id_filter todoId) t = inr t.
Proof.
  intros Hq Habs row. split.
  - rewrite update_todo_eval by assumption.
    now rewrite without_id_absent.
  - unfold Table_delete. rewrite parse_id_filter by assumption.
    f_equal. rewrite <- (without_id_absent todoId t Habs) at 2.
    unfold without_id. apply filter_ext. intros r. now rewrite matches_id.
Qed.

(** C1 (amended).  On an initialised store, for every id that holds no
    double-quote character and every text, [update(id, newText)] calls
    the embedder on [newText], then deletes the rows stored under [id],
    then appends the row [{id, newText, embed(newText), now}], and returns
    [{success: true, item: {id, text: newText, timestamp: now}}].
    Afterwards that row is the only one stored under [id]; every item
    that [list()] shows with this id is [{id, newText, now}]; and
    [list()] does show it when the table holds at most 500 rows. *)
Theorem update_todo_replaces_row
        (t : Table) (e : Embedder) (n : bool) (cs : list Call)
        (now : Z) (todoId newText : string) :
  no_dquote todoId = true ->
  let row := {| row_id := todoId; row_text := newText;
                row_vector := e newText; row_timestamp := now |} in
  let after := update_todo now todoId newText (store t e n cs) in
  let t' := (without_id todoId t ++ [row])%list in
  fst after = JObj [("success", JBool true);
                    ("item", item_object todoId newText now)]
  /\ table (snd after) = Some t'
  /\ calls (snd after)
     = CallTableAdd [row] :: CallTableDelete (id_filter todoId)
         :: CallEmbedder newText :: cs
  /\ (forall r, In r t' -> row_id r = todoId -> r = row)
  /\ (forall o, In o (listing (snd after)) -> js_get "id" o = JStr todoId ->
                o = item_object todoId newText now)
  /\ ((length t' <= 500)%nat ->
      In (item_object todoId newText now) (listing (snd after))).
Proof.
  intros Hq row after t'. subst after.
  rewrite update_todo_eval by assumption. cbn [fst snd].
  fold row. fold t'. unfold store. cbn [table calls].
  assert (Hrows : forall r, In r t' -> row_id r = todoId -> r = row).
  { intros r Hr Hid. apply in_app_or in Hr as [Hr|[<-|[]]]; [|reflexivity].
    apply without_id_spec in Hr as [_ Hr]. contradiction. }
  repeat split; auto.
  - intros o Ho Hid. apply in_listing in Ho as (r & Hr & ->).
    apply in_firstn in Hr. cbn in Hid. injection Hid as Hid.
    now rewrite (Hrows r Hr Hid).
  - intros Hlen. apply in_listing. exists row. split; [|reflexivity].
    rewrite firstn_all2 by assumption. apply in_or_app. right. now left.
Qed.

(** *** Listing order and the shape of replies *)

Lemma strongly_sorted_impl {A : Type} (R R' : A -> A -> Prop) (l : list A) :
  (forall a b, R a b -> R' a b) -> StronglySorted R l -> StronglySorted R' l.
Proof.
  intros HR. induction 1 as [|a l Hs IH Ha]; constructor; auto.
  eapply Forall_impl; [|exact Ha]. auto.
Qed.

Lemma strongly_sorted_firstn {A : Type} (R : A -> A -> Prop) (k : nat) (l : list A) :
  StronglySorted R l -> StronglySorted R (firstn k l).
Proof.
  intros Hs. revert k. induction Hs as [|a l Hs IH Ha]; intros [|k]; simpl;
    try constructor; auto.
  rewrite Forall_forall in *. intros x Hx. apply Ha. eapply in_firstn; eauto.
Qed.

Lemma listing_sorted (rows : list Row) :
  StronglySorted
    (fun a b => js_num (js_get "timestamp" a) >= js_num (js_get "timestamp" b))
    (js_sort by_timestamp_desc (map item_of_row rows)).
Proof.
  unfold js_sort.
  eapply strongly_sorted_impl; [|apply stable_sort_sorted].
  - cbv beta. unfold by_timestamp_desc. intros a b H.
    apply Z.leb_le in H. lia.
  - intros a b. unfold by_timestamp_desc. rewrite !Z.leb_le. lia.
  - intros a b c. unfold by_timestamp_desc. rewrite !Z.leb_le. lia.
Qed.

Lemma has_key_items (k : string) (items : list JsVal) :
  (forall o, In o items -> has_key k o = false) ->
  existsb (has_key k) items = false.
Proof.
  intros H. induction items as [|o items IH]; simpl; [reflexivity|].
  rewrite (H o) by now left. simpl. apply IH. intros o' Ho'. apply H. now right.
Qed.

Lemma search_todos_blank (t : Table) (e : Embedder) (n : bool) (cs : list Call)
      (query startDate endDate : option string) :
  blank query = true ->
  search_todos distance Date_getTime query startDate endDate (store t e n cs)
  = (JObj [("success", JBool true); ("results", JArr [])], store t e n cs).
Proof.
  intros Hb. unfold search_todos, store. cbn [table embedder is_set negb orb].
  destruct query as [q|]; [|reflexivity].
  unfold blank in Hb. now rewrite Hb.
Qed.

Lemma reply_has_no_vector (d : Draws) (req : Request) (w : World) :
  has_key "vector" (fst (handle distance Date_getTime d req w)) = false.
Proof.
  destruct req; cbn [handle].
  - (* add *)
    destruct w as [[t|] [e|] n cs]; try reflexivity.
    unfold add_todo, try_catch, bind, getEmbedding, call_nanoid, table_add.
    cbn [table embedder is_set negb orb record_call nanoidFn].
    destruct n; reflexivity.
  - (* list *)
    destruct w as [[t|] e n cs]; [|reflexivity].
    rewrite get_todos_eval. cbn [fst].
    cbn [has_key]. rewrite has_key_items; [reflexivity|].
    intros o Ho. unfold js_sort in Ho.
    eapply Permutation_in in Ho; [|apply stable_sort_perm].
    apply in_map_iff in Ho as (r & <- & _). reflexivity.
  - (* search *)
    destruct w as [[t|] [e|] n cs]; try reflexivity.
    fold (store t e n cs). destruct (blank query) eqn:Hb.
    + now rewrite search_todos_blank.
    + destruct query as [q|]; [|discriminate].
      rewrite search_todos_eval by assumption.
      cbn [fst]. cbn [has_key]. rewrite has_key_items; [reflexivity|].
      intros o Ho. apply in_map_iff in Ho as (r & <- & _). reflexivity.
  - (* seed *)
    destruct w as [[t|] [e|] [|] cs]; [|reflexivity..].
    unfold seed_demo_data, try_catch, bind.
    cbn [table embedder is_set negb orb nanoidFn].
    destruct (demo_loop (demo_draws d) (seq 0 100) _) as [[err|rows] w']; [reflexivity|].
    unfold table_add. destruct (table w'); reflexivity.
  - (* update *)
    destruct w as [[t|] [e|] n cs]; try reflexivity.
    unfold update_todo, try_catch, bind, getEmbedding, table_delete, Table_delete,
      table_add.
    cbn [table embedder is_set negb orb record_call].
    destruct (parse_filter (id_filter todoId)); reflexivity.
  - (* delete *)
    destruct w as [[t|] e n cs]; [|reflexivity].
    unfold delete_todo, try_catch, bind, table_delete, Table_delete.
    cbn [table embedder is_set negb orb record_call].
    destruct (parse_filter (id_filter todoId)); reflexivity.
Qed.

(** C3.  For every table, whatever the other handles, [list()] succeeds
    with at most 500 items; they are the first 500 rows of the table,
    each reduced to [{id, text, timestamp}], in descending order of
    timestamp.  No reply of any handler, to any request in any process
    state, holds a property named [vector] at any depth. *)
Theorem get_todos_newest_first_no_vector :
  (forall (t : Table) (e : option Embedder) (n : bool) (cs : list Call),
      exists todos,
        fst (get_todos distance
               {| table := Some t; embedder := e; nanoidFn := n; calls := cs |})
        = JObj [("success", JBool true); ("todos", JArr todos)]
        /\ (length todos <= 500)%nat
        /\ Permutation todos (map item_of_row (firstn 500 t))
        /\ StronglySorted
             (fun a b => js_num (js_get "timestamp" a)
                         >= js_num (js_get "timestamp" b)) todos
        /\ Forall (fun o => js_keys o = ["id"; "text"; "timestamp"]) todos)
  /\ (forall (d : Draws) (req : Request) (w : World),
         has_key "vector" (fst (handle distance Date_getTime d req w)) = false).
Proof.
  split; [|apply reply_has_no_vector].
  intros t e n cs.
  exists (js_sort by_timestamp_desc (map item_of_row (firstn 500 t))).
  rewrite get_todos_eval. cbn [fst]. split; [reflexivity|].
  assert (Hperm : Permutation
                    (js_sort by_timestamp_desc (map item_of_row (firstn 500 t)))
                    (map item_of_row (firstn 500 t)))
    by apply stable_sort_perm.
  repeat split.
  - rewrite (Permutation_length Hperm), length_map. apply firstn_le_length.
  - exact Hperm.
  - apply listing_sorted.
  - eapply Permutation_Forall; [symmetry; exact Hperm|].
    apply Forall_forall. intros o Ho.
    apply in_map_iff in Ho as (r & <- & _). reflexivity.
Qed.

(** *** Ranking *)

Lemma closer_total (v : Vector) (a b : Row) :
  closer distance v a b = true \/ closer distance v b a = true.
Proof.
  unfold closer. rewrite !Qle_bool_iff.
  destruct (Qlt_le_dec (distance v (row_vector a)) (distance v (row_vector b)));
    [left; now apply Qlt_le_weak | now right].
Qed.

Lemma closer_trans (v : Vector) (a b c : Row) :
  closer distance v a b = true -> closer distance v b c = true ->
  closer distance v a c = true.
Proof. unfold closer. rewrite !Qle_bool_iff. apply Qle_trans. Qed.

Lemma nearest_sorted (v : Vector) (cs : list Comparison) (t : Table) :
  StronglySorted
    (fun a b => (distance v (row_vector a) <= distance v (row_vector b))%Q)
    (nearest v cs t).
Proof.
  unfold nearest. apply strongly_sorted_firstn.
  eapply strongly_sorted_impl; [|apply stable_sort_sorted].
  - cbv beta. intros a b H. now apply Qle_bool_iff.
  - apply closer_total.
  - apply closer_trans.
Qed.

Lemma nearest_in (v : Vector) (cs : list Comparison) (t : Table) (r : Row) :
  In r (nearest v cs t) -> In r t /\ matches cs r = true.
Proof.
  unfold nearest. intros H. apply in_firstn in H.
  eapply Permutation_in in H; [|apply stable_sort_perm].
  now apply filter_In in H.
Qed.

Lemma nearest_before (v : Vector) (cs : list Comparison) (t : Table) (a b : Row) :
  In a t -> matches cs a = true -> In b (nearest v cs t) ->
  (distance v (row_vector a) < distance v (row_vector b))%Q ->
  exists l1 l2 l3, nearest v cs t = (l1 ++ a :: l2 ++ b :: l3)%list.
Proof.
  intros Ha Hm Hb Hlt. unfold nearest in *.
  eapply sorted_firstn_before; eauto.
  - apply closer_total.
  - apply stable_sort_sorted; [apply closer_total | apply closer_trans].
  - eapply Permutation_in; [symmetry; apply stable_sort_perm|].
    apply filter_In. auto.
  - unfold closer. destruct (Qle_bool _ _) eqn:E; [|reflexivity].
    apply Qle_bool_iff in E. now apply Qlt_not_le in Hlt.
Qed.

(** what the table returns: the first 10 of the rows that satisfy the
    filter, put in an ascending order of distance *)
Lemma nearest_ranked (v : Vector) (cs : list Comparison) (t : Table) :
  exists ranked,
    Permutation ranked (List.filter (matches cs) t)
    /\ StronglySorted
         (fun a b => (distance v (row_vector a) <= distance v (row_vector b))%Q)
         ranked
    /\ nearest v cs t = firstn 10 ranked.
Proof.
  exists (stable_sort (closer distance v) (List.filter (matches cs) t)).
  split; [apply stable_sort_perm|]. split; [|reflexivity].
  eapply strongly_sorted_impl; [|apply stable_sort_sorted].
  - cbv beta. intros a b H. now apply Qle_bool_iff.
  - apply closer_total.
  - apply closer_trans.
Qed.

Lemma nearest_length (v : Vector) (cs : list Comparison) (t : Table) :
  length (nearest v cs t) = Nat.min 10 (length (List.filter (matches cs) t)).
Proof.
  unfold nearest. now rewrite length_firstn, stable_sort_length.
Qed.

(** C7.  On an initialised store, for every query that is not blank,
    [search] succeeds and returns the first 10 (all, when there are fewer)
    of the rows of the table that satisfy the date bounds, taken in an
    ascending order of the distance between the embedding of the query and
    the vector of the row.  Each is sent as [{id, text, timestamp, score}]
    with [score] that distance; the results are in ascending order of it;
    and a row that satisfies the bounds and is strictly closer to the
    query than a returned row is returned too and stands in front of
    it. *)
Theorem search_todos_nearest_first
        (t : Table) (e : Embedder) (n : bool) (cs : list Call)
        (q : string) (startDate endDate : option string) :
  blank (Some q) = false ->
  exists ranked rows,
    fst (search_todos distance Date_getTime (Some q) startDate endDate
           (store t e n cs))
    = JObj [("success", JBool true);
            ("results", JArr (map (result_of_row (e q)) rows))]
    /\ Permutation ranked
         (List.filter (matches (date_bounds startDate endDate)) t)
    /\ StronglySorted
         (fun a b => (distance (e q) (row_vector a)
                      <= distance (e q) (row_vector b))%Q) ranked
    /\ rows = firstn 10 ranked
    /\ length rows
       = Nat.min 10 (length (List.filter (matches (date_bounds startDate endDate)) t))
    /\ (length rows <= 10)%nat
    /\ (forall r, In r rows ->
          In r t /\ matches (date_bounds startDate endDate) r = true /\
          js_get "score" (result_of_row (e q) r)
          = JFloat (distance (e q) (row_vector r)))
    /\ StronglySorted
         (fun a b => (distance (e q) (row_vector a)
                      <= distance (e q) (row_vector b))%Q) rows
    /\ (forall a b,
          In a t -> matches (date_bounds startDate endDate) a = true ->
          In b rows ->
          (distance (e q) (row_vector a) < distance (e q) (row_vector b))%Q ->
          exists l1 l2 l3, rows = (l1 ++ a :: l2 ++ b :: l3)%list).
Proof.
  intros Hq.
  destruct (nearest_ranked (e q) (date_bounds startDate endDate) t)
    as (ranked & Hperm & Hsorted & Hcut).
  exists ranked, (nearest (e q) (date_bounds startDate endDate) t).
  rewrite search_todos_eval by assumption. cbn [fst].
  split; [reflexivity|]. split; [exact Hperm|]. split; [exact Hsorted|].
  split; [exact Hcut|]. split; [apply nearest_length|].
  split; [apply firstn_le_length|].
  split; [|split].
  - intros r Hr. apply nearest_in in Hr as [H1 H2]. repeat split; auto.
  - apply nearest_sorted.
  - intros a b. apply nearest_before.
Qed.

(** *** Date bounds *)

Lemma where_clause_expected (v : Vector) (startDate endDate : option string) :
  q_where (search_query v startDate endDate)
  = expected_where (start_ms startDate) (end_ms endDate).
Proof.
  unfold search_query, date_filters, start_filter, end_filter, start_ms, end_ms.
  cbn [q_where].
  destruct startDate as [d1|]; [destruct (truthy d1);
                                [destruct (Date_getTime (d1 ++ _))|]|];
    (destruct endDate as [d2|]; [destruct (truthy d2);
                                 [destruct (Date_getTime (d2 ++ _))|]|]);
    cbn [app length Nat.ltb Nat.leb join expected_where]; reflexivity.
Qed.

Lemma date_bounds_within (startDate endDate : option string) (r : Row) :
  matches (date_bounds startDate endDate) r
  = within (start_ms startDate) (end_ms endDate) r.
Proof.
  unfold date_bounds, start_bound, end_bound, start_ms, end_ms, within, matches.
  destruct startDate as [d1|]; [destruct (truthy d1);
                                [destruct (Date_getTime (d1 ++ _))|]|];
    (destruct endDate as [d2|]; [destruct (truthy d2);
                                 [destruct (Date_getTime (d2 ++ _))|]|]);
    cbn [app forallb holds eval_op]; rewrite ?Z.geb_leb, ?andb_true_r;
    reflexivity.
Qed.

Lemma on_utc_day (day ms : Z) :
  (86400000 * day <=? ms) && (ms <=? 86400000 * day + 86399999)
  = (utc_day ms =? day).
Proof.
  unfold utc_day.
  destruct (ms / 86400000 =? day) eqn:E.
  - apply Z.eqb_eq in E. apply andb_true_iff. rewrite !Z.leb_le.
    Z.to_euclidean_division_equations. lia.
  - apply Z.eqb_neq in E. apply andb_false_iff. rewrite !Z.leb_gt.
    Z.to_euclidean_division_equations. lia.
Qed.

(** C6.  On an initialised store, for every query that is not blank,
    [search] sends the table a query whose filter is
    ["timestamp >= startMs AND timestamp <= endMs"], with only the bounds
    that are given and parse, where [startMs] is 00:00:00.000 UTC of the
    start date and [endMs] is 23:59:59.999 UTC of the end date; the
    results are the first 10 of the rows whose timestamp lies between the
    bounds, both included, taken in an ascending order of distance (the
    order among rows at the same distance is left open).  When the table
    holds three rows
    on three distinct UTC days and both dates name the day of the second,
    the second row is the only result. *)
Theorem search_todos_date_bounds
        (t : Table) (e : Embedder) (n : bool) (cs : list Call)
        (q : string) (startDate endDate : option string) :
  blank (Some q) = false ->
  let after := search_todos distance Date_getTime (Some q) startDate endDate
                 (store t e n cs) in
  calls (snd after)
  = CallQueryExecute
      {| q_vector := Some (e q);
         q_where := expected_where (start_ms startDate) (end_ms endDate);
         q_limit := 10;
         q_select := Some ["id"; "text"; "timestamp"] |}
      :: CallEmbedder q :: cs
  /\ (exists ranked,
        Permutation ranked
          (List.filter (within (start_ms startDate) (end_ms endDate)) t)
        /\ StronglySorted
             (fun a b => (distance (e q) (row_vector a)
                          <= distance (e q) (row_vector b))%Q) ranked
        /\ fst after
           = JObj [("success", JBool true);
                   ("results",
                    JArr (map (result_of_row (e q)) (firstn 10 ranked)))])
  /\ (forall (d : string) (day : Z) (r1 r2 r3 : Row),
         startDate = Some d -> endDate = Some d -> truthy d = true ->
         Date_getTime (d ++ "T00:00:00.000Z") = Some (86400000 * day) ->
         Date_getTime (d ++ "T23:59:59.999Z") = Some (86400000 * day + 86399999) ->
         t = [r1; r2; r3] ->
         utc_day (row_timestamp r2) = day ->
         utc_day (row_timestamp r1) <> day ->
         utc_day (row_timestamp r3) <> day ->
         fst after = JObj [("success", JBool true);
                           ("results", JArr [result_of_row (e q) r2])]).
Proof.
  intros Hq after. subst after.
  rewrite search_todos_eval by assumption. cbn [fst snd].
  unfold store. cbn [calls].
  assert (Hfilter :
            List.filter (matches (date_bounds startDate endDate)) t
            = List.filter (within (start_ms startDate) (end_ms endDate)) t).
  { apply filter_ext. intros r. apply date_bounds_within. }
  split; [|split].
  - do 2 f_equal. unfold search_query at 1.
    fold (search_query (e q) startDate endDate).
    rewrite <- where_clause_expected with (v := e q).
    reflexivity.
  - destruct (nearest_ranked (e q) (date_bounds startDate endDate) t)
      as (ranked & Hperm & Hsorted & Hcut).
    exists ranked. rewrite Hfilter in Hperm. rewrite Hcut. auto.
  - intros d day r1 r2 r3 -> -> Hd Hs He -> H2 H1 H3.
    unfold nearest. rewrite Hfilter.
    unfold start_ms, end_ms. rewrite Hd, Hs, He.
    unfold within. cbn [List.filter].
    rewrite !on_utc_day.
    apply Z.eqb_eq in H2. apply Z.eqb_neq in H1, H3.
    rewrite H1, H2, H3. reflexivity.
Qed.

(** C10.  On an initialised store, for every query that is not blank: a
    start date whose timestamp is [NaN] leaves the search exactly as if no
    start date had been given, whatever the end date is; likewise for an
    end date whose timestamp is [NaN]; and the search succeeds in each of
    these cases. *)
Theorem search_todos_ignores_unparseable_dates
        (t : Table) (e : Embedder) (n : bool) (cs : list Call)
        (q badStart badEnd : string) (other : option string) :
  blank (Some q) = false ->
  Date_getTime (badStart ++ "T00:00:00.000Z") = None ->
  Date_getTime (badEnd ++ "T23:59:59.999Z") = None ->
  let search := fun startDate endDate =>
                  search_todos distance Date_getTime (Some q) startDate endDate
                    (store t e n cs) in
  search (Some badStart) other = search None other
  /\ search other (Some badEnd) = search other None
  /\ search (Some badStart) (Some badEnd) = search None None
  /\ js_get "success" (fst (search (Some badStart) other)) = JBool true
  /\ js_get "success" (fst (search other (Some badEnd))) = JBool true
  /\ js_get "success" (fst (search (Some badStart) (Some badEnd))) = JBool true.
Proof.
  intros Hq Hs He search. subst search. cbv beta.
  assert (Hsf : start_filter Date_getTime (Some badStart) = []).
  { unfold start_filter. rewrite Hs. now destruct (truthy badStart). }
  assert (Hef : end_filter Date_getTime (Some badEnd) = []).
  { unfold end_filter. rewrite He. now destruct (truthy badEnd). }
  assert (Hsb : start_bound (Some badStart) = []).
  { unfold start_bound. rewrite Hs. now destruct (truthy badStart). }
  assert (Heb : end_bound (Some badEnd) = []).
  { unfold end_bound. rewrite He. now destruct (truthy badEnd). }
  rewrite !search_todos_eval by assumption.
  unfold search_query, date_filters, date_bounds.
  rewrite Hsf, Hef, Hsb, Heb.
  repeat split; reflexivity.
Qed.

Lemma demo_loop_cons (draws : nat -> DemoDraw) (i : nat) (rest : list nat)
      (w : World) :
  demo_loop draws (i :: rest) w
  = if nanoidFn w then
      match embedder w with
      | Some e =>
          let text := demo_text i (draw_keyword (draws i)) in
          match demo_loop draws rest (record_call (CallEmbedder text) w) with
          | (inr more, w') =>
              (inr ({| row_id := draw_id (draws i); row_text := text;
                       row_vector := e text;
                       row_timestamp := draw_time (draws i) |} :: more), w')
          | (inl err, w') => (inl err, w')
          end
      | None => (inl (mkError "Embedding pipeline not initialized."), w)
      end
    else (inl (undefined_error "nanoidFn"), w).
Proof.
  cbn [demo_loop]. unfold bind, call_nanoid, getEmbedding.
  destruct (nanoidFn w) eqn:En; [|reflexivity].
  destruct (embedder w) as [e|]; [|reflexivity].
  cbn [nanoidFn record_call]. rewrite En.
  destruct (demo_loop draws rest _) as [[err|more] w']; reflexivity.
Qed.

(** *** Invariants of the process state

    A property of the process state that survives logging a call,
    removing rows and appending rows with acceptable texts survives every
    request whose texts are acceptable. *)

Section Invariants.
Variable I : World -> Prop.
Variable good_text : string -> Prop.

Hypothesis I_call : forall c w, I w -> I (record_call c w).
Hypothesis I_remove :
  forall w t (keep : Row -> bool),
    I w -> table w = Some t -> I (set_table (List.filter keep t) w).
Hypothesis I_append :
  forall w t rows,
    I w -> table w = Some t ->
    Forall (fun r => good_text (row_text r)) rows ->
    I (set_table (t ++ rows)%list w).
Hypothesis good_demo : forall i keyword, good_text (demo_text i keyword).

Abbreviation good_request := (good_request good_text).

Lemma table_delete_keeps (filter : string) (w : World) :
  I w -> I (snd (table_delete filter w)).
Proof.
  intros Hw. unfold table_delete, Table_delete.
  destruct (table w) as [t|] eqn:Et; [|exact Hw].
  destruct (parse_filter filter); cbn [snd].
  - apply I_remove; [now apply I_call | exact Et].
  - now apply I_call.
Qed.

Lemma table_add_keeps (rows : list Row) (w : World) :
  Forall (fun r => good_text (row_text r)) rows ->
  I w -> I (snd (table_add rows w)).
Proof.
  intros Hrows Hw. unfold table_add, Table_add.
  destruct (table w) as [t|] eqn:Et; [|exact Hw]. cbn [snd].
  apply I_append; [now apply I_call | exact Et | exact Hrows].
Qed.

Lemma demo_loop_keeps (draws : nat -> DemoDraw) (indices : list nat) :
  forall w, I w ->
    I (snd (demo_loop draws indices w))
    /\ match fst (demo_loop draws indices w) with
       | inr rows => Forall (fun r => good_text (row_text r)) rows
       | inl _ => True
       end.
Proof.
  induction indices as [|i rest IH]; intros w Hw.
  - split; [exact Hw | constructor].
  - rewrite demo_loop_cons. cbv zeta.
    destruct (nanoidFn w); [|split; [exact Hw | exact Logic.I]].
    destruct (embedder w) as [e|]; [|split; [exact Hw | exact Logic.I]].
    specialize (IH _ (I_call (CallEmbedder (demo_text i (draw_keyword (draws i))))
                             _ Hw)).
    destruct (demo_loop draws rest _) as [[err|rows] w'];
      cbn [fst snd] in IH |- *; destruct IH as [IH1 IH2].
    + split; [exact IH1 | exact Logic.I].
    + split; [exact IH1|].
      constructor; [apply good_demo | exact IH2].
Qed.

Lemma handle_keeps (d : Draws) (req : Request) (w : World) :
  good_request req -> I w -> I (snd (handle distance Date_getTime d req w)).
Proof.
  intros Hreq Hw. destruct req; cbn [handle good_request] in *.
  - (* add *)
    unfold add_todo.
    destruct (negb (is_set (table w)) || negb (is_set (embedder w))); [exact Hw|].
    unfold try_catch, bind, getEmbedding.
    destruct (embedder w) as [e|]; [|exact Hw].
    unfold call_nanoid. cbn [nanoidFn record_call].
    destruct (nanoidFn w); [|now apply I_call].
    assert (Hrow : Forall (fun r : Row => good_text (row_text r))
                     [{| row_id := fresh_id d; row_text := todoText;
                         row_vector := e todoText; row_timestamp := now d |}])
      by (constructor; [exact Hreq | constructor]).
    pose proof (table_add_keeps _ _ Hrow (I_call (CallEmbedder todoText) w Hw))
      as Hadd.
    unfold record_call in Hadd.
    destruct (table_add _ _) as [[err|[]] w']; exact Hadd.
  - (* list *)
    unfold get_todos. destruct (negb (is_set (table w))); [exact Hw|].
    unfold try_catch, bind, table_query.
    destruct (table w); [|exact Hw].
    destruct (Query_execute _ _ _); now apply I_call.
  - (* search *)
    unfold search_todos.
    destruct (negb (is_set (table w)) || negb (is_set (embedder w))); [exact Hw|].
    destruct query as [q|]; [|exact Hw].
    destruct (negb (truthy q) || String.eqb (trim q) ""); [exact Hw|].
    unfold try_catch, bind, getEmbedding.
    destruct (embedder w) as [e|]; [|exact Hw].
    unfold table_query. cbn [table record_call].
    destruct (table w); [|now apply I_call].
    destruct (Query_execute _ _ _); cbn [snd]; now apply I_call, I_call.
  - (* seed *)
    unfold seed_demo_data.
    destruct (negb (is_set (table w)) || negb (is_set (embedder w))
              || negb (nanoidFn w)); [exact Hw|].
    unfold try_catch, bind.
    destruct (demo_loop_keeps (demo_draws d) (seq 0 100) w Hw) as [H1 H2].
    destruct (demo_loop _ _ _) as [[err|rows] w']; cbn [fst snd] in *; [exact H1|].
    pose proof (table_add_keeps rows w' H2 H1) as Hadd.
    destruct (table_add rows w') as [[err|[]] w'']; exact Hadd.
  - (* update *)
    unfold update_todo.
    destruct (negb (is_set (table w)) || negb (is_set (embedder w))); [exact Hw|].
    unfold try_catch, bind, getEmbedding.
    destruct (embedder w) as [e|]; [|exact Hw].
    pose proof (table_delete_keeps (id_filter todoId) _
                  (I_call (CallEmbedder newText) w Hw)) as Hdel.
    unfold record_call in Hdel.
    destruct (table_delete _ _) as [[err|[]] w']; cbn [snd] in Hdel; [exact Hdel|].
    assert (Hrow : Forall (fun r : Row => good_text (row_text r))
                     [{| row_id := todoId; row_text := newText;
                         row_vector := e newText; row_timestamp := now d |}])
      by (constructor; [exact Hreq | constructor]).
    pose proof (table_add_keeps _ w' Hrow Hdel) as Hadd.
    destruct (table_add _ w') as [[err|[]] w'']; exact Hadd.
  - (* delete *)
    unfold delete_todo. destruct (negb (is_set (table w))); [exact Hw|].
    unfold try_catch, bind.
    pose proof (table_delete_keeps (id_filter todoId) w Hw) as Hdel.
    destruct (table_delete _ w) as [[err|[]] w']; exact Hdel.
Qed.
End Invariants.

(** *** The initialisation gate *)

Variable zero_vector : Vector.

Abbreviation step' := (step distance Date_getTime zero_vector).
Abbreviation run' := (run distance Date_getTime zero_vector).

Lemma handle_same_handles (d : Draws) (req : Request) (w : World) :
  embedder (snd (handle distance Date_getTime d req w)) = embedder w
  /\ is_set (table (snd (handle distance Date_getTime d req w))) = is_set (table w).
Proof.
  apply (handle_keeps
           (fun w' => embedder w' = embedder w
                      /\ is_set (table w') = is_set (table w))
           (fun _ => True)).
  - intros c w' H. exact H.
  - intros w' t keep [H1 H2] Ht. cbn. rewrite Ht in H2. auto.
  - intros w' t rows [H1 H2] Ht _. cbn. rewrite Ht in H2. auto.
  - intros; exact Logic.I.
  - destruct req; exact Logic.I.
  - auto.
Qed.

Lemma table_delete_same_handles (filter : string) (w : World) :
  embedder (snd (table_delete filter w)) = embedder w
  /\ is_set (table (snd (table_delete filter w))) = is_set (table w).
Proof.
  unfold table_delete, Table_delete. destruct (table w) eqn:Et.
  - destruct (parse_filter filter); cbn; rewrite ?Et; auto.
  - cbn. rewrite Et. auto.
Qed.

Lemma step_init_order (disk : option Table) (ev : Event) (st : InitPc * World) :
  init_order st -> init_order (step' disk ev st).
Proof.
  destruct st as [pc w]. unfold init_order. cbn [fst snd]. intros H.
  destruct ev as [r|d req]; cbn [step fst snd].
  - assert (Hdummy :
              forall res, res = table_delete dummy_filter w ->
                is_set (embedder w) = true ->
                is_set (embedder (snd res)) = true).
    { intros res -> He.
      now rewrite (proj1 (table_delete_same_handles dummy_filter w)). }
    destruct pc, r; cbn [initializeApp fst snd];
      try (destruct disk; cbn [fst snd set_table table embedder]);
      try (specialize (Hdummy _ eq_refl H);
           destruct (table_delete dummy_filter w) as [[err|[]] w'];
           cbn [fst snd] in *);
      first [ exact H | intros _; exact H | reflexivity
            | rewrite H; discriminate
            | intros _; exact Hdummy | exact Hdummy ].
  - destruct (handle_same_handles d req w) as [He Ht].
    destruct pc; rewrite ?He, ?Ht; auto.
    + destruct (table (snd (handle distance Date_getTime d req w))), (table w);
        auto; discriminate.
    + destruct (table (snd (handle distance Date_getTime d req w))), (table w);
        auto; discriminate.
Qed.

Lemma run_init_order (disk : option Table) (evs : list Event) :
  forall st, init_order st -> init_order (run' disk evs st).
Proof.
  induction evs as [|ev evs IH]; intros st H; [exact H|].
  cbn [run fold_left]. apply IH. now apply step_init_order.
Qed.

Lemma not_ready_handle (d : Draws) (req : Request) (w : World) :
  table w = None ->
  handle distance Date_getTime d req w = (not_ready_reply req, w).
Proof.
  intros Ht. destruct req; cbn [handle not_ready_reply].
  - unfold add_todo. now rewrite Ht.
  - unfold get_todos. now rewrite Ht.
  - unfold search_todos. now rewrite Ht.
  - unfold seed_demo_data. now rewrite Ht.
  - unfold update_todo. now rewrite Ht.
  - unfold delete_todo. now rewrite Ht.
Qed.

Lemma step_ready (disk : option Table) (ev : Event) (st : InitPc * World) :
  ready (snd st) = true -> ready (snd (step' disk ev st)) = true.
Proof.
  destruct st as [pc w]. unfold ready. cbn [fst snd].
  intros [Ht He]%andb_prop.
  destruct ev as [r|d req]; cbn [step fst snd].
  - pose proof (table_delete_same_handles dummy_filter w) as [He' Ht'].
    destruct pc, r; cbn [initializeApp fst snd];
      try (destruct disk; cbn [fst snd set_table table embedder is_set]);
      try (destruct (table_delete dummy_filter w) as [[err|[]] w'];
           cbn [fst snd] in *; rewrite ?He', ?Ht');
      cbn [record_call table embedder is_set];
      rewrite ?Ht, ?He; reflexivity.
  - destruct (handle_same_handles d req w) as [He' Ht'].
    now rewrite He', Ht', Ht, He.
Qed.

Lemma run_ready (disk : option Table) (evs : list Event) :
  forall st, ready (snd st) = true -> ready (snd (run' disk evs st)) = true.
Proof.
  induction evs as [|ev evs IH]; intros st H; [exact H|].
  cbn [run fold_left]. apply IH. now apply step_ready.
Qed.

Lemma ready_reply (d : Draws) (req : Request) (w : World) :
  ready w = true -> is_operation req = true ->
  ~ not_ready_error (fst (handle distance Date_getTime d req w)).
Proof.
  unfold ready. destruct w as [[t|] [e|] n cs]; try discriminate.
  intros _ Hop. fold (store t e n cs). unfold not_ready_error.
  destruct req; cbn [handle]; try discriminate Hop.
  - unfold add_todo, try_catch, bind, getEmbedding, call_nanoid, table_add, store.
    cbn [table embedder is_set negb orb record_call nanoidFn].
    destruct n; cbn; intros [H|H]; discriminate H.
  - unfold store. rewrite get_todos_eval. cbn. intros [H|H]; discriminate H.
  - destruct (blank query) eqn:Hb.
    + rewrite search_todos_blank by assumption. cbn. intros [H|H]; discriminate H.
    + destruct query as [q|]; [|discriminate].
      rewrite search_todos_eval by assumption. cbn. intros [H|H]; discriminate H.
  - unfold update_todo, try_catch, bind, getEmbedding, table_delete, Table_delete,
      table_add, store.
    cbn [table embedder is_set negb orb record_call].
    destruct (parse_filter (id_filter todoId)); cbn; intros [H|H]; discriminate H.
  - unfold delete_todo, try_catch, bind, table_delete, Table_delete, store.
    cbn [table embedder is_set negb orb record_call].
    destruct (parse_filter (id_filter todoId)); cbn; intros [H|H]; discriminate H.
Qed.

Lemma step_completion_order (disk : option Table) (ev : Event)
      (st : InitPc * World) :
  init_order st -> completion_order disk st ->
  completion_order disk (step' disk ev st).
Proof.
  destruct st as [pc w]. unfold init_order, completion_order. cbn [fst snd].
  intros Ho Hc. destruct ev as [r|d req]; cbn [step fst snd].
  - destruct pc.
    + destruct r; cbn [initializeApp fst snd table]; auto.
    + destruct r; cbn [initializeApp fst snd table]; auto.
    + destruct r; cbn [initializeApp fst snd table]; auto.
      destruct disk as [t|]; cbn [fst snd]; unfold ready, set_table;
        cbn [table embedder is_set andb]; [exact Ho | split; [reflexivity | exact Ho]].
    + destruct Hc as [Hd Hr].
      assert (Hdel : ready (snd (table_delete dummy_filter w)) = true).
      { destruct (table_delete_same_handles dummy_filter w) as [He Ht].
        unfold ready in *. now rewrite He, Ht. }
      destruct r; cbn [initializeApp fst snd]; [intros Hn; congruence| | |];
        (destruct (table_delete dummy_filter w) as [[err|[]] w'];
         cbn [fst snd] in *; [intros Hn; congruence | exact Hdel]).
    + exact Hc.
    + exact Hc.
  - destruct (handle_same_handles d req w) as [He Ht].
    assert (Hready : ready w = true ->
                     ready (snd (handle distance Date_getTime d req w)) = true).
    { unfold ready. now rewrite He, Ht. }
    assert (Hnone : table w = None ->
                    table (snd (handle distance Date_getTime d req w)) = None).
    { intros Hn. now rewrite not_ready_handle. }
    destruct pc; auto. destruct Hc as [Hd Hr]. auto.
Qed.

Lemma run_completion_order (disk : option Table) (evs : list Event) :
  forall st, init_order st -> completion_order disk st ->
             completion_order disk (run' disk evs st).
Proof.
  induction evs as [|ev evs IH]; intros st Ho Hc; [exact Hc|].
  cbn [run fold_left]. apply IH; [now apply step_init_order|].
  now apply step_completion_order.
Qed.

(** C8 (amended).  Along every run of the process from start-up, in which
    requests may arrive between any two steps of [initializeApp]: as long
    as [table] and [embedder] are not both assigned, each of the five
    operations returns its not-initialised failure reply (a value, with
    [success: false] and the not-initialised message) and changes nothing;
    [table] is never assigned before [embedder], which is why testing
    [table] alone is enough for [list] and [delete]; and once both are
    assigned they stay assigned whatever happens next, and no reply of the
    five operations carries a not-initialised message again.  The two
    handles are not both assigned while the imports, the pipeline and the
    connection are awaited, and they are once initialisation has
    completed; when the table is found on disk, they are both assigned
    exactly when initialisation has completed. *)
Theorem initialization_gate :
  (forall disk evs d req,
      is_operation req = true ->
      let w := snd (run' disk evs boot) in
      ready w = false ->
      handle distance Date_getTime d req w = (not_ready_reply req, w)
      /\ js_get "success" (not_ready_reply req) = JBool false
      /\ not_ready_error (not_ready_reply req))
  /\ (forall disk evs,
         let w := snd (run' disk evs boot) in
         is_set (table w) = true -> is_set (embedder w) = true)
  /\ (forall disk st evs d req,
         ready (snd st) = true ->
         is_operation req = true ->
         let w := snd (run' disk evs st) in
         ready w = true
         /\ ~ not_ready_error (fst (handle distance Date_getTime d req w)))
  /\ (forall disk evs,
         let st := run' disk evs boot in
         (early (fst st) = true -> ready (snd st) = false)
         /\ (fst st = PcReady -> ready (snd st) = true))
  /\ (forall t evs,
         let st := run' (Some t) evs boot in
         ready (snd st) = true <-> fst st = PcReady).
Proof.
  assert (Horder : forall disk evs,
             is_set (table (snd (run' disk evs boot))) = true ->
             is_set (embedder (snd (run' disk evs boot))) = true).
  { intros disk evs.
    pose proof (run_init_order disk evs boot eq_refl) as H.
    unfold init_order in H.
    destruct (fst (run' disk evs boot)); try (intros _; exact H); try exact H;
      rewrite H; discriminate. }
  assert (Hcompl : forall disk evs, completion_order disk (run' disk evs boot)).
  { intros disk evs. apply run_completion_order; reflexivity. }
  split; [|split; [|split; [|split]]].
  - intros disk evs d req Hop w Hready. split.
    + apply not_ready_handle.
      specialize (Horder disk evs). fold w in Horder.
      unfold ready in Hready.
      destruct (table w); [|reflexivity].
      rewrite Horder in Hready by reflexivity. discriminate.
    + destruct req; try discriminate Hop; cbn;
        (split; [reflexivity | (now left) || (now right)]).
  - exact Horder.
  - intros disk st evs d req Hready Hop w. subst w. split.
    + now apply run_ready.
    + apply ready_reply; [now apply run_ready | exact Hop].
  - intros disk evs st. subst st. specialize (Hcompl disk evs).
    unfold completion_order in Hcompl.
    destruct (fst (run' disk evs boot)); cbn [early]; split;
      try discriminate; intros _; try exact Hcompl;
      unfold ready; now rewrite Hcompl.
  - intros t evs st. subst st. specialize (Hcompl (Some t) evs).
    unfold completion_order in Hcompl.
    assert (Hnone : table (snd (run' (Some t) evs boot)) = None ->
                    ready (snd (run' (Some t) evs boot)) = true -> False).
    { unfold ready. intros ->. discriminate. }
    destruct (fst (run' (Some t) evs boot)).
    + split; [intros H; now destruct (Hnone Hcompl H) | discriminate].
    + split; [intros H; now destruct (Hnone Hcompl H) | discriminate].
    + split; [intros H; now destruct (Hnone Hcompl H) | discriminate].
    + destruct Hcompl as [Hd Hr]. discriminate Hd.
    + split; [reflexivity | intros _; exact Hcompl].
    + split; [intros H | discriminate].
      assert (Hd : Some t <> None) by discriminate.
      now destruct (Hnone (Hcompl Hd) H).
Qed.

(** *** Texts of stored rows *)

Lemma truthy_nonempty (s : string) : truthy s = true -> s <> "".
Proof. destruct s; [discriminate | discriminate]. Qed.

Lemma renderer_requests_have_text (c : Click) (req : Request) :
  request_of Date_getTime c = Some req ->
  good_request (fun s => s <> "") req.
Proof.
  destruct c; cbn [request_of].
  - destruct (truthy (trim todoInput)) eqn:E; [|discriminate].
    intros [= <-]. now apply truthy_nonempty.
  - destruct (truthy editingTodoId); [|discriminate].
    destruct (truthy (trim todoInput)) eqn:E; [|discriminate].
    cbn [negb orb].
    destruct originalText as [t|];
      [destruct (String.eqb (trim todoInput) t); [discriminate|]|];
      intros [= <-]; now apply truthy_nonempty.
  - destruct (String.eqb editingTodoId todoId); [discriminate|].
    destruct confirmed; [|discriminate]. now intros [= <-].
  - destruct (_ && _); [discriminate|]. now intros [= <-].
  - destruct (negb _); [discriminate|].
    destruct confirmed; [|discriminate]. now intros [= <-].
  - now intros [= <-].
Qed.

Lemma filter_texts (keep : Row -> bool) (t : Table) :
  texts_nonempty t -> texts_nonempty (List.filter keep t).
Proof.
  unfold texts_nonempty. rewrite !Forall_forall.
  intros H r Hr. apply filter_In in Hr as [Hr _]. auto.
Qed.

Lemma handle_texts_ok (d : Draws) (req : Request) (w : World) :
  good_request (fun s => s <> "") req ->
  texts_ok w -> texts_ok (snd (handle distance Date_getTime d req w)).
Proof.
  apply (handle_keeps texts_ok (fun s => s <> "")).
  - intros c w' H. exact H.
  - intros w' t keep H Ht. unfold texts_ok in *. cbn. rewrite Ht in H.
    now apply filter_texts.
  - intros w' t rows H Ht Hrows. unfold texts_ok in *. cbn. rewrite Ht in H.
    apply Forall_app. split; assumption.
  - intros i keyword. unfold demo_text. cbn. discriminate.
Qed.

Lemma step_texts_ok (disk : option Table) (ev : Event) (st : InitPc * World) :
  match disk with Some t => texts_nonempty t | None => True end ->
  from_renderer Date_getTime ev ->
  texts_ok (snd st) -> texts_ok (snd (step' disk ev st)).
Proof.
  intros Hdisk Hev Hst. destruct st as [pc w]. cbn [snd] in Hst.
  destruct ev as [r|d req]; cbn [step fst snd].
  - assert (Hdel : texts_ok (snd (table_delete dummy_filter w))).
    { unfold table_delete, Table_delete.
      destruct (table w) as [t|] eqn:Et; [|exact Hst].
      unfold texts_ok in Hst. rewrite Et in Hst.
      destruct (parse_filter dummy_filter); unfold texts_ok; cbn;
        [now apply filter_texts | now rewrite Et]. }
    destruct pc, r; cbn [initializeApp fst snd]; try exact Hst;
      try (destruct disk; unfold texts_ok; cbn;
           [exact Hdisk | repeat constructor; discriminate]);
      destruct (table_delete dummy_filter w) as [[err|[]] w']; exact Hdel.
  - destruct Hev as [c Hc]. apply handle_texts_ok; [|exact Hst].
    eapply renderer_requests_have_text; eauto.
Qed.

Lemma run_texts_ok (disk : option Table) (evs : list Event) :
  match disk with Some t => texts_nonempty t | None => True end ->
  Forall (from_renderer Date_getTime) evs ->
  forall st, texts_ok (snd st) -> texts_ok (snd (run' disk evs st)).
Proof.
  intros Hdisk Hevs. induction Hevs as [|ev evs Hev _ IH]; intros st Hst;
    [exact Hst|].
  cbn [run fold_left]. apply IH. now apply step_texts_ok.
Qed.

Lemma on_disk_texts (disk : option Table) :
  on_disk distance Date_getTime zero_vector disk ->
  match disk with Some t => texts_nonempty t | None => True end.
Proof.
  induction 1 as [|disk evs t Hdisk IH Hevs Ht]; [exact Logic.I|].
  pose proof (run_texts_ok disk evs IH Hevs boot Logic.I) as H.
  unfold texts_ok in H. now rewrite Ht in H.
Qed.

(** C9.  Start from a fresh installation or from a table that earlier
    runs of the application left on disk, and let the process run:
    [initializeApp] proceeds step by step and the renderer's click
    handlers send their requests in between.  In every state reached, no
    stored row has the empty string as its text: the click handlers for
    adding and updating trim the input and send nothing when the result
    is empty. *)
Theorem stored_texts_never_empty
        (disk : option Table) (evs : list Event) (t : Table) :
  on_disk distance Date_getTime zero_vector disk ->
  Forall (from_renderer Date_getTime) evs ->
  table (snd (run' disk evs boot)) = Some t ->
  Forall (fun r => row_text r <> "") t.
Proof.
  intros Hdisk Hevs Ht.
  pose proof (run_texts_ok disk evs (on_disk_texts disk Hdisk) Hevs boot Logic.I)
    as H.
  unfold texts_ok in H. now rewrite Ht in H.
Qed.

(** ** Further properties of the handlers *)

Lemma add_todo_eval (t : Table) (e : Embedder) (cs : list Call)
      (fresh : string) (now : Z) (todoText : string) :
  let row := {| row_id := fresh; row_text := todoText;
                row_vector := e todoText; row_timestamp := now |} in
  add_todo fresh now todoText (store t e true cs)
  = (JObj [("success", JBool true); ("item", item_object fresh todoText now)],
     store (t ++ [row])%list e true
           (CallTableAdd [row] :: CallEmbedder todoText :: cs)).
Proof. reflexivity. Qed.

(** Whoever stands in front of every other element in the comparator's
    order, strictly, is the head of the sorted list. *)
Lemma js_sort_head (cmp : JsVal -> JsVal -> Z) (l : list JsVal) (x : JsVal) :
  (forall a b, cmp a b <= 0 \/ cmp b a <= 0) ->
  (forall a b c, cmp a b <= 0 -> cmp b c <= 0 -> cmp a c <= 0) ->
  In x l ->
  (forall y, In y l -> y = x \/ 0 < cmp y x) ->
  hd_error (js_sort cmp l) = Some x.
Proof.
  intros Htot Htrans Hx Hfirst. unfold js_sort.
  pose proof (stable_sort_perm (fun a b => cmp a b <=? 0) l) as Hperm.
  assert (Hsorted : StronglySorted (fun a b => (cmp a b <=? 0) = true)
                      (stable_sort (fun a b => cmp a b <=? 0) l)).
  { apply stable_sort_sorted.
    - intros a b. rewrite !Z.leb_le. apply Htot.
    - intros a b c. rewrite !Z.leb_le. apply Htrans. }
  destruct (stable_sort (fun a b => cmp a b <=? 0) l) as [|h tl] eqn:E.
  - apply Permutation_nil in Hperm. subst l. destruct Hx.
  - cbn. f_equal.
    assert (Hh : In h l) by (eapply Permutation_in; [exact Hperm | now left]).
    destruct (Hfirst h Hh) as [-> | Hlt]; [reflexivity|].
    assert (Hxs : In x (h :: tl))
      by (eapply Permutation_in; [symmetry; exact Hperm | exact Hx]).
    destruct Hxs as [->|Hxtl]; [reflexivity|].
    inversion Hsorted as [|? ? _ Hall]; subst.
    rewrite Forall_forall in Hall. specialize (Hall x Hxtl).
    apply Z.leb_le in Hall. lia.
Qed.

Lemma newest_is_listed_first (t : Table) (e : option Embedder) (n : bool)
      (cs : list Call) (r : Row) :
  (length (t ++ [r]) <= 500)%nat ->
  (forall r', In r' t -> row_timestamp r' < row_timestamp r) ->
  hd_error (listing {| table := Some (t ++ [r])%list; embedder := e;
                       nanoidFn := n; calls := cs |})
  = Some (item_of_row r).
Proof.
  intros Hlen Hnew. rewrite listing_store, firstn_all2 by assumption.
  apply js_sort_head.
  - intros a b. unfold by_timestamp_desc. lia.
  - intros a b c. unfold by_timestamp_desc. lia.
  - apply in_map, in_or_app. right. now left.
  - intros y Hy. apply in_map_iff in Hy as (r' & <- & Hr').
    apply in_app_or in Hr' as [Hr'|[<-|[]]]; [|now left].
    right. unfold by_timestamp_desc. cbn. specialize (Hnew r' Hr'). lia.
Qed.

(** X1.  On an initialised store, [add(text)] accepts every text, the
    empty one included: it calls the embedder on the text, then appends the
    row [{fresh id, text, embed(text), now}] behind the rows already
    stored, which stay as they were, and returns [{success: true, item:
    {id, text, timestamp}}].  When the table then holds at most 500 rows,
    [list()] shows the new item. *)
Theorem add_todo_appends
        (t : Table) (e : Embedder) (cs : list Call)
        (fresh : string) (now : Z) (todoText : string) :
  let row := {| row_id := fresh; row_text := todoText;
                row_vector := e todoText; row_timestamp := now |} in
  let after := add_todo fresh now todoText (store t e true cs) in
  fst after = JObj [("success", JBool true);
                    ("item", item_object fresh todoText now)]
  /\ table (snd after) = Some (t ++ [row])%list
  /\ calls (snd after) = CallTableAdd [row] :: CallEmbedder todoText :: cs
  /\ ((length t < 500)%nat ->
      In (item_object fresh todoText now) (listing (snd after))).
Proof.
  intros row after. subst after. rewrite add_todo_eval. cbn [fst snd].
  repeat split.
  intros Hlen. unfold store. apply in_listing. exists row. split; [|reflexivity].
  rewrite firstn_all2 by (rewrite length_app; cbn; lia).
  apply in_or_app. right. now left.
Qed.

(** X2.  On an initialised store whose rows are all older than [now] and
    which holds fewer than 500 rows, the item that [add] has just stored
    is the first one of the next [list()]. *)
Theorem added_todo_is_listed_first
        (t : Table) (e : Embedder) (cs : list Call)
        (fresh : string) (now : Z) (todoText : string) :
  (length t < 500)%nat ->
  (forall r, In r t -> row_timestamp r < now) ->
  hd_error (listing (snd (add_todo fresh now todoText (store t e true cs))))
  = Some (item_object fresh todoText now).
Proof.
  intros Hlen Hold. rewrite add_todo_eval. cbn [snd]. unfold store.
  rewrite newest_is_listed_first; [reflexivity | | exact Hold].
  rewrite length_app. cbn. lia.
Qed.

(** X3.  On an initialised store whose rows are all older than [now] and
    which holds at most 500 rows, for an id without double quotes, the item
    that [update] has just written is the first one of the next [list()],
    wherever the replaced row stood. *)
Theorem updated_todo_is_listed_first
        (t : Table) (e : Embedder) (n : bool) (cs : list Call)
        (now : Z) (todoId newText : string) :
  no_dquote todoId = true ->
  (length t <= 499)%nat ->
  (forall r, In r t -> row_timestamp r < now) ->
  hd_error (listing (snd (update_todo now todoId newText (store t e n cs))))
  = Some (item_object todoId newText now).
Proof.
  intros Hq Hlen Hold. rewrite update_todo_eval by assumption. cbn [snd].
  unfold store. rewrite newest_is_listed_first; [reflexivity | |].
  - rewrite length_app. cbn.
    pose proof (filter_length_le (fun r : Row => negb (String.eqb (row_id r) todoId)) t).
    unfold without_id. lia.
  - intros r Hr. apply without_id_spec in Hr as [Hr _]. now apply Hold.
Qed.

(** X4.  On an initialised store, adding a todo and then deleting it by
    the id that [add] returned puts the table back as it was, provided
    the id holds no double quote and was not stored before. *)
Theorem add_then_delete_restores
        (t : Table) (e : Embedder) (cs : list Call)
        (fresh : string) (now : Z) (todoText : string) :
  no_dquote fresh = true ->
  (forall r, In r t -> row_id r <> fresh) ->
  let added := add_todo fresh now todoText (store t e true cs) in
  js_get "id" (js_get "item" (fst added)) = JStr fresh
  /\ fst (delete_todo fresh (snd added))
     = JObj [("success", JBool true); ("id", JStr fresh)]
  /\ table (snd (delete_todo fresh (snd added))) = Some t.
Proof.
  intros Hq Habs added. subst added. rewrite add_todo_eval. cbn [fst snd].
  rewrite delete_todo_eval by assumption. cbn [fst snd]. unfold store. cbn [table].
  repeat split. f_equal. unfold without_id. rewrite filter_app.
  fold (without_id fresh t). rewrite without_id_absent by assumption.
  cbn. rewrite String.eqb_refl. cbn. apply app_nil_r.
Qed.

(** X5.  On an initialised store, for an id without double quotes, two
    updates of the same id in a row leave the same table as the second
    update alone: nothing of the first text is kept. *)
Theorem update_twice_keeps_last
        (t : Table) (e : Embedder) (n : bool) (cs : list Call)
        (now1 now2 : Z) (todoId text1 text2 : string) :
  no_dquote todoId = true ->
  table (snd (update_todo now2 todoId text2
                (snd (update_todo now1 todoId text1 (store t e n cs)))))
  = table (snd (update_todo now2 todoId text2 (store t e n cs))).
Proof.
  intros Hq. rewrite !update_todo_eval by assumption. cbn [snd].
  rewrite update_todo_eval by assumption. cbn [snd]. unfold store. cbn [table].
  do 2 f_equal. unfold without_id. rewrite filter_app. cbn.
  rewrite String.eqb_refl. cbn. rewrite app_nil_r.
  fold (without_id todoId t). apply without_id_idempotent.
Qed.

Lemma rows_under_without (id other : string) (t : Table) :
  other <> id -> rows_under other (without_id id t) = rows_under other t.
Proof.
  intros Hne. unfold rows_under, without_id.
  induction t as [|r t IH]; cbn; [reflexivity|].
  destruct (String.eqb (row_id r) id) eqn:E1; cbn.
  - apply String.eqb_eq in E1.
    assert (E2 : String.eqb (row_id r) other = false)
      by (apply String.eqb_neq; congruence).
    now rewrite E2.
  - destruct (String.eqb (row_id r) other); [f_equal|]; exact IH.
Qed.

(** X6.  On an initialised store, for an id without double quotes,
    [update(id, ...)] and [delete(id)] leave the rows stored under every
    other id exactly as they were, in the same order. *)
Theorem other_ids_untouched
        (t : Table) (e : Embedder) (n : bool) (cs : list Call)
        (now : Z) (todoId newText other : string) :
  no_dquote todoId = true ->
  other <> todoId ->
  (forall t', table (snd (update_todo now todoId newText (store t e n cs))) = Some t' ->
              rows_under other t' = rows_under other t)
  /\ (forall t', table (snd (delete_todo todoId (store t e n cs))) = Some t' ->
                 rows_under other t' = rows_under other t).
Proof.
  intros Hq Hne. split; intros t'.
  - rewrite update_todo_eval by assumption. cbn. intros [= <-].
    unfold rows_under at 1. rewrite filter_app. cbn.
    assert (E : String.eqb todoId other = false)
      by (apply String.eqb_neq; congruence).
    rewrite E, app_nil_r. now apply rows_under_without.
  - rewrite delete_todo_eval by assumption. cbn. intros [= <-].
    now apply rows_under_without.
Qed.

Lemma without_id_nodup (id : string) (t : Table) :
  NoDup (map row_id t) -> NoDup (map row_id (without_id id t)).
Proof.
  unfold without_id. induction t as [|r t IH]; cbn; intros H; [constructor|].
  inversion H as [|? ? Hnotin Hrest]; subst.
  destruct (negb (String.eqb (row_id r) id)); cbn; [|now apply IH].
  constructor; [|now apply IH].
  intros Hin. apply Hnotin. apply in_map_iff in Hin as (r' & E & Hr').
  apply filter_In in Hr' as [Hr' _]. apply in_map_iff. eauto.
Qed.

Lemma nodup_snoc (t : Table) (r : Row) :
  NoDup (map row_id t) -> ~ In (row_id r) (map row_id t) ->
  NoDup (map row_id (t ++ [r])).
Proof.
  intros Hnd Hnotin. rewrite map_app. cbn.
  apply NoDup_app; [exact Hnd | repeat constructor; intros [] |].
  intros x Hx [<-|[]]. contradiction.
Qed.

(** X7.  On an initialised store in which no two rows share an id, that
    stays so after [update] and after [delete] of an id without double
    quotes, and after [add] when the id drawn by [nanoid] is not yet
    stored.  The handlers themselves never compare ids. *)
Theorem ids_stay_distinct
        (t : Table) (e : Embedder) (cs : list Call)
        (now : Z) (todoId fresh text : string) :
  NoDup (map row_id t) ->
  no_dquote todoId = true ->
  ~ In fresh (map row_id t) ->
  (forall t', table (snd (add_todo fresh now text (store t e true cs))) = Some t' ->
              NoDup (map row_id t'))
  /\ (forall t', table (snd (update_todo now todoId text (store t e true cs))) = Some t' ->
                 NoDup (map row_id t'))
  /\ (forall t', table (snd (delete_todo todoId (store t e true cs))) = Some t' ->
                 NoDup (map row_id t')).
Proof.
  intros Hnd Hq Hfresh. repeat split; intros t'.
  - rewrite add_todo_eval. cbn. intros [= <-]. now apply nodup_snoc.
  - rewrite update_todo_eval by assumption. cbn. intros [= <-].
    apply nodup_snoc; [now apply without_id_nodup|]. cbn.
    intros Hin. apply in_map_iff in Hin as (r & E & Hr).
    apply without_id_spec in Hr as [_ Hr]. contradiction.
  - rewrite delete_todo_eval by assumption. cbn. intros [= <-].
    now apply without_id_nodup.
Qed.

(** *** Reading does not write *)

Lemma get_todos_reads (w : World) :
  table (snd (get_todos distance w)) = table w
  /\ embedder (snd (get_todos distance w)) = embedder w.
Proof.
  unfold get_todos. destruct (table w) as [t|] eqn:Et; cbn [is_set negb].
  - unfold try_catch, bind, table_query. rewrite Et.
    destruct (Query_execute _ _ _); cbn; auto.
  - cbn. auto.
Qed.

Lemma search_todos_reads (query startDate endDate : option string) (w : World) :
  table (snd (search_todos distance Date_getTime query startDate endDate w)) = table w.
Proof.
  unfold search_todos.
  destruct (table w) as [t|] eqn:Et; [|cbn; exact Et].
  destruct (embedder w) as [e|] eqn:Ee; [|cbn; exact Et].
  cbn [is_set negb orb].
  destruct query as [q|]; [|cbn; exact Et].
  destruct (negb (truthy q) || String.eqb (trim q) ""); [cbn; exact Et|].
  unfold try_catch, bind, getEmbedding. rewrite Ee.
  unfold table_query. cbn [table record_call]. rewrite Et.
  destruct (Query_execute _ _ _); cbn; now rewrite ?Et.
Qed.

Lemma get_todos_reply_of_table (w1 w2 : World) :
  table w1 = table w2 ->
  fst (get_todos distance w1) = fst (get_todos distance w2).
Proof.
  intros E. unfold get_todos, try_catch, bind, table_query. rewrite E.
  destruct (table w2); cbn [is_set negb]; [|reflexivity].
  destruct (Query_execute _ _ _); reflexivity.
Qed.

(** X8.  In every process state, [list()] and [search] leave the table as
    it is, whatever their arguments; so a [list()] that follows either of
    them returns what a [list()] in their place would have returned. *)
Theorem reading_does_not_write
        (w : World) (query startDate endDate : option string) :
  let searched := snd (search_todos distance Date_getTime query startDate endDate w) in
  let listed := snd (get_todos distance w) in
  table searched = table w
  /\ table listed = table w
  /\ fst (get_todos distance searched) = fst (get_todos distance w)
  /\ fst (get_todos distance listed) = fst (get_todos distance w).
Proof.
  cbv zeta.
  pose proof (search_todos_reads query startDate endDate w) as Hs.
  pose proof (proj1 (get_todos_reads w)) as Hl.
  repeat split; auto; now apply get_todos_reply_of_table.
Qed.

(** *** Seeding *)

Lemma demo_loop_eval (t : Table) (e : Embedder) (draws : nat -> DemoDraw)
      (indices : list nat) :
  forall cs,
    demo_loop draws indices (store t e true cs)
    = (inr (map (demo_row e draws) indices),
       store t e true
             (rev (map (fun i => CallEmbedder (demo_text i (draw_keyword (draws i))))
                       indices) ++ cs)%list).
Proof.
  induction indices as [|i rest IH]; intros cs; [reflexivity|].
  rewrite demo_loop_cons. cbv zeta. cbn [nanoidFn embedder store].
  change (record_call (CallEmbedder (demo_text i (draw_keyword (draws i))))
            (store t e true cs))
    with (store t e true (CallEmbedder (demo_text i (draw_keyword (draws i))) :: cs)).
  rewrite IH. cbn [map rev]. rewrite <- app_assoc. reflexivity.
Qed.

(** X9.  On an initialised store, [seed-demo-data] calls the embedder
    100 times, once per demo text and in index order, then adds the 100
    rows in one call behind the rows already stored, and answers
    [{success: true, count: 100}]. *)
Theorem seed_demo_data_adds_hundred
        (t : Table) (e : Embedder) (cs : list Call) (draws : nat -> DemoDraw) :
  let rows := map (demo_row e draws) (seq 0 100) in
  let after := seed_demo_data draws (store t e true cs) in
  fst after = JObj [("success", JBool true); ("count", JNum 100)]
  /\ table (snd after) = Some (t ++ rows)%list
  /\ length rows = 100%nat
  /\ calls (snd after)
     = (CallTableAdd rows
          :: rev (map (fun i => CallEmbedder (demo_text i (draw_keyword (draws i))))
                      (seq 0 100)) ++ cs)%list.
Proof.
  intros rows after. subst after.
  unfold seed_demo_data, try_catch, bind.
  cbn [table embedder nanoidFn store is_set negb orb].
  fold (store t e true cs). rewrite demo_loop_eval. fold rows.
  unfold table_add, Table_add, ret, store.
  cbn [table record_call set_table embedder nanoidFn calls fst snd].
  assert (Hlen : length rows = 100%nat)
    by (unfold rows; now rewrite length_map, length_seq).
  rewrite Hlen. repeat split.
Qed.

(** *** More on searching *)

(** X10.  On an initialised store, for a query that is not blank, when
    both dates parse and the end of the end date lies before the start of
    the start date, [search] applies both bounds as they are and succeeds
    with no result. *)
Theorem search_inverted_range_is_empty
        (t : Table) (e : Embedder) (n : bool) (cs : list Call)
        (q : string) (startDate endDate : option string) (a b : Z) :
  blank (Some q) = false ->
  start_ms startDate = Some a ->
  end_ms endDate = Some b ->
  b < a ->
  fst (search_todos distance Date_getTime (Some q) startDate endDate (store t e n cs))
  = JObj [("success", JBool true); ("results", JArr [])].
Proof.
  intros Hq Ha Hb Hlt. rewrite search_todos_eval by assumption. cbn [fst].
  unfold nearest.
  assert (Hnone : List.filter (matches (date_bounds startDate endDate)) t = []).
  { induction t as [|r t IH]; [reflexivity|]. cbn [List.filter].
    rewrite date_bounds_within, Ha, Hb. unfold within.
    destruct (a <=? row_timestamp r) eqn:E1;
      destruct (row_timestamp r <=? b) eqn:E2; cbn; try exact IH.
    apply Z.leb_le in E1, E2. lia. }
  rewrite Hnone. reflexivity.
Qed.

(** X11.  On an initialised store that holds at most 10 rows, a search
    without dates, for any query that is not blank, returns every stored
    row exactly once. *)
Theorem search_small_table_returns_all
        (t : Table) (e : Embedder) (n : bool) (cs : list Call) (q : string) :
  blank (Some q) = false ->
  (length t <= 10)%nat ->
  exists rows,
    fst (search_todos distance Date_getTime (Some q) None None (store t e n cs))
    = JObj [("success", JBool true);
            ("results", JArr (map (result_of_row (e q)) rows))]
    /\ Permutation rows t.
Proof.
  intros Hq Hlen. exists (stable_sort (closer distance (e q)) t).
  rewrite search_todos_eval by assumption. cbn [fst].
  split; [|apply stable_sort_perm].
  unfold nearest.
  assert (Hall : List.filter (matches (date_bounds None None)) t = t).
  { induction t as [|r t IH]; [reflexivity|]. cbn [List.filter].
    rewrite date_bounds_within. cbn. f_equal. apply IH. cbn in Hlen. lia. }
  rewrite Hall.
  rewrite firstn_all2; [reflexivity|]. now rewrite stable_sort_length.
Qed.

(** *** More on the initialisation *)

Lemma run_cons (disk : option Table) (ev : Event) (evs : list Event)
      (st : InitPc * World) :
  run' disk (ev :: evs) st = run' disk evs (step' disk ev st).
Proof. reflexivity. Qed.

Lemma run_app (disk : option Table) (evs1 evs2 : list Event) (st : InitPc * World) :
  run' disk (evs1 ++ evs2)%list st = run' disk evs2 (run' disk evs1 st).
Proof. unfold run. apply fold_left_app. Qed.

Lemma run_unassigned (disk : option Table) (reqs : list (Draws * Request))
      (pc : InitPc) (w : World) :
  table w = None -> run' disk (invoke_all reqs) (pc, w) = (pc, w).
Proof.
  intros Ht. induction reqs as [|[d req] reqs IH]; [reflexivity|].
  cbn [invoke_all map fst snd]. rewrite run_cons. cbn [step fst snd].
  rewrite not_ready_handle by assumption. exact IH.
Qed.

Lemma run_early (disk : option Table) (reqs : list (Draws * Request))
      (ev : Event) (evs : list Event) (pc : InitPc) (w : World) :
  table w = None ->
  run' disk (invoke_all reqs ++ ev :: evs)%list (pc, w)
  = run' disk evs (step' disk ev (pc, w)).
Proof.
  intros Ht. now rewrite run_app, run_unassigned, run_cons.
Qed.

Lemma dummy_delete_eval (e : option Embedder) (n : bool) (cs : list Call)
      (created_at : Z) :
  table_delete dummy_filter
               {| table := Some (dummyData zero_vector created_at); embedder := e;
                  nanoidFn := n; calls := cs |}
  = (inr tt, {| table := Some []; embedder := e; nanoidFn := n;
                calls := CallTableDelete dummy_filter :: cs |}).
Proof.
  unfold table_delete, Table_delete. cbn [table].
  unfold dummy_filter at 1. rewrite parse_id_filter by reflexivity.
  reflexivity.
Qed.

(** X12.  When no table is found on disk and no awaited promise rejects,
    [initializeApp] ends with an empty table, the embedder and [nanoidFn]
    assigned, and the deletion of the seed row as the only recorded call;
    requests that arrive before the table is created, at whatever point,
    leave no trace. *)
Theorem initialization_on_fresh_disk
        (e : Embedder) (created_at : Z) (deleted : Settled)
        (early1 early2 early3 : list (Draws * Request)) :
  deleted <> Rejected ->
  run' None
       (invoke_all early1 ++ Settle Imported
          :: invoke_all early2 ++ Settle (PipelineLoaded e)
          :: invoke_all early3 ++ [Settle (TableReady created_at); Settle deleted])%list
       boot
  = (PcReady, store [] e true [CallTableDelete dummy_filter]).
Proof.
  intros Hd. unfold boot.
  rewrite run_early by reflexivity. cbn [step initializeApp fst snd table embedder calls].
  rewrite run_early by reflexivity. cbn [step initializeApp fst snd table embedder calls nanoidFn].
  rewrite run_early by reflexivity.
  destruct deleted; [congruence| | |];
    cbn [step initializeApp fst snd table embedder calls nanoidFn set_table run
         fold_left];
    unfold set_table; cbn [table embedder calls nanoidFn];
    now rewrite dummy_delete_eval.
Qed.

(** X13.  When a table is found on disk and no awaited promise rejects,
    [initializeApp] ends with that table as it was found and no call on
    it, and [list()] then returns its first 500 rows, newest first;
    requests that arrive before the table is opened leave no trace. *)
Theorem initialization_on_existing_table
        (t : Table) (e : Embedder) (created_at : Z)
        (early1 early2 early3 : list (Draws * Request)) :
  let st := run' (Some t)
                 (invoke_all early1 ++ Settle Imported
                    :: invoke_all early2 ++ Settle (PipelineLoaded e)
                    :: invoke_all early3 ++ [Settle (TableReady created_at)])%list
                 boot in
  st = (PcReady, store t e true [])
  /\ listing (snd st) = js_sort by_timestamp_desc (map item_of_row (firstn 500 t)).
Proof.
  cbv zeta. unfold boot.
  rewrite run_early by reflexivity. cbn [step initializeApp fst snd table embedder calls].
  rewrite run_early by reflexivity. cbn [step initializeApp fst snd table embedder calls nanoidFn].
  rewrite run_early by reflexivity.
  cbn [step initializeApp fst snd table embedder calls nanoidFn set_table run fold_left].
  split; [reflexivity|]. apply listing_store.
Qed.

Lemma step_early (disk : option Table) (ev : Event) (st : InitPc * World) :
  (early (fst st) = true -> table (snd st) = None) ->
  early (fst (step' disk ev st)) = true -> table (snd (step' disk ev st)) = None.
Proof.
  destruct st as [pc w]. cbn [fst snd]. intros H.
  destruct ev as [r|d req]; cbn [step fst snd].
  - destruct pc, r; cbn [initializeApp fst snd early];
      try (destruct disk; cbn [fst snd early]);
      try (destruct (table_delete dummy_filter w) as [[err|[]] w'];
           cbn [fst snd early]);
      try discriminate; cbn [table]; intros _; now apply H.
  - intros Hpc. rewrite not_ready_handle by auto. cbn [snd]. auto.
Qed.

Lemma run_early_table (disk : option Table) (evs : list Event) :
  forall st,
    (early (fst st) = true -> table (snd st) = None) ->
    early (fst (run' disk evs st)) = true -> table (snd (run' disk evs st)) = None.
Proof.
  induction evs as [|ev evs IH]; intros st H; [exact H|].
  rewrite run_cons. apply IH. now apply step_early.
Qed.

Lemma run_failed (disk : option Table) (evs : list Event) (w : World) :
  table w = None -> run' disk evs (PcFailed, w) = (PcFailed, w).
Proof.
  intros Ht. induction evs as [|[r|d req] evs IH]; [reflexivity| |];
    rewrite run_cons; cbn [step fst snd initializeApp].
  - exact IH.
  - rewrite not_ready_handle by assumption. exact IH.
Qed.

(** X14.  A rejection of the imports, of the pipeline or of the
    connection is final: whatever the process had received before, and
    whatever it receives afterwards, its state stays what it was when the
    promise rejected, [table] stays unassigned, and every request is
    answered with the error for an uninitialised store. *)
Theorem early_failure_is_final
        (disk : option Table) (before after : list Event)
        (d : Draws) (req : Request) :
  let st := run' disk before boot in
  early (fst st) = true ->
  run' disk (before ++ Settle Rejected :: after)%list boot = (PcFailed, snd st)
  /\ table (snd st) = None
  /\ handle distance Date_getTime d req (snd st) = (not_ready_reply req, snd st).
Proof.
  cbv zeta. intros Hpc.
  assert (Ht : table (snd (run' disk before boot)) = None)
    by (apply run_early_table; [reflexivity | exact Hpc]).
  split; [|split; [exact Ht | now apply not_ready_handle]].
  rewrite run_app, run_cons.
  destruct (run' disk before boot) as [pc w]. cbn [fst snd] in *.
  replace (step' disk (Settle Rejected) (pc, w)) with (PcFailed, w)
    by (destruct pc; try discriminate Hpc; reflexivity).
  now apply run_failed.
Qed.

(** X15.  When the table is created and the deletion of the seed row
    rejects, [initializeApp] reports an error, yet both handles are
    assigned: the store serves requests, and [list()] returns the seed
    row, as it does while the deletion is awaited. *)
Theorem failed_seed_deletion_leaves_seed_row
        (e : Embedder) (created_at : Z) :
  let created := run' None [Settle Imported; Settle (PipelineLoaded e);
                            Settle (TableReady created_at)] boot in
  let failed := step' None (Settle Rejected) created in
  let seed := item_object "dummy_id_init" "dummy_text_init" created_at in
  fst created = PcDummy
  /\ fst failed = PcFailed
  /\ ready (snd failed) = true
  /\ listing (snd created) = [seed]
  /\ listing (snd failed) = [seed].
Proof.
  cbv zeta. unfold boot.
  cbn [run fold_left step initializeApp fst snd table embedder calls nanoidFn
       set_table record_call].
  repeat split; unfold dummyData; now rewrite listing_store.
Qed.

Lemma handle_same_nanoid (d : Draws) (req : Request) (w : World) :
  nanoidFn (snd (handle distance Date_getTime d req w)) = nanoidFn w.
Proof.
  apply (handle_keeps (fun w' => nanoidFn w' = nanoidFn w) (fun _ => True)).
  - intros c w' H. exact H.
  - intros w' t keep H _. exact H.
  - intros w' t rows H _ _. exact H.
  - intros; exact Logic.I.
  - destruct req; exact Logic.I.
  - reflexivity.
Qed.

Lemma table_delete_same_nanoid (filter : string) (w : World) :
  nanoidFn (snd (table_delete filter w)) = nanoidFn w.
Proof.
  unfold table_delete, Table_delete. destruct (table w).
  - destruct (parse_filter filter); reflexivity.
  - reflexivity.
Qed.

Lemma step_nanoid_order (disk : option Table) (ev : Event) (st : InitPc * World) :
  nanoid_order st -> nanoid_order (step' disk ev st).
Proof.
  destruct st as [pc w]. unfold nanoid_order. cbn [fst snd]. intros H.
  destruct ev as [r|d req]; cbn [step fst snd].
  - pose proof (table_delete_same_nanoid dummy_filter w) as Hn.
    pose proof (proj1 (table_delete_same_handles dummy_filter w)) as He.
    destruct pc, r; cbn [initializeApp fst snd];
      try (destruct disk; cbn [fst snd set_table nanoidFn embedder]);
      try (destruct (table_delete dummy_filter w) as [[err|[]] w'];
           cbn [fst snd] in *; rewrite ?Hn, ?He);
      cbn [record_call nanoidFn embedder is_set];
      first [ exact H | intros _; exact H | reflexivity
            | rewrite H; discriminate ].
  - rewrite handle_same_nanoid, (proj1 (handle_same_handles d req w)). exact H.
Qed.

Lemma run_nanoid_order (disk : option Table) (evs : list Event) :
  forall st, nanoid_order st -> nanoid_order (run' disk evs st).
Proof.
  induction evs as [|ev evs IH]; intros st H; [exact H|].
  rewrite run_cons. apply IH. now apply step_nanoid_order.
Qed.

(** X16.  In every state the process reaches in which [table] and
    [embedder] are assigned, [add(text)] succeeds, for every text, the
    empty one included: [nanoidFn] is assigned by then, the row is
    appended, and the reply carries the row's id, text and time. *)
Theorem add_todo_succeeds_once_ready
        (disk : option Table) (evs : list Event) (d : Draws) (todoText : string) :
  let w := snd (run' disk evs boot) in
  ready w = true ->
  exists t e,
    table w = Some t /\ embedder w = Some e
    /\ fst (handle distance Date_getTime d (AddTodo todoText) w)
       = JObj [("success", JBool true);
               ("item", item_object (fresh_id d) todoText (now d))]
    /\ table (snd (handle distance Date_getTime d (AddTodo todoText) w))
       = Some (t ++ [{| row_id := fresh_id d; row_text := todoText;
                        row_vector := e todoText; row_timestamp := now d |}])%list.
Proof.
  cbv zeta. intros Hr.
  pose proof (run_nanoid_order disk evs boot eq_refl) as Hn.
  unfold nanoid_order in Hn.
  destruct (run' disk evs boot) as [pc w]. cbn [fst snd] in *.
  unfold ready in Hr. destruct w as [[t|] [e|] n cs]; try discriminate Hr.
  cbn [nanoidFn embedder is_set] in Hn.
  assert (n = true) as -> by (destruct pc; auto; discriminate Hn).
  exists t, e. cbn [handle table embedder]. fold (store t e true cs).
  rewrite add_todo_eval. cbv zeta. repeat split.
Qed.

(** ** The page *)

Lemma trim_start_step (s : string) :
  trim_start s = s
  \/ exists w s', s = w ++ s' /\ w <> "" /\ forall x, trim_start (w ++ x) = trim_start x.
Proof.
  destruct s as [|c1 s1]; [now left|].
  destruct (white_space_1 c1) eqn:E1.
  { right. exists (String c1 ""), s1. repeat split; [discriminate|].
    intros x. cbn. now rewrite E1. }
  destruct s1 as [|c2 s2]; [left; cbn; now rewrite E1|].
  destruct (white_space_2 c1 c2) eqn:E2.
  { right. exists (String c1 (String c2 "")), s2. repeat split; [discriminate|].
    intros x. cbn. now rewrite E1, E2. }
  destruct s2 as [|c3 s3]; [left; cbn; now rewrite E1, E2|].
  destruct (white_space_3 c1 c2 c3) eqn:E3.
  { right. exists (String c1 (String c2 (String c3 ""))), s3.
    repeat split; [discriminate|].
    intros x. cbn. now rewrite E1, E2, E3. }
  left. cbn. now rewrite E1, E2, E3.
Qed.

Lemma length_append (a b : string) :
  String.length (a ++ b) = (String.length a + String.length b)%nat.
Proof. induction a as [|c a IH]; cbn; [reflexivity | now rewrite IH]. Qed.

Lemma append_assoc (a b c : string) : ((a ++ b) ++ c = a ++ (b ++ c))%string.
Proof. induction a as [|x a IH]; cbn; [reflexivity | now rewrite IH]. Qed.

(** induction along the white space that [trim_start] strips *)
Lemma trim_start_induction (P : string -> Prop) :
  (forall s, trim_start s = s -> P s) ->
  (forall w s, w <> "" -> (forall x, trim_start (w ++ x) = trim_start x) ->
               P s -> P (w ++ s)) ->
  forall s, P s.
Proof.
  intros Hstop Hstep s.
  assert (H : forall n s, (String.length s <= n)%nat -> P s).
  { induction n as [|n IH]; intros s' Hlen.
    - destruct s'; [|cbn in Hlen; lia]. now apply Hstop.
    - destruct (trim_start_step s') as [Hs|(w & s'' & -> & Hw & Hx)];
        [now apply Hstop|].
      apply Hstep; [exact Hw | exact Hx|]. apply IH.
      rewrite length_append in Hlen. destruct w; [congruence|]. cbn in Hlen. lia. }
  apply (H (String.length s)). lia.
Qed.

Lemma trim_start_length (s : string) :
  (String.length (trim_start s) <= String.length s)%nat.
Proof.
  induction s as [s Hs|w s Hw Hx IH] using trim_start_induction.
  - now rewrite Hs.
  - rewrite Hx, length_append. lia.
Qed.

Lemma trim_start_idem (s : string) : trim_start (trim_start s) = trim_start s.
Proof.
  induction s as [s Hs|w s Hw Hx IH] using trim_start_induction.
  - now rewrite Hs.
  - now rewrite Hx.
Qed.

(** white space in front of a string does not change what is left of it *)
Lemma trim_start_blank_append (p x : string) :
  trim_start p = "" -> trim_start (p ++ x) = trim_start x.
Proof.
  induction p as [p Hp|w p Hw Hx IH] using trim_start_induction; intros Hb.
  - rewrite Hp in Hb. now subst.
  - rewrite Hx in Hb. rewrite append_assoc, Hx. now apply IH.
Qed.

(** a string that [trim_start] leaves alone stays so when cut at the end *)
Lemma trim_start_prefix (p x : string) :
  trim_start (p ++ x) = p ++ x -> trim_start p = p.
Proof.
  intros H.
  destruct (trim_start_step p) as [Hp|(w & p' & -> & Hw & Hx)]; [exact Hp|].
  exfalso. rewrite append_assoc, Hx in H.
  pose proof (trim_start_length (p' ++ x)) as Hlen.
  rewrite H, !length_append in Hlen. destruct w; [congruence|]. cbn in Hlen. lia.
Qed.

Lemma trim_end_split (s : string) :
  exists x, s = trim_end s ++ x /\ trim_start x = "".
Proof.
  induction s as [|c s (x & Hs & Hx)].
  - now exists "".
  - cbn [trim_end]. destruct (trim_start (String c s)) eqn:E.
    + exists (String c s). now split.
    + exists x. split; [|exact Hx]. cbn. now rewrite <- Hs.
Qed.

Lemma trim_end_idem (s : string) : trim_end (trim_end s) = trim_end s.
Proof.
  induction s as [|c s IH]; [reflexivity|]. cbn [trim_end].
  destruct (trim_start (String c s)) as [|d t] eqn:E; [reflexivity|].
  cbn [trim_end]. rewrite IH.
  destruct (trim_start (String c (trim_end s))) eqn:E'; [|reflexivity].
  exfalso. destruct (trim_end_split s) as (x & Hs & Hx).
  pose proof (trim_start_blank_append (String c (trim_end s)) x E') as H.
  cbn [append] in H. rewrite <- Hs, Hx, E in H. discriminate H.
Qed.

Lemma trim_idem (s : string) : trim (trim s) = trim s.
Proof.
  unfold trim.
  assert (H : trim_start (trim_end (trim_start s)) = trim_end (trim_start s)).
  { destruct (trim_end_split (trim_start s)) as (x & Hs & _).
    apply trim_start_prefix with (x := x). rewrite <- Hs. apply trim_start_idem. }
  rewrite H. apply trim_end_idem.
Qed.

Lemma blank_trimmed (s : string) :
  blank (Some (trim s)) = String.eqb (trim s) "".
Proof.
  unfold blank. rewrite trim_idem. destruct (trim s); reflexivity.
Qed.

Lemma set_todoList_same (p : Page) : set_todoList (todoList p) p = p.
Proof. now destruct p. Qed.

Lemma set_searchResultsList_same (p : Page) :
  set_searchResultsList (searchResultsList p) p = p.
Proof. now destruct p. Qed.

Lemma prepend_all (todos : list JsVal) :
  forall p,
    fold_left (fun p todo => addTodoToDOM todo false p) todos p
    = set_todoList
        (rev (map (fun todo => TodoItem (new_li todo false)) todos) ++ todoList p)%list
        p.
Proof.
  induction todos as [|todo todos IH]; intros p.
  - cbn. symmetry. apply set_todoList_same.
  - cbn [fold_left map rev]. rewrite IH. unfold addTodoToDOM.
    cbn [set_todoList todoList]. now rewrite <- app_assoc.
Qed.

Lemma append_all (todo_of : JsVal -> JsVal) (results : list JsVal) :
  forall p,
    fold_left (fun p result => addTodoToDOM (todo_of result) true p) results p
    = set_searchResultsList
        (searchResultsList p
           ++ map (fun result => TodoItem (new_li (todo_of result) true)) results)%list
        p.
Proof.
  induction results as [|r results IH]; intros p.
  - cbn. rewrite app_nil_r. symmetry. apply set_searchResultsList_same.
  - cbn [fold_left map]. rewrite IH. unfold addTodoToDOM.
    cbn [set_searchResultsList searchResultsList]. now rewrite <- app_assoc.
Qed.

Lemma strongly_sorted_map_in {A B : Type} (R : A -> A -> Prop) (R' : B -> B -> Prop)
      (f : A -> B) (l : list A) :
  (forall a b, In a l -> In b l -> R a b -> R' (f a) (f b)) ->
  StronglySorted R l -> StronglySorted R' (map f l).
Proof.
  intros HR Hs. induction Hs as [|a l Hs IH Ha]; cbn [map]; constructor.
  - apply IH. intros x y Hx Hy. apply HR; now right.
  - rewrite Forall_forall in *. intros y Hy.
    apply in_map_iff in Hy as (x & <- & Hx).
    apply HR; [now left | now right | now apply Ha].
Qed.

Lemma strongly_sorted_rev {A : Type} (R : A -> A -> Prop) (l : list A) :
  StronglySorted R l -> StronglySorted (fun a b => R b a) (rev l).
Proof.
  induction 1 as [|a l Hs IH Ha]; cbn [rev]; [constructor|].
  assert (Hsnoc : forall l', StronglySorted (fun a b => R b a) l' ->
                             Forall (fun x => R a x) l' ->
                             StronglySorted (fun a b => R b a) (l' ++ [a])).
  { induction 1 as [|b l' Hs' IH' Hb]; intros Hall; cbn [app].
    - constructor; constructor.
    - inversion Hall; subst. constructor; [now apply IH'|].
      apply Forall_app. split; [exact Hb | now constructor]. }
  apply Hsnoc; [exact IH|].
  rewrite Forall_forall in *. intros x Hx. apply Ha. now apply in_rev.
Qed.

Lemma fetchTodos_listing (t : Table) (e : option Embedder) (n : bool)
      (cs : list Call) (p : Page) :
  let w := {| table := Some t; embedder := e; nanoidFn := n; calls := cs |} in
  todoInput_disabled p = false ->
  todoList (fetchTodos (fst (get_todos distance w)) p)
  = rev (map (fun todo => TodoItem (new_li todo false)) (listing w)).
Proof.
  cbv zeta. intros Hp. rewrite listing_store, get_todos_eval. cbn [fst].
  unfold fetchTodos. rewrite Hp.
  change (js_get "success" (JObj [("success", JBool true);
                                  ("todos", JArr ?x)])) with (JBool true).
  cbn [js_truthy].
  match goal with
  | |- context [js_get "todos" (JObj [("success", JBool true); ("todos", ?x)])] =>
      change (js_get "todos" (JObj [("success", JBool true); ("todos", x)])) with x
  end.
  destruct (js_sort _ _) as [|todo todos]; [reflexivity|].
  rewrite prepend_all. cbn [set_status set_todoList todoList]. apply app_nil_r.
Qed.

(** X17.  On an initialised store, [fetchTodos] fills the list of the page
    with the todos of [list()] in reverse: [forEach] walks the reply,
    newest first, and [addTodoToDOM] puts each item on top of the ones
    before it, so the page shows the oldest todo on top. *)
Theorem fetch_shows_oldest_first
        (t : Table) (e : Embedder) (n : bool) (cs : list Call) (p : Page) :
  todoInput_disabled p = false ->
  let shown := todoList (fetchTodos (fst (get_todos distance (store t e n cs))) p) in
  shown = rev (map (fun todo => TodoItem (new_li todo false))
                   (listing (store t e n cs)))
  /\ StronglySorted (fun a b => shown_time a <= shown_time b) shown.
Proof.
  intros Hp. cbv zeta. unfold store. rewrite fetchTodos_listing by assumption.
  split; [reflexivity|].
  apply (strongly_sorted_rev (fun a b => shown_time b <= shown_time a)).
  rewrite listing_store.
  eapply strongly_sorted_map_in; [|apply (listing_sorted (firstn 500 t))].
  intros a b Ha Hb Hab. cbv beta in Hab.
  unfold js_sort in Ha, Hb.
  eapply Permutation_in in Ha; [|apply stable_sort_perm].
  eapply Permutation_in in Hb; [|apply stable_sort_perm].
  apply in_map_iff in Ha as (ra & <- & _). apply in_map_iff in Hb as (rb & <- & _).
  cbn in Hab |- *. lia.
Qed.

(** X18.  On an initialised store with fewer than 500 rows, all older
    than the new one: after [add] the page shows the new todo on top of the
    list, and after the next [fetchTodos] it shows it at the bottom. *)
Theorem added_todo_on_top_then_at_bottom
        (t : Table) (e : Embedder) (cs : list Call)
        (fresh : string) (now : Z) (todoText : string) (p : Page) :
  todoInput_disabled p = false ->
  (length t < 500)%nat ->
  (forall r, In r t -> row_timestamp r < now) ->
  let added := add_todo fresh now todoText (store t e true cs) in
  let li := TodoItem (new_li (item_object fresh todoText now) false) in
  let p1 := on_add_reply (fst added) p in
  let p2 := fetchTodos (fst (get_todos distance (snd added))) p1 in
  hd_error (todoList p1) = Some li
  /\ hd_error (rev (todoList p2)) = Some li.
Proof.
  intros Hp Hlen Hnew. cbv zeta. rewrite add_todo_eval. cbv zeta. cbn [fst snd].
  split; [reflexivity|].
  unfold store. rewrite fetchTodos_listing by exact Hp.
  rewrite rev_involutive.
  match goal with
  | |- context [listing {| table := _; embedder := _; nanoidFn := _; calls := ?c |}] =>
      pose proof (newest_is_listed_first t (Some e) true c
                    {| row_id := fresh; row_text := todoText;
                       row_vector := e todoText; row_timestamp := now |}) as H
  end.
  unfold store in H.
  destruct (listing _) as [|x l].
  - discriminate H; [rewrite length_app; cbn; lia | exact Hnew].
  - cbn [map hd_error]. injection H as ->; [reflexivity | | exact Hnew].
    rewrite length_app. cbn. lia.
Qed.

Lemma result_li_of_row (v : Vector) (r : Row) :
  new_li (JObj [("id", js_get "id" (result_of_row v r));
                ("text", js_get "text" (result_of_row v r));
                ("timestamp", js_get "timestamp" (result_of_row v r));
                ("updatedTimestamp", js_get "updatedTimestamp" (result_of_row v r));
                ("score", js_get "score" (result_of_row v r))]) true
  = result_li (row_id r) (row_text r) (row_timestamp r) (distance v (row_vector r)).
Proof. reflexivity. Qed.

Lemma on_search_reply_rows (v : Vector) (rows : list Row) (p : Page) :
  searchResultsList
    (on_search_reply (JObj [("success", JBool true);
                            ("results", JArr (map (result_of_row v) rows))]) p)
  = match rows with
    | [] => if String.eqb (trim (searchInput_value p)) "" then []
            else [TextItem "No semantic matches found."]
    | _ => map (fun r => TodoItem (result_li (row_id r) (row_text r) (row_timestamp r)
                                             (distance v (row_vector r)))) rows
    end.
Proof.
  unfold on_search_reply.
  change (js_get "success" (JObj [("success", JBool true);
                                  ("results", JArr ?x)])) with (JBool true).
  cbn [js_truthy].
  change (js_get "results"
            (JObj [("success", JBool true);
                   ("results", JArr (map (result_of_row v) rows))]))
    with (JArr (map (result_of_row v) rows)).
  destruct rows as [|r rows].
  - cbn [map renderSearchResults set_searchResultsList searchInput_value].
    destruct (String.eqb (trim (searchInput_value p)) ""); reflexivity.
  - unfold renderSearchResults. cbn [map]. cbv zeta.
    rewrite <- map_cons. rewrite append_all.
    cbn [set_searchResultsList searchResultsList app].
    rewrite map_map.
    refine (map_ext _ (fun r0 => TodoItem (result_li (row_id r0) (row_text r0)
                                                     (row_timestamp r0)
                                                     (distance v (row_vector r0))))
                    _ (r :: rows)).
    intros r'. now rewrite result_li_of_row.
Qed.

(** X19.  On an initialised store, for a query that is not blank, the
    page shows the rows of the reply of [search] in the order of the
    reply, each labelled Added, with its distance turned into the score
    text and the buttons enabled; when the reply holds no row, it shows
    the note that nothing matched (or nothing at all when the search box
    has been blanked since).  The main list is not touched. *)
Theorem search_results_shown_in_reply_order
        (t : Table) (e : Embedder) (n : bool) (cs : list Call)
        (q : string) (startDate endDate : option string) (p : Page) :
  blank (Some q) = false ->
  let reply :=
    fst (search_todos distance Date_getTime (Some q) startDate endDate
                      (store t e n cs)) in
  exists rows,
    reply = JObj [("success", JBool true);
                  ("results", JArr (map (result_of_row (e q)) rows))]
    /\ searchResultsList (on_search_reply reply p)
       = match rows with
         | [] => if String.eqb (trim (searchInput_value p)) "" then []
                 else [TextItem "No semantic matches found."]
         | _ => map (fun r => TodoItem (result_li (row_id r) (row_text r)
                                                  (row_timestamp r)
                                                  (distance (e q) (row_vector r))))
                    rows
         end
    /\ todoList (on_search_reply reply p) = todoList p.
Proof.
  intros Hq. cbv zeta. rewrite search_todos_eval by assumption. cbn [fst].
  exists (nearest (e q) (date_bounds startDate endDate) t).
  split; [reflexivity|].
  split; [apply on_search_reply_rows|].
  unfold on_search_reply.
  change (js_get "success" (JObj [("success", JBool true);
                                  ("results", JArr ?x)])) with (JBool true).
  cbn [js_truthy].
  match goal with
  | |- context [js_get "results" (JObj [("success", JBool true); ("results", ?x)])] =>
      change (js_get "results" (JObj [("success", JBool true); ("results", x)])) with x
  end.
  destruct (nearest _ _ _) as [|r rows].
  - cbn [map renderSearchResults set_searchResultsList searchInput_value].
    destruct (negb _); reflexivity.
  - unfold renderSearchResults. cbn [map]. cbv zeta.
    rewrite <- map_cons, append_all. reflexivity.
Qed.

Lemma nearest_nil (v : Vector) (cs : list Comparison) (t : Table) :
  nearest v cs t = [] <-> Forall (fun r => matches cs r = false) t.
Proof.
  unfold nearest. split.
  - intros H. apply Forall_forall. intros r Hr.
    destruct (matches cs r) eqn:Em; [exfalso|reflexivity].
    assert (Hin : In r (List.filter (matches cs) t)) by (apply filter_In; auto).
    pose proof (stable_sort_length (closer distance v) (List.filter (matches cs) t))
      as Hlen.
    destruct (stable_sort (closer distance v) (List.filter (matches cs) t));
      [|discriminate H].
    destruct (List.filter (matches cs) t); [exact Hin | discriminate Hlen].
  - intros H. replace (List.filter (matches cs) t) with (@nil Row); [reflexivity|].
    symmetry. induction H as [|r t Hr _ IH]; [reflexivity|].
    cbn [List.filter]. now rewrite Hr.
Qed.

(** X20.  On an initialised store, when the search button sends the
    trimmed content of the search box, the page answers with the note that
    nothing matched exactly when the box is not blank and no stored row
    lies within the date bounds. *)
Theorem no_match_note_iff
        (t : Table) (e : Embedder) (n : bool) (cs : list Call)
        (startDate endDate : option string) (p : Page) :
  let q := trim (searchInput_value p) in
  let reply :=
    fst (search_todos distance Date_getTime (Some q) startDate endDate
                      (store t e n cs)) in
  searchResultsList (on_search_reply reply p)
  = [TextItem "No semantic matches found."]
  <-> q <> ""
      /\ Forall (fun r => within (start_ms startDate) (end_ms endDate) r = false) t.
Proof.
  cbv zeta.
  assert (Hw : Forall (fun r => within (start_ms startDate) (end_ms endDate) r = false) t
               <-> nearest (e (trim (searchInput_value p)))
                           (date_bounds startDate endDate) t = []).
  { rewrite nearest_nil. rewrite !Forall_forall.
    split; intros H r Hr; specialize (H r Hr); now rewrite date_bounds_within in *. }
  destruct (String.eqb (trim (searchInput_value p)) "") eqn:Eq.
  - rewrite search_todos_blank by (now rewrite blank_trimmed).
    cbn [fst].
    change (@JArr []) with (JArr (map (result_of_row (e "")) (@nil Row))).
    rewrite on_search_reply_rows, Eq. apply String.eqb_eq in Eq.
    split; [discriminate | intros [H _]; congruence].
  - rewrite search_todos_eval by (now rewrite blank_trimmed). cbn [fst].
    rewrite on_search_reply_rows, Eq, Hw. apply String.eqb_neq in Eq.
    destruct (nearest _ _ _) as [|r rows].
    + split; auto.
    + cbn [map]. split; [discriminate | intros [_ H]; discriminate H].
Qed.

(** X21.  The score text of a search result at distance [score] is the
    similarity [(1 - score / 2) * 100] (before rounding) when the distance
    lies between 0 and 2, both included, and the distance itself
    otherwise.  The similarity lies between 0 and 100, and of two
    distances between 0 and 2 the smaller gets the larger similarity. *)
Theorem similarity_of_score (score1 score2 : Q) :
  (0 <= score1)%Q -> (score1 <= score2)%Q -> (score2 <= 2)%Q ->
  score_text score1 = Similarity ((1 - score1 / 2) * 100)
  /\ score_text score2 = Similarity ((1 - score2 / 2) * 100)
  /\ (0 <= (1 - score2 / 2) * 100)%Q
  /\ ((1 - score2 / 2) * 100 <= (1 - score1 / 2) * 100)%Q
  /\ ((1 - score1 / 2) * 100 <= 100)%Q
  /\ (forall score, (score < 0)%Q \/ (2 < score)%Q ->
                    score_text score = RawScore score).
Proof.
  intros H0 H12 H2.
  unfold score_text.
  assert (H1 : (score1 <= 2)%Q) by (eapply Qle_trans; eassumption).
  assert (H3 : (0 <= score2)%Q) by (eapply Qle_trans; eassumption).
  rewrite (proj2 (Qle_bool_iff 0 score1) H0), (proj2 (Qle_bool_iff score1 2) H1),
    (proj2 (Qle_bool_iff 0 score2) H3), (proj2 (Qle_bool_iff score2 2) H2).
  cbn [andb].
  assert (E : forall s, ((1 - s / 2) * 100 == 100 - 50 * s)%Q) by (intros; field).
  do 2 (split; [reflexivity|]).
  split; [rewrite !E; lra|]. split; [rewrite !E; lra|]. split; [rewrite !E; lra|].
  intros score [Hlow|Hhigh].
  - destruct (Qle_bool 0 score) eqn:E0; [|reflexivity].
    apply Qle_bool_iff in E0. exfalso. lra.
  - destruct (Qle_bool score 2) eqn:E2; [|now rewrite andb_false_r].
    apply Qle_bool_iff in E2. exfalso. lra.
Qed.

(** X22.  On a page where no edit is under way (the id field is empty,
    the Add button is shown, Update and Cancel are hidden, no original is
    remembered), nothing is disabled and the status does not start with
    Error, a click on the Edit button of a list item followed by a click
    on Cancel leaves the page as it was, except that the text input is
    emptied, whatever it held. *)
Theorem cancel_undoes_edit (p : Page) (li : Li) :
  idle p ->
  String.prefix "Error" (status p) = false ->
  exitEditMode (click_edit li p) = set_todoInput_value "" p.
Proof.
  intros (H2 & H3 & H4 & H5 & H6 & H7 & H8 & H9 & H10 & H11 & H12) Hs.
  assert (Hmap : forall l, Forall (fun i => set_buttons false i = i) l ->
                           map (set_buttons false) (map (set_buttons true) l) = l).
  { induction 1 as [|i l Hi _ IH]; [reflexivity|]. cbn [map]. rewrite IH. f_equal.
    destruct i as [li'|]; [|reflexivity]. cbn in Hi |- *. exact Hi. }
  assert (Hsame : forall l, Forall (fun i => set_buttons false i = i) l ->
                            map (set_buttons false) l = l).
  { induction 1 as [|i l Hi _ IH]; [reflexivity|]. cbn [map]. now rewrite IH, Hi. }
  destruct p. cbn in *. subst.
  unfold click_edit, enterEditMode, exitEditMode, set_todoInput_value.
  destruct (li_disabled li); cbn; rewrite Hs; cbn;
    rewrite ?Hmap, ?Hsame by assumption; reflexivity.
Qed.

(** X23.  When [fetchTodos] gets a failure for a reply, the status starts
    with Error, and from then on leaving the edit mode re-enables
    nothing: after one click on the enabled Edit button of a list item and
    one on Cancel, the search box, the search button, the date inputs, the
    tabs and the buttons of all list items are disabled, while the input
    for new todos still works. *)
Theorem failed_fetch_then_edit_locks_page (p : Page) (reply : JsVal) (li : Li) :
  todoInput_disabled p = false ->
  editingTodoIdInput_value p = "" ->
  js_truthy (js_get "success" reply) = false ->
  In (TodoItem li) (todoList p ++ searchResultsList p)%list ->
  li_disabled li = false ->
  let p' := exitEditMode (click_edit li (fetchTodos reply p)) in
  searchInput_disabled p' = true
  /\ searchTodoBtn_disabled p' = true
  /\ dates_disabled p' = true
  /\ tabs_enabled p' = false
  /\ Forall (fun i => buttons_disabled i = true) (todoList p')
  /\ Forall (fun i => buttons_disabled i = true) (searchResultsList p')
  /\ todoInput_disabled p' = false
  /\ editingTodoIdInput_value p' = "".
Proof.
  intros Hp He Hr _ Hli. cbv zeta.
  assert (Hall : forall l, Forall (fun i => buttons_disabled i = true)
                                  (map (set_buttons true) l)).
  { intros l. apply Forall_forall. intros i Hi.
    apply in_map_iff in Hi as ([li'|] & <- & _); reflexivity. }
  unfold fetchTodos. rewrite Hp, Hr.
  unfold click_edit. rewrite Hli. unfold enterEditMode.
  cbn [set_status editingTodoIdInput_value]. rewrite He. cbn [String.eqb negb].
  unfold exitEditMode. cbn. repeat split; try apply Hall. exact Hp.
Qed.

(** X24.  The texts that the add and update buttons send are trimmed and
    not empty, and the query that the search button sends is trimmed. *)
Theorem renderer_sends_trimmed_texts (c : Click) (req : Request) :
  request_of Date_getTime c = Some req ->
  match req with
  | AddTodo text | UpdateTodo _ text => trim text = text /\ text <> ""
  | SearchTodos query _ _ => exists q, query = Some q /\ trim q = q
  | _ => True
  end.
Proof.
  destruct c; cbn [request_of].
  - destruct (truthy (trim todoInput)) eqn:E; [|discriminate].
    intros [= <-]. split; [apply trim_idem | now apply truthy_nonempty].
  - destruct (truthy editingTodoId); [|discriminate].
    destruct (truthy (trim todoInput)) eqn:E; [|discriminate].
    cbn [negb orb].
    destruct originalText as [t|];
      [destruct (String.eqb (trim todoInput) t); [discriminate|]|];
      intros [= <-]; (split; [apply trim_idem | now apply truthy_nonempty]).
  - destruct (String.eqb editingTodoId todoId); [discriminate|].
    destruct confirmed; [|discriminate]. now intros [= <-].
  - destruct (truthy startDate && truthy endDate && date_before _ endDate startDate);
      [discriminate|].
    intros [= <-]. eexists. split; [reflexivity | apply trim_idem].
  - destruct (negb (String.eqb editingTodoId "")); [discriminate|].
    destruct confirmed; [|discriminate]. now intros [= <-].
  - now intros [= <-].
Qed.

(** X25.  The dates that the search button sends are absent or not empty,
    and when both are sent and both parse, the end date is not before the
    start date. *)
Theorem renderer_sends_ordered_dates
        (searchInput startDate endDate : string)
        (query startSent endSent : option string) :
  request_of Date_getTime (ClickSearch searchInput startDate endDate)
  = Some (SearchTodos query startSent endSent) ->
  startSent <> Some ""
  /\ endSent <> Some ""
  /\ forall s e a b,
       startSent = Some s -> endSent = Some e ->
       Date_getTime s = Some a -> Date_getTime e = Some b -> a <= b.
Proof.
  cbn [request_of].
  destruct (truthy startDate && truthy endDate && date_before _ endDate startDate)
    eqn:E; [discriminate|].
  intros [= _ <- <-]. unfold or_null.
  repeat split.
  - destruct startDate; [discriminate|]. cbn. congruence.
  - destruct endDate; [discriminate|]. cbn. congruence.
  - intros s e a b Hs He Ha Hb.
    destruct (truthy startDate); [|discriminate Hs].
    destruct (truthy endDate); [|discriminate He].
    injection Hs as ->. injection He as ->.
    cbn [andb] in E. unfold date_before in E. rewrite Ha, Hb in E.
    apply Z.ltb_ge in E. exact E.
Qed.

End Properties.

(** * The claims at concrete inputs *)

Import Example.

(** C2 at a query of white space beyond ASCII. *)
Lemma search_blank_query_witness :
  blank (Some unicode_blank) = true
  /\ blank (Some "   ") = true
  /\ search_todos l2 getTime (Some unicode_blank) (Some "2024-01-02") None
                  (live new_year)
     = (JObj [("success", JBool true); ("results", JArr [])], live new_year).
Proof.
  split; [reflexivity|]. split; [reflexivity|].
  apply (search_blank_query_short_circuit l2 getTime new_year embed true []).
  reflexivity.
Defined.

(** C1 (amended) at the row [a1] of a three-row table. *)
Lemma update_todo_witness :
  no_dquote "a1" = true
  /\ fst (update_todo 1704300000000 "a1" "buy oat milk" (live new_year))
     = JObj [("success", JBool true);
             ("item", item_object "a1" "buy oat milk" 1704300000000)]
  /\ In (item_object "a1" "buy oat milk" 1704300000000)
        (listing l2 (snd (update_todo 1704300000000 "a1" "buy oat milk"
                            (live new_year)))).
Proof.
  split; [reflexivity|].
  pose proof (update_todo_replaces_row l2 new_year embed true [] 1704300000000
                "a1" "buy oat milk" eq_refl) as H.
  cbv zeta in H. destruct H as (H1 & _ & _ & _ & _ & H6).
  split; [exact H1|]. apply H6. vm_compute. lia.
Defined.

(** X26 at the row [b2]. *)
Lemma delete_todo_witness :
  no_dquote "b2" = true
  /\ fst (delete_todo "b2" (live new_year))
     = JObj [("success", JBool true); ("id", JStr "b2")]
  /\ fst (delete_todo "b2" (snd (delete_todo "b2" (live new_year))))
     = JObj [("success", JBool true); ("id", JStr "b2")].
Proof.
  split; [reflexivity|].
  pose proof (delete_todo_removes_and_repeats l2 new_year embed true [] "b2" eq_refl)
    as H.
  cbv zeta in H. destruct H as (H1 & _ & _ & _ & H5 & _).
  split; [exact H1 | exact (eq_trans H5 H1)].
Defined.

(** X27 at an id that is not in the table. *)
Lemma update_absent_id_witness :
  no_dquote "zz" = true
  /\ (forall r, In r new_year -> row_id r <> "zz")
  /\ fst (update_todo 1704300000000 "zz" "water the plants" (live new_year))
     = JObj [("success", JBool true);
             ("item", item_object "zz" "water the plants" 1704300000000)]
  /\ table (snd (update_todo 1704300000000 "zz" "water the plants" (live new_year)))
     = Some (new_year ++ [row "zz" "water the plants" 1704300000000])%list.
Proof.
  assert (Habs : forall r, In r new_year -> row_id r <> "zz").
  { intros r [<-|[<-|[<-|[]]]]; discriminate. }
  split; [reflexivity|]. split; [exact Habs|].
  pose proof (update_todo_creates_absent_id new_year embed true [] 1704300000000
                "zz" "water the plants" eq_refl Habs) as H.
  cbv zeta in H. destruct H as [H _]. unfold live. rewrite H.
  split; reflexivity.
Defined.

(** C6 on 2 January 2024: of three rows one millisecond before the day, at
    its last millisecond and one millisecond after it, the second is
    returned. *)
Lemma search_date_bounds_witness :
  blank (Some "bread") = false
  /\ fst (search_todos l2 getTime (Some "bread") (Some "2024-01-02")
             (Some "2024-01-02") (live new_year))
     = JObj [("success", JBool true);
             ("results",
              JArr [result_of_row l2 (embed "bread")
                      (row "b2" "buy bread" 1704239999999)])].
Proof.
  split; [reflexivity|].
  pose proof (search_todos_date_bounds l2 getTime new_year embed true [] "bread"
                (Some "2024-01-02") (Some "2024-01-02") eq_refl) as H.
  cbv zeta in H. destruct H as (_ & _ & H).
  apply (H "2024-01-02" 19724 (row "a1" "buy milk" 1704153599999)
           (row "b2" "buy bread" 1704239999999)
           (row "c3" "call the bank" 1704240000000));
    try reflexivity; vm_compute; discriminate.
Defined.

(** C7 at an unfiltered search over three rows, at the distances 0, 2 and
    26 from the query: all three are returned, closest first. *)
Lemma search_nearest_first_witness :
  blank (Some "buy milk") = false
  /\ (exists ranked rows,
        fst (search_todos l2 getTime (Some "buy milk") None None (live new_year))
        = JObj [("success", JBool true);
                ("results", JArr (map (result_of_row l2 (embed "buy milk")) rows))]
        /\ Permutation ranked new_year
        /\ rows = firstn 10 ranked
        /\ length rows = 3%nat
        /\ StronglySorted
             (fun a b => (l2 (embed "buy milk") (row_vector a)
                          <= l2 (embed "buy milk") (row_vector b))%Q) rows)
  /\ fst (search_todos l2 getTime (Some "buy milk") None None (live new_year))
     = JObj [("success", JBool true);
             ("results",
              JArr [JObj [("id", JStr "a1"); ("text", JStr "buy milk");
                          ("timestamp", JNum 1704153599999); ("score", JFloat 0)];
                    JObj [("id", JStr "b2"); ("text", JStr "buy bread");
                          ("timestamp", JNum 1704239999999); ("score", JFloat 2)];
                    JObj [("id", JStr "c3"); ("text", JStr "call the bank");
                          ("timestamp", JNum 1704240000000);
                          ("score", JFloat 26)]])].
Proof.
  split; [reflexivity|]. split; [|vm_compute; reflexivity].
  destruct (search_todos_nearest_first l2 getTime new_year embed true []
              "buy milk" None None eq_refl)
    as (ranked & rows & H1 & H2 & _ & H4 & H5 & _ & _ & H8 & _).
  exists ranked, rows. auto.
Defined.

(** C8 (amended) at start-up: nothing is assigned yet, and [list()] is
    refused. *)
Lemma initialization_gate_witness :
  handle l2 getTime draws GetTodos (snd (run l2 getTime zeros None [] boot))
  = (not_ready_reply GetTodos, snd (run l2 getTime zeros None [] boot)).
Proof.
  apply (proj1 (initialization_gate l2 getTime zeros) None [] draws GetTodos);
    reflexivity.
Defined.

(** C8 as stated fails on a first start.  Once the table has been created
    with its seed row, [initializeApp] awaits the deletion of that row:
    initialisation has not completed and no notification has been sent,
    yet [list()] succeeds and returns the seed row, and [add] succeeds.
    When that deletion then rejects, initialisation ends in failure, and
    the operations are served all the same. *)
Lemma initialization_gate_counterexample :
  let created := run l2 getTime zeros None
                     [Settle Imported; Settle (PipelineLoaded embed);
                      Settle (TableReady 1704000000000)] boot in
  let failed := step l2 getTime zeros None (Settle Rejected) created in
  fst created = PcDummy
  /\ fst (handle l2 getTime draws GetTodos (snd created))
     = JObj [("success", JBool true);
             ("todos", JArr [item_object "dummy_id_init" "dummy_text_init"
                                         1704000000000])]
  /\ fst (handle l2 getTime draws (AddTodo "buy milk") (snd created))
     = JObj [("success", JBool true);
             ("item", item_object "n4n0" "buy milk" 1704200000000)]
  /\ ~ not_ready_error (fst (handle l2 getTime draws GetTodos (snd created)))
  /\ fst failed = PcFailed
  /\ fst (handle l2 getTime draws GetTodos (snd failed))
     = JObj [("success", JBool true);
             ("todos", JArr [item_object "dummy_id_init" "dummy_text_init"
                                         1704000000000])].
Proof.
  cbv zeta. split; [reflexivity|]. split; [vm_compute; reflexivity|].
  split; [vm_compute; reflexivity|]. split; [|split; vm_compute; reflexivity].
  vm_compute. intros [H|H]; discriminate H.
Qed.

(** C9 on a first run: the table is created, then the user adds a todo
    and edits it. *)
Lemma stored_texts_witness :
  let evs :=
    [Settle Imported; Settle (PipelineLoaded embed); Settle (TableReady 1704000000000);
     Settle Imported;
     Invoke draws (AddTodo "buy milk");
     Invoke draws (UpdateTodo "n4n0" "buy oat milk")] in
  on_disk l2 getTime zeros None
  /\ Forall (from_renderer getTime) evs
  /\ table (snd (run l2 getTime zeros None evs boot))
     = Some [row "n4n0" "buy oat milk" 1704200000000]
  /\ Forall (fun r => row_text r <> "") [row "n4n0" "buy oat milk" 1704200000000].
Proof.
  intros evs.
  assert (Hevs : Forall (from_renderer getTime) evs).
  { repeat constructor.
    - exists (ClickAdd "  buy milk "). reflexivity.
    - exists (ClickUpdate "n4n0" "buy oat milk" (Some "buy milk")). reflexivity. }
  assert (Hrun : table (snd (run l2 getTime zeros None evs boot))
                 = Some [row "n4n0" "buy oat milk" 1704200000000])
    by reflexivity.
  split; [apply disk_fresh|]. split; [exact Hevs|]. split; [exact Hrun|].
  exact (stored_texts_never_empty l2 getTime zeros None evs _
           (disk_fresh l2 getTime zeros) Hevs Hrun).
Defined.

(** C10 at two strings that are not dates. *)
Lemma search_unparseable_dates_witness :
  blank (Some "bread") = false
  /\ getTime ("tomorrow" ++ "T00:00:00.000Z") = None
  /\ getTime ("2024-13-01" ++ "T23:59:59.999Z") = None
  /\ search_todos l2 getTime (Some "bread") (Some "tomorrow") (Some "2024-01-02")
       (live new_year)
     = search_todos l2 getTime (Some "bread") None (Some "2024-01-02") (live new_year)
  /\ js_get "success"
       (fst (search_todos l2 getTime (Some "bread") (Some "tomorrow")
               (Some "2024-13-01") (live new_year)))
     = JBool true.
Proof.
  do 3 (split; [reflexivity|]).
  pose proof (search_todos_ignores_unparseable_dates l2 getTime new_year embed true []
                "bread" "tomorrow" "2024-13-01" (Some "2024-01-02")
                eq_refl eq_refl eq_refl) as H.
  cbv zeta beta in H. destruct H as (H1 & _ & _ & _ & _ & H6).
  split; [exact H1 | exact H6].
Defined.

(** C1 as stated fails twice.  With 501 rows stored, updating the first one
    succeeds, and [list()], cut at 500 rows in storage order, no longer shows
    any item with its id.  And take an id that holds double quotes
    ([quoted_id]): a first update creates a row under it, as C5 says; the
    filter of a second update reads as two comparisons of [id], with [x]
    and with [y], which no row satisfies, so the update succeeds, the old
    row stays, and [list()] still shows the old text under that id. *)
Lemma update_todo_counterexample :
  (In "t0" (map row_id many)
   /\ js_get "success" (fst (update_todo 1000 "t0" "new" (live many))) = JBool true
   /\ shows_id "t0" (listing l2 (snd (update_todo 1000 "t0" "new" (live many))))
      = false)
  /\ (let before := snd (update_todo 1 quoted_id "old" (live [])) in
      table before = Some [row quoted_id "old" 1]
      /\ js_get "success" (fst (update_todo 5 quoted_id "new" before)) = JBool true
      /\ In (item_object quoted_id "old" 1)
            (listing l2 (snd (update_todo 5 quoted_id "new" before)))).
Proof.
  split; split.
  - left. reflexivity.
  - split; vm_compute; reflexivity.
  - vm_compute. reflexivity.
  - split; [vm_compute; reflexivity|].
    vm_compute. right. left. reflexivity.
Qed.

(** C4.  [delete-todo] pastes the id between double quotes into the
    filter and escapes nothing.  Take an id that holds double quotes
    ([quoted_id]), under which an update has created a row: the filter
    reads as two comparisons of [id], with [x] and with [y], which no row
    satisfies, so the table deletes nothing, the reply is a success all
    the same, and [list()] still shows the row.  For the id made of one
    double quote the filter ends in an unterminated string literal and is
    not a condition: the table throws and the reply is a failure. *)
Lemma delete_todo_with_quoted_id :
  js_get "success" (fst (delete_todo (String dquote "") (live new_year)))
  = JBool false
  /\ (let before := snd (update_todo 1 quoted_id "old" (live [])) in
      table before = Some [row quoted_id "old" 1]
      /\ fst (delete_todo quoted_id before)
         = JObj [("success", JBool true); ("id", JStr quoted_id)]
      /\ shows_id quoted_id (listing l2 (snd (delete_todo quoted_id before)))
         = true).
Proof. repeat split; vm_compute; reflexivity. Qed.

(** C5.  [update-todo] builds its delete filter as [delete-todo] does.
    For the id made of one double quote, under which no row is stored, and
    a text that is not empty, the filter is not a condition: the delete
    phase throws, the update is rejected, and nothing is appended. *)
Lemma update_todo_with_quote_id :
  (forall r, In r new_year -> row_id r <> String dquote "")
  /\ "water the plants" <> ""
  /\ js_get "success"
       (fst (update_todo 5 (String dquote "") "water the plants" (live new_year)))
     = JBool false
  /\ table (snd (update_todo 5 (String dquote "") "water the plants" (live new_year)))
     = Some new_year.
Proof.
  repeat split; try (vm_compute; reflexivity); try discriminate.
  intros r [<-|[<-|[<-|[]]]]; discriminate.
Qed.

(** * The further properties at concrete inputs *)

(** X2 at the three-row table. *)
Lemma added_todo_is_listed_first_witness :
  (length new_year < 500)%nat
  /\ (forall r, In r new_year -> row_timestamp r < 1704300000000)
  /\ hd_error (listing l2 (snd (add_todo "d4" 1704300000000 "dust the shelves"
                                          (live new_year))))
     = Some (item_object "d4" "dust the shelves" 1704300000000).
Proof.
  assert (Hlen : (length new_year < 500)%nat) by (vm_compute; lia).
  assert (Hold : forall r, In r new_year -> row_timestamp r < 1704300000000).
  { intros r [<-|[<-|[<-|[]]]]; reflexivity. }
  split; [exact Hlen|]. split; [exact Hold|].
  exact (added_todo_is_listed_first l2 new_year embed [] "d4" 1704300000000
           "dust the shelves" Hlen Hold).
Defined.

(** X3 at the oldest row of the three-row table. *)
Lemma updated_todo_is_listed_first_witness :
  no_dquote "a1" = true
  /\ (length new_year <= 499)%nat
  /\ (forall r, In r new_year -> row_timestamp r < 1704300000000)
  /\ hd_error (listing l2 (snd (update_todo 1704300000000 "a1" "buy oat milk"
                                             (live new_year))))
     = Some (item_object "a1" "buy oat milk" 1704300000000).
Proof.
  assert (Hlen : (length new_year <= 499)%nat) by (vm_compute; lia).
  assert (Hold : forall r, In r new_year -> row_timestamp r < 1704300000000).
  { intros r [<-|[<-|[<-|[]]]]; reflexivity. }
  split; [reflexivity|]. split; [exact Hlen|]. split; [exact Hold|].
  exact (updated_todo_is_listed_first l2 new_year embed true [] 1704300000000
           "a1" "buy oat milk" eq_refl Hlen Hold).
Defined.

(** X4 at an id that is not in the table. *)
Lemma add_then_delete_witness :
  no_dquote "d4" = true
  /\ (forall r, In r new_year -> row_id r <> "d4")
  /\ table (snd (delete_todo "d4"
                   (snd (add_todo "d4" 1704300000000 "dust the shelves"
                                  (live new_year)))))
     = Some new_year.
Proof.
  assert (Habs : forall r, In r new_year -> row_id r <> "d4").
  { intros r [<-|[<-|[<-|[]]]]; discriminate. }
  split; [reflexivity|]. split; [exact Habs|].
  exact (proj2 (proj2 (add_then_delete_restores new_year embed [] "d4"
                         1704300000000 "dust the shelves" eq_refl Habs))).
Defined.

(** X5 at the row [a1]. *)
Lemma update_twice_witness :
  no_dquote "a1" = true
  /\ table (snd (update_todo 1704400000000 "a1" "buy soy milk"
                   (snd (update_todo 1704300000000 "a1" "buy oat milk"
                                     (live new_year)))))
     = table (snd (update_todo 1704400000000 "a1" "buy soy milk" (live new_year))).
Proof.
  split; [reflexivity|].
  exact (update_twice_keeps_last new_year embed true [] 1704300000000 1704400000000
           "a1" "buy oat milk" "buy soy milk" eq_refl).
Defined.

(** X6 at an update of [a1], seen from [b2]. *)
Lemma other_ids_untouched_witness :
  no_dquote "a1" = true
  /\ "b2" <> "a1"
  /\ (forall t',
        table (snd (update_todo 1704300000000 "a1" "buy oat milk" (live new_year)))
        = Some t' ->
        rows_under "b2" t' = rows_under "b2" new_year).
Proof.
  split; [reflexivity|]. split; [discriminate|].
  apply (other_ids_untouched new_year embed true [] 1704300000000 "a1" "buy oat milk"
           "b2"); [reflexivity | discriminate].
Defined.

(** X7 at the three-row table. *)
Lemma ids_stay_distinct_witness :
  NoDup (map row_id new_year)
  /\ no_dquote "a1" = true
  /\ ~ In "d4" (map row_id new_year)
  /\ (forall t',
        table (snd (add_todo "d4" 1704300000000 "dust the shelves" (live new_year)))
        = Some t' ->
        NoDup (map row_id t')).
Proof.
  assert (Hnd : NoDup (map row_id new_year)).
  { repeat constructor; cbn; intuition discriminate. }
  assert (Hfresh : ~ In "d4" (map row_id new_year)).
  { cbn. intuition discriminate. }
  split; [exact Hnd|]. split; [reflexivity|]. split; [exact Hfresh|].
  exact (proj1 (ids_stay_distinct new_year embed [] 1704300000000 "a1" "d4"
                  "dust the shelves" Hnd eq_refl Hfresh)).
Defined.

(** X10 at a range from 3 January back to 2 January 2024. *)
Lemma search_inverted_range_witness :
  blank (Some "bread") = false
  /\ start_ms getTime (Some "2024-01-03") = Some 1704240000000
  /\ end_ms getTime (Some "2024-01-02") = Some 1704239999999
  /\ 1704239999999 < 1704240000000
  /\ fst (search_todos l2 getTime (Some "bread") (Some "2024-01-03")
             (Some "2024-01-02") (live new_year))
     = JObj [("success", JBool true); ("results", JArr [])].
Proof.
  split; [reflexivity|]. split; [reflexivity|]. split; [reflexivity|].
  split; [reflexivity|].
  apply (search_inverted_range_is_empty l2 getTime new_year embed true [] "bread"
           (Some "2024-01-03") (Some "2024-01-02") 1704240000000 1704239999999);
    reflexivity.
Defined.

(** X11 at the three-row table. *)
Lemma search_small_table_witness :
  blank (Some "bread") = false
  /\ (length new_year <= 10)%nat
  /\ exists rows,
       fst (search_todos l2 getTime (Some "bread") None None (live new_year))
       = JObj [("success", JBool true);
               ("results", JArr (map (result_of_row l2 (embed "bread")) rows))]
       /\ Permutation rows new_year.
Proof.
  assert (Hlen : (length new_year <= 10)%nat) by (vm_compute; lia).
  split; [reflexivity|]. split; [exact Hlen|].
  exact (search_small_table_returns_all l2 getTime new_year embed true [] "bread"
           eq_refl Hlen).
Defined.

(** X12 with two requests that come too early. *)
Lemma initialization_on_fresh_disk_witness :
  Imported <> @Rejected Vec
  /\ run l2 getTime zeros None
         (invoke_all [(draws, GetTodos)] ++ Settle Imported
            :: invoke_all [(draws, AddTodo "buy milk")]
            ++ Settle (PipelineLoaded embed)
            :: invoke_all [] ++ [Settle (TableReady 1704000000000); Settle Imported])%list
         boot
     = (PcReady, store [] embed true [CallTableDelete dummy_filter]).
Proof.
  split; [discriminate|].
  apply (initialization_on_fresh_disk l2 getTime zeros embed 1704000000000 Imported
           [(draws, GetTodos)] [(draws, AddTodo "buy milk")] []).
  discriminate.
Defined.

(** X14 at a pipeline that fails to load. *)
Lemma early_failure_witness :
  early (fst (run l2 getTime zeros None [Settle Imported] boot)) = true
  /\ run l2 getTime zeros None
         ([Settle Imported] ++ Settle Rejected
            :: [Settle (PipelineLoaded embed); Invoke draws (AddTodo "buy milk")])%list
         boot
     = (PcFailed, snd (run l2 getTime zeros None [Settle Imported] boot)).
Proof.
  split; [reflexivity|].
  apply (early_failure_is_final l2 getTime zeros None [Settle Imported]
           [Settle (PipelineLoaded embed); Invoke draws (AddTodo "buy milk")]
           draws GetTodos).
  reflexivity.
Defined.

(** X16 after a first start, at the empty text. *)
Lemma add_succeeds_once_ready_witness :
  let w := snd (run l2 getTime zeros None
                    [Settle Imported; Settle (PipelineLoaded embed);
                     Settle (TableReady 1704000000000); Settle Imported] boot) in
  ready w = true
  /\ exists t e,
       table w = Some t /\ embedder w = Some e
       /\ fst (handle l2 getTime draws (AddTodo "") w)
          = JObj [("success", JBool true);
                  ("item", item_object "n4n0" "" 1704200000000)]
       /\ table (snd (handle l2 getTime draws (AddTodo "") w))
          = Some (t ++ [{| row_id := "n4n0"; row_text := "";
                           row_vector := e ""; row_timestamp := 1704200000000 |}])%list.
Proof.
  intros w. split; [reflexivity|].
  apply (add_todo_succeeds_once_ready l2 getTime zeros None
           [Settle Imported; Settle (PipelineLoaded embed);
            Settle (TableReady 1704000000000); Settle Imported] draws "").
  reflexivity.
Defined.

(** X17 at the three-row table. *)
Lemma fetch_shows_oldest_first_witness :
  todoInput_disabled home = false
  /\ StronglySorted (fun a b => shown_time a <= shown_time b)
       (todoList (fetchTodos (fst (get_todos l2 (live new_year))) home)).
Proof.
  split; [reflexivity|].
  apply (fetch_shows_oldest_first l2 new_year embed true [] home). reflexivity.
Defined.

(** X18 at the three-row table. *)
Lemma added_todo_on_top_witness :
  todoInput_disabled home = false
  /\ (length new_year < 500)%nat
  /\ (forall r, In r new_year -> row_timestamp r < 1704300000000)
  /\ let added := add_todo "d4" 1704300000000 "dust the shelves" (live new_year) in
     let li := TodoItem (new_li (item_object "d4" "dust the shelves" 1704300000000)
                                false) in
     hd_error (todoList (on_add_reply (fst added) home)) = Some li
     /\ hd_error (rev (todoList (fetchTodos (fst (get_todos l2 (snd added)))
                                             (on_add_reply (fst added) home))))
        = Some li.
Proof.
  assert (Hlen : (length new_year < 500)%nat) by (vm_compute; lia).
  assert (Hold : forall r, In r new_year -> row_timestamp r < 1704300000000).
  { intros r [<-|[<-|[<-|[]]]]; reflexivity. }
  split; [reflexivity|]. split; [exact Hlen|]. split; [exact Hold|].
  exact (added_todo_on_top_then_at_bottom l2 new_year embed [] "d4" 1704300000000
           "dust the shelves" home eq_refl Hlen Hold).
Defined.

(** X19 at a search on 2 January 2024. *)
Lemma search_results_shown_witness :
  blank (Some "bread") = false
  /\ searchResultsList
       (on_search_reply
          (fst (search_todos l2 getTime (Some "bread") (Some "2024-01-02")
                             (Some "2024-01-02") (live new_year)))
          home)
     = [TodoItem (result_li "b2" "buy bread" 1704239999999 16)]
  /\ todoList (on_search_reply
                 (fst (search_todos l2 getTime (Some "bread") (Some "2024-01-02")
                                    (Some "2024-01-02") (live new_year)))
                 home)
     = todoList home.
Proof.
  split; [reflexivity|]. split; [vm_compute; reflexivity|].
  destruct (search_results_shown_in_reply_order l2 getTime new_year embed true []
              "bread" (Some "2024-01-02") (Some "2024-01-02") home eq_refl)
    as (rows & _ & _ & H).
  exact H.
Defined.

(** X21 at the distances 1/2 and 1. *)
Lemma similarity_of_score_witness :
  (0 <= 1 # 2)%Q /\ (1 # 2 <= 1)%Q /\ (1 <= 2)%Q
  /\ score_text (1 # 2) = Similarity ((1 - (1 # 2) / 2) * 100)
  /\ score_text 1 = Similarity ((1 - 1 / 2) * 100)
  /\ ((1 - 1 / 2) * 100 <= (1 - (1 # 2) / 2) * 100)%Q.
Proof.
  assert (H1 : (0 <= 1 # 2)%Q) by (unfold Qle; simpl; lia).
  assert (H2 : (1 # 2 <= 1)%Q) by (unfold Qle; simpl; lia).
  assert (H3 : (1 <= 2)%Q) by (unfold Qle; simpl; lia).
  split; [exact H1|]. split; [exact H2|]. split; [exact H3|].
  destruct (similarity_of_score (1 # 2) 1 H1 H2 H3) as (E1 & E2 & _ & H & _).
  auto.
Defined.

(** X22 at the page [home] with a draft in the text input. *)
Lemma cancel_undoes_edit_witness :
  idle (set_todoInput_value "eggs" home)
  /\ String.prefix "Error" (status (set_todoInput_value "eggs" home)) = false
  /\ exitEditMode (click_edit milk_li (set_todoInput_value "eggs" home)) = home.
Proof.
  assert (Hidle : idle (set_todoInput_value "eggs" home)).
  { unfold idle. repeat split; try reflexivity; repeat constructor. }
  split; [exact Hidle|]. split; [reflexivity|].
  exact (cancel_undoes_edit (set_todoInput_value "eggs" home) milk_li Hidle eq_refl).
Defined.

(** X23 at the page [home]. *)
Lemma failed_fetch_witness :
  todoInput_disabled home = false
  /\ editingTodoIdInput_value home = ""
  /\ js_truthy (js_get "success" failure) = false
  /\ In (TodoItem milk_li) (todoList home ++ searchResultsList home)%list
  /\ li_disabled milk_li = false
  /\ searchInput_disabled (exitEditMode (click_edit milk_li (fetchTodos failure home)))
     = true.
Proof.
  assert (Hin : In (TodoItem milk_li) (todoList home ++ searchResultsList home)%list)
    by (left; reflexivity).
  split; [reflexivity|]. split; [reflexivity|]. split; [reflexivity|].
  split; [exact Hin|]. split; [reflexivity|].
  exact (proj1 (failed_fetch_then_edit_locks_page home failure milk_li eq_refl eq_refl
                  eq_refl Hin eq_refl)).
Defined.

(** X24 at a text with no-break spaces and a blank around it. *)
Lemma renderer_sends_trimmed_witness :
  request_of getTime (ClickAdd (nbsp ++ " buy milk" ++ nbsp))
  = Some (@AddTodo "buy milk")
  /\ trim "buy milk" = "buy milk" /\ "buy milk" <> "".
Proof.
  split; [reflexivity|].
  exact (renderer_sends_trimmed_texts getTime (ClickAdd (nbsp ++ " buy milk" ++ nbsp))
           (AddTodo "buy milk") eq_refl).
Defined.

(** X25 at two consecutive days. *)
Lemma renderer_sends_ordered_dates_witness :
  request_of getTime (ClickSearch " bread" "2024-01-02" "2024-01-03")
  = Some (SearchTodos (Some "bread") (Some "2024-01-02") (Some "2024-01-03"))
  /\ Some "2024-01-02" <> Some ""
  /\ Some "2024-01-03" <> Some "".
Proof.
  split; [reflexivity|].
  destruct (renderer_sends_ordered_dates getTime " bread" "2024-01-02" "2024-01-03"
              (Some "bread") (Some "2024-01-02") (Some "2024-01-03") eq_refl)
    as (H1 & H2 & _).
  split; [exact H1 | exact H2].
Defined.
